(* ===================================================================== *)
(*  Crypto-Dashboard: validator, persistence ledger and alert engine      *)
(*                                                                       *)
(*  A shallow embedding of security_config.py, data_logger.py and         *)
(*  alert_system.py, with the properties of the ledger's duplicate        *)
(*  check, its return count, its purge, the validator's boundaries and    *)
(*  the alert engine's threshold and cooldown.                            *)
(* ===================================================================== *)

From Stdlib Require Import ZArith QArith Qpower Qabs Lia Lqa Bool.
From Stdlib Require Import Floats.SpecFloat.
From stdpp Require Import base option list gmap strings sorting.

Local Open Scope Z_scope.

(* ===================================================================== *)
(** * Python values                                                       *)
(* ===================================================================== *)

Module Py.

(** The values a price record can hold. A float is an IEEE binary64 in
    Stdlib's inductive form: zero, infinity, NaN or sign/mantissa/exponent
    with value [(-1)^s * m * 2^e]. *)
Inductive PyVal : Type :=
| PyNone
| PyBool (b : bool)
| PyInt (z : Z)
| PyFloat (f : spec_float)
| PyStr (s : string).

#[export] Instance spec_float_eq_dec : EqDecision spec_float.
Proof. solve_decision. Defined.

#[export] Instance PyVal_eq_dec : EqDecision PyVal.
Proof. solve_decision. Defined.

(** Python floats are the binary64 values. *)
Definition prec : Z := 53.
Definition emax : Z := 1024.
Definition is_binary64 (f : spec_float) : bool := valid_binary prec emax f.

(** Exceptions that the modelled code can raise. *)
Inductive exn : Type := TypeError | KeyError | OverflowError.

Inductive result (A : Type) : Type :=
| Ok (a : A)
| Raise (e : exn).
Arguments Ok {A} a.
Arguments Raise {A} e.

#[export] Instance result_ret : MRet result := fun A a => Ok a.
#[export] Instance result_bind : MBind result := fun A B k r =>
  match r with
  | Ok a => k a
  | Raise e => Raise e
  end.

(** [isinstance(v, (int, float))]: bool is a subclass of int. *)
Definition isinstance_int_float (v : PyVal) : bool :=
  match v with
  | PyBool _ | PyInt _ | PyFloat _ => true
  | _ => false
  end.

(** [isinstance(v, int)]. *)
Definition isinstance_int (v : PyVal) : bool :=
  match v with
  | PyBool _ | PyInt _ => true
  | _ => false
  end.

(** The integer behind an int or a bool. *)
Definition int_value (v : PyVal) : option Z :=
  match v with
  | PyBool b => Some (Z.b2z b)
  | PyInt z => Some z
  | _ => None
  end.

(** ** Numeric comparison

    Python compares ints and floats by exact mathematical value (an int is
    never rounded to a float first), and every ordered comparison with NaN
    is false. A number is read as NaN, an infinity, or the dyadic rational
    [m * 2^e]. *)
Inductive xnum : Type :=
| XNaN
| XInf (neg : bool)
| XFin (m e : Z).

Definition float_num (f : spec_float) : xnum :=
  match f with
  | S754_zero _ => XFin 0 0
  | S754_infinity s => XInf s
  | S754_nan => XNaN
  | S754_finite s m e => XFin (cond_Zopp s (Z.pos m)) e
  end.

Definition to_num (v : PyVal) : option xnum :=
  match v with
  | PyBool b => Some (XFin (Z.b2z b) 0)
  | PyInt z => Some (XFin z 0)
  | PyFloat f => Some (float_num f)
  | _ => None
  end.

(** Exact comparison of [m1 * 2^e1] with [m2 * 2^e2]: both are brought to
    the smaller exponent. *)
Definition fin_compare (m1 e1 m2 e2 : Z) : comparison :=
  let k := Z.min e1 e2 in
  (m1 * 2 ^ (e1 - k) ?= m2 * 2 ^ (e2 - k)).

Definition num_compare (a b : xnum) : option comparison :=
  match a, b with
  | XNaN, _ | _, XNaN => None
  | XInf s1, XInf s2 =>
      Some (if Bool.eqb s1 s2 then Eq else if s1 then Lt else Gt)
  | XInf s, XFin _ _ => Some (if s then Lt else Gt)
  | XFin _ _, XInf s => Some (if s then Gt else Lt)
  | XFin m1 e1, XFin m2 e2 => Some (fin_compare m1 e1 m2 e2)
  end.

Definition num_le (a b : xnum) : bool :=
  match num_compare a b with Some Lt | Some Eq => true | _ => false end.
Definition num_lt (a b : xnum) : bool :=
  match num_compare a b with Some Lt => true | _ => false end.
Definition num_ge (a b : xnum) : bool :=
  match num_compare a b with Some Gt | Some Eq => true | _ => false end.
Definition num_gt (a b : xnum) : bool :=
  match num_compare a b with Some Gt => true | _ => false end.

(** The operators [<=], [>], [>=] on values: TypeError off the numbers
    (the code never compares two strings). *)
Definition py_cmp (op : xnum -> xnum -> bool) (a b : PyVal) : result bool :=
  match to_num a, to_num b with
  | Some x, Some y => Ok (op x y)
  | _, _ => Raise TypeError
  end.

Definition py_le := py_cmp num_le.
Definition py_lt := py_cmp num_lt.
Definition py_ge := py_cmp num_ge.
Definition py_gt := py_cmp num_gt.

(** [abs(v)]: an int for an int or a bool, a float for a float. *)
Definition py_abs (v : PyVal) : result PyVal :=
  match v with
  | PyBool b => Ok (PyInt (Z.b2z b))
  | PyInt z => Ok (PyInt (Z.abs z))
  | PyFloat f => Ok (PyFloat (SFabs f))
  | _ => Raise TypeError
  end.

(** [float(v)] for a number: the identity on floats; an int is rounded to
    the nearest binary64 (ties to even) and one too large for a finite
    binary64 raises OverflowError. *)
Definition int_to_float (z : Z) : result spec_float :=
  match binary_normalize prec emax z 0 false with
  | S754_infinity _ => Raise OverflowError
  | f => Ok f
  end.

Definition py_float (v : PyVal) : result spec_float :=
  match v with
  | PyBool b => int_to_float (Z.b2z b)
  | PyInt z => int_to_float z
  | PyFloat f => Ok f
  | _ => Raise TypeError
  end.

(** ** The rational a finite number stands for *)

Definition dyadic_Q (m e : Z) : Q := (inject_Z m * 2 ^ e)%Q.

Definition num_Q (a : xnum) : option Q :=
  match a with
  | XFin m e => Some (dyadic_Q m e)
  | _ => None
  end.

(** The value of a finite int, bool or float; [None] for NaN, the
    infinities and what is not a number. *)
Definition value (v : PyVal) : option Q :=
  match to_num v with
  | Some a => num_Q a
  | None => None
  end.

End Py.

Import Py.

(** A price record ([price_data]) is a dict from field names to values. *)
Abbreviation PriceData := (gmap string PyVal).

(** The batch [prices] is a dict from symbols to price records. A dict is
    iterated in insertion order and holds a key once: it is modelled by the
    list of its items, and [dict_items] says that the keys are distinct. *)
Abbreviation Prices := (list (string * gmap string PyVal)).

Definition dict_items (prices : Prices) : Prop := NoDup (prices.*1).

(** [d[k]]: KeyError when the key is absent. *)
Definition getitem (d : PriceData) (k : string) : result PyVal :=
  match d !! k with
  | Some v => Ok v
  | None => Raise KeyError
  end.

(** [try: ... except Exception: return False]. *)
Definition except_false (r : result bool) : bool :=
  match r with
  | Ok b => b
  | Raise _ => false
  end.

(** Instants ([datetime]) and durations ([timedelta]) are counted in
    microseconds, the resolution of both types. *)
Definition SECOND : Z := 1000000.
Definition MINUTE : Z := 60 * SECOND.
Definition DAY : Z := 86400 * SECOND.

(* ===================================================================== *)
(** * security_config.py                                                  *)
(* ===================================================================== *)

Module SecurityConfig.

Definition MAX_SYMBOL_LENGTH : Z := 50.
Definition MAX_PRICE_VALUE : Z := 1000000000.
Definition MAX_CHANGE_PERCENT : Z := 1000.

(** [validate_price]: the body of the [try], then the [except]. *)
Definition validate_price_body (price : PyVal) : result bool :=
  if negb (isinstance_int_float price) then Ok false
  else
    nonpos ← py_le price (PyInt 0);
    if nonpos : bool then Ok false
    else
      above ← py_gt price (PyInt MAX_PRICE_VALUE);
      if above : bool then Ok false else Ok true.

Definition validate_price (price : PyVal) : bool :=
  except_false (validate_price_body price).

(** [validate_change_percent]. *)
Definition validate_change_percent_body (change : PyVal) : result bool :=
  if negb (isinstance_int_float change) then Ok false
  else
    a ← py_abs change;
    above ← py_gt a (PyInt MAX_CHANGE_PERCENT);
    if above : bool then Ok false else Ok true.

Definition validate_change_percent (change : PyVal) : bool :=
  except_false (validate_change_percent_body change).

Definition required_fields : list string := ["price"; "change_24h"; "type"].

Definition asset_types : list PyVal := [PyStr "crypto"; PyStr "stock"].

(** [validate_price_data]: the symbol is a [str] by its type, so
    [not symbol] is the test for the empty string. *)
Definition validate_price_data_body (symbol : string) (price_data : PriceData)
  : result bool :=
  if bool_decide (symbol = "") then Ok false
  else if negb (forallb (fun field => bool_decide (is_Some (price_data !! field)))
                  required_fields) then Ok false
  else
    price ← getitem price_data "price";
    if negb (validate_price price) then Ok false
    else
      change ← getitem price_data "change_24h";
      if negb (validate_change_percent change) then Ok false
      else
        ty ← getitem price_data "type";
        if negb (bool_decide (ty ∈ asset_types)) then Ok false
        else Ok true.

Definition validate_price_data (symbol : string) (price_data : PriceData) : bool :=
  except_false (validate_price_data_body symbol price_data).

End SecurityConfig.

(* ===================================================================== *)
(** * alert_system.py                                                     *)
(* ===================================================================== *)

Module AlertSystem.

(** config.ALERT_THRESHOLD = 5.0 and config.ALERT_COOLDOWN = 300. *)
Definition ALERT_THRESHOLD : spec_float := S754_finite false 5629499534213120 (-50).
Definition ALERT_COOLDOWN : Z := 300.

(** The object's fields that the alert check reads and writes. The
    threshold is always a float (5.0 at first, [float(...)] afterwards);
    the cooldown is an int of seconds (a bool passed to [update_cooldown]
    is kept as the int it equals). *)
Record t : Type := mk {
  threshold : spec_float;
  cooldown : Z;
  last_alerts : gmap string Z
}.

Definition init : t :=
  {| threshold := ALERT_THRESHOLD; cooldown := ALERT_COOLDOWN; last_alerts := ∅ |}.

(** The alert dict. Its ['message'] is a rendering of the symbol, price,
    change and threshold; the one part of it that is computed,
    [change_24h > 0] (increased or decreased), is kept as a flag. *)
Record Alert : Type := mkAlert {
  alert_symbol : string;
  alert_price : PyVal;
  alert_change_24h : PyVal;
  alert_threshold : spec_float;
  alert_timestamp : Z;
  alert_type : PyVal;
  alert_increased : bool
}.

(** The log lines of the two update methods. *)
Inductive LogRecord : Type :=
| InvalidThreshold (v : PyVal)
| ThresholdUpdated (v : PyVal)
| InvalidCooldown (v : PyVal)
| CooldownUpdated (v : PyVal).

(** [_can_send_alert]. [total_seconds()] is the float nearest to the
    elapsed microseconds over 10^6; it is compared here as the exact
    quotient, which gives the same answer for every cooldown below 2^34
    seconds (a microsecond is then more than half an ulp). *)
Definition _can_send_alert (self : t) (symbol : string) (current_time : Z) : bool :=
  match last_alerts self !! symbol with
  | None => true
  | Some last =>
      let time_since_last := current_time - last in
      bool_decide (cooldown self * SECOND <= time_since_last)
  end.

(** One turn of the loop of [check_price_alerts]. The method has no
    [try]: [Raise e] is an exception that would escape it (none does, see
    [check_price_alerts_returns]). *)
Definition check_item (current_time : Z) (self : t) (alerts : list Alert)
    (symbol : string) (price_data : PriceData) : result (t * list Alert) :=
  if negb (SecurityConfig.validate_price_data symbol price_data) then Ok (self, alerts)
  else
    let change_24h := default (PyInt 0) (price_data !! "change_24h") in
    let price := default (PyInt 0) (price_data !! "price") in
    magnitude ← py_abs change_24h;
    crossing ← py_ge magnitude (PyFloat (threshold self));
    if crossing : bool then
      if _can_send_alert self symbol current_time then
        increased ← py_gt change_24h (PyInt 0);
        let alert :=
          {| alert_symbol := symbol;
             alert_price := price;
             alert_change_24h := change_24h;
             alert_threshold := threshold self;
             alert_timestamp := current_time;
             alert_type := default (PyStr "unknown") (price_data !! "type");
             alert_increased := increased |} in
        Ok (mk (threshold self) (cooldown self)
              (<[symbol := current_time]> (last_alerts self)),
            alerts ++ [alert])
      else Ok (self, alerts)
    else Ok (self, alerts).

Fixpoint check_items (current_time : Z) (self : t) (alerts : list Alert)
    (items : Prices) : result (t * list Alert) :=
  match items with
  | [] => Ok (self, alerts)
  | (symbol, price_data) :: rest =>
      r ← check_item current_time self alerts symbol price_data;
      check_items current_time r.1 r.2 rest
  end.

(** [check_price_alerts], with [current_time] the reading of
    [datetime.now()]. The object after the call and the returned list. *)
Definition check_price_alerts (self : t) (current_time : Z) (prices : Prices)
  : result (t * list Alert) :=
  match prices with
  | [] => Ok (self, [])
  | _ => check_items current_time self [] prices
  end.

(** [update_threshold]. [Raise e]: the call raises [e] before the
    assignment, the object is as it was. *)
Definition update_threshold (self : t) (new_threshold : PyVal)
  : result (t * list LogRecord) :=
  invalid ← (if negb (isinstance_int_float new_threshold) then Ok true
              else py_le new_threshold (PyInt 0));
  if invalid : bool then Ok (self, [InvalidThreshold new_threshold])
  else
    f ← py_float new_threshold;
    Ok (mk f (cooldown self) (last_alerts self), [ThresholdUpdated new_threshold]).

(** [update_cooldown]: [isinstance(new_cooldown, int)] holds of the ints
    and the bools, the values [int_value] reads. *)
Definition update_cooldown (self : t) (new_cooldown : PyVal)
  : result (t * list LogRecord) :=
  match int_value new_cooldown with
  | None => Ok (self, [InvalidCooldown new_cooldown])
  | Some seconds =>
      if bool_decide (seconds <= 0) then Ok (self, [InvalidCooldown new_cooldown])
      else Ok (mk (threshold self) seconds (last_alerts self),
               [CooldownUpdated new_cooldown])
  end.

End AlertSystem.

(* ===================================================================== *)
(** * data_logger.py                                                      *)
(* ===================================================================== *)

Module DataLogger.

Definition DEFAULT_CLEANUP_DAYS : Z := 30.
Definition MAX_CLEANUP_DAYS : Z := 3650.

(** A row as it is handed to both sinks: the five columns of the INSERT
    and of the CSV line (the table's [id] and [created_at] are filled in
    by SQLite and never read back by the code below). *)
Record Row : Type := mkRow {
  timestamp : Z;
  symbol : string;
  price : PyVal;
  change_24h : PyVal;
  asset_type : PyVal
}.

#[export] Instance Row_eq_dec : EqDecision Row.
Proof. solve_decision. Defined.

(** The two sinks: the SQLite table [price_data] and the CSV file, each
    the list of its rows in insertion order. *)
Record t : Type := mk {
  table : list Row;
  csv : list Row
}.

Definition empty : t := {| table := []; csv := [] |}.

(** What the storage does during one call of [log_prices]: whether the
    duplicate query for a symbol raises, whether the SQLite write raises,
    whether the CSV write raises. Each is caught by the method it occurs
    in. An SQLite write that raises has not committed, so the table is as
    it was; a CSV write that raises is taken to have appended nothing. *)
Record Faults : Type := mkFaults {
  dup_query_fails : string -> bool;
  sqlite_write_fails : bool;
  csv_write_fails : bool
}.

Definition no_faults : Faults :=
  {| dup_query_fails := fun _ => false;
     sqlite_write_fails := false;
     csv_write_fails := false |}.

(** The WHERE clause of the duplicate query. *)
Definition in_window (symbol : string) (asset_type : PyVal)
    (start_time end_time : Z) (r : Row) : bool :=
  bool_decide (r.(DataLogger.symbol) = symbol)
  && bool_decide (r.(DataLogger.asset_type) = asset_type)
  && bool_decide (start_time <= r.(timestamp) <= end_time).

(** [_is_duplicate]: [fails] says that the query raised. *)
Definition _is_duplicate (fails : bool) (rows : list Row)
    (symbol : string) (timestamp : Z) (asset_type : PyVal) : bool :=
  if fails then false
  else
    let time_window := MINUTE in
    let start_time := timestamp - time_window in
    let end_time := timestamp + time_window in
    let count := length (filter (fun r => in_window symbol asset_type start_time end_time r = true) rows) in
    bool_decide (0 < count)%nat.

(** The loop of [log_prices] that fills [data_to_log]. *)
Fixpoint collect (faults : Faults) (rows : list Row) (current_time : Z)
    (items : Prices) (data_to_log : list Row) : result (list Row) :=
  match items with
  | [] => Ok data_to_log
  | (symbol, price_data) :: rest =>
      if negb (SecurityConfig.validate_price_data symbol price_data)
      then collect faults rows current_time rest data_to_log
      else
        ty ← getitem price_data "type";
        if _is_duplicate (dup_query_fails faults symbol) rows symbol current_time ty
        then collect faults rows current_time rest data_to_log
        else
          p ← getitem price_data "price";
          c ← getitem price_data "change_24h";
          collect faults rows current_time rest
            (data_to_log ++ [mkRow current_time symbol p c ty])
  end.

(** [_log_to_sqlite] and [_log_to_csv]: the sink after the call and the
    returned count. A row holds the values as they are handed to the
    INSERT. A write that SQLite refuses, as it does a NaN price (NULL in a
    NOT NULL column), is a write that raises ([fails]); what the REAL
    columns give back on a read is the value handed for a finite float,
    the float it equals for an int or a bool, and NULL for a NaN
    change. *)
Definition _log_to_sqlite (fails : bool) (rows data : list Row) : list Row * Z :=
  if fails then (rows, 0) else (rows ++ data, Z.of_nat (length data)).

Definition _log_to_csv (fails : bool) (rows data : list Row) : list Row * Z :=
  if fails then (rows, 0) else (rows ++ data, Z.of_nat (length data)).

(** [log_prices], with [current_time] the reading of [datetime.now()]:
    the ledger after the call and the returned count. *)
Definition log_prices (faults : Faults) (self : t) (current_time : Z)
    (prices : Prices) : t * Z :=
  match prices with
  | [] => (self, 0)
  | _ =>
      let logged_count := 0 in
      match collect faults (table self) current_time prices [] with
      | Raise _ => (self, 0)
      | Ok [] => (self, 0)
      | Ok data_to_log =>
          let '(table', n_sqlite) :=
            _log_to_sqlite (sqlite_write_fails faults) (table self) data_to_log in
          let logged_count := logged_count + n_sqlite in
          let '(csv', n_csv) :=
            _log_to_csv (csv_write_fails faults) (csv self) data_to_log in
          let logged_count := logged_count + n_csv in
          ({| table := table'; csv := csv' |}, logged_count)
      end
  end.

(** The log lines of [cleanup_old_data]. *)
Inductive LogRecord : Type :=
| CleanedUp (deleted_count : Z)
| CleanupError.

(** [cleanup_old_data]: the ledger after the call, the value the call
    returns (the method has no [return] statement) and what it logs.
    [fails] says that the database raised, in which case nothing is
    committed. *)
Definition cleanup_old_data (fails : bool) (self : t) (now : Z) (days : PyVal)
  : t * PyVal * list LogRecord :=
  let days :=
    match int_value days with
    | None => DEFAULT_CLEANUP_DAYS
    | Some d =>
        if bool_decide (d <= 0) || bool_decide (d > MAX_CLEANUP_DAYS)
        then DEFAULT_CLEANUP_DAYS else d
    end in
  if fails then (self, PyNone, [CleanupError])
  else
    let cutoff_date := now - days * DAY in
    let deleted := filter (fun r => r.(timestamp) < cutoff_date) (table self) in
    let deleted_count := Z.of_nat (length deleted) in
    ({| table := filter (fun r => ¬ (r.(timestamp) < cutoff_date)) (table self);
        csv := csv self |},
     PyNone, [CleanedUp deleted_count]).

End DataLogger.

(* ===================================================================== *)
(** * Sample data                                                         *)
(* ===================================================================== *)

Section Samples.

(** The smallest positive binary64, 2^-1074. *)
Definition smallest_positive : spec_float := S754_finite false 1 (-1074).

(** The binary64 literal of the dyadic [m * 2^e]. *)
Definition float_lit (m e : Z) : spec_float := binary_normalize prec emax m e false.

(** The test record of the modules' self tests: bitcoin at 45000.0 (its
    ['timestamp'] field, which neither module reads, is left out). *)
Definition bitcoin (change : PyVal) : PriceData :=
  {[ "symbol"%string := PyStr "bitcoin";
     "price"%string := PyFloat (float_lit 45000 0);
     "change_24h"%string := change;
     "type"%string := PyStr "crypto" ]}.

Definition bitcoin_batch (change : PyVal) : Prices :=
  [("bitcoin"%string, bitcoin change)].

Definition bitcoin_row (now : Z) (change : PyVal) : DataLogger.Row :=
  DataLogger.mkRow now "bitcoin" (PyFloat (float_lit 45000 0)) change (PyStr "crypto").

(** +2.5, +7.5 and +8.0 as changes. *)
Definition plus_2_5 : PyVal := PyFloat (float_lit 5 (-1)).
Definition plus_7_5 : PyVal := PyFloat (float_lit 15 (-1)).
Definition plus_8_0 : PyVal := PyFloat (float_lit 8 0).

(** A storage whose duplicate query raises for every symbol. *)
Definition query_down : DataLogger.Faults :=
  DataLogger.mkFaults (fun _ => true) false false.

(** A storage whose SQLite write raises while the CSV write goes through. *)
Definition sqlite_down : DataLogger.Faults :=
  DataLogger.mkFaults (fun _ => false) true false.

End Samples.

(* ===================================================================== *)
(** * Vocabulary of the properties of the alert engine                    *)
(* ===================================================================== *)

Section AlertVocabulary.

Import SecurityConfig AlertSystem.

(** The test [abs(change_24h) >= self.threshold] on a value. *)
Definition crossing (thr : spec_float) (c : PyVal) : bool :=
  match py_abs c with
  | Ok a => except_false (py_ge a (PyFloat thr))
  | Raise _ => false
  end.

(** The alert built for an accepted record with change [c]. *)
Definition alert_of (self : t) (now : Z) (symbol : string) (pd : PriceData)
    (c : PyVal) : Alert :=
  {| alert_symbol := symbol;
     alert_price := default (PyInt 0) (pd !! "price"%string);
     alert_change_24h := c;
     alert_threshold := threshold self;
     alert_timestamp := now;
     alert_type := default (PyStr "unknown") (pd !! "type"%string);
     alert_increased := except_false (py_gt c (PyInt 0)) |}.

(** The object once an alert for [symbol] went out at [now]. *)
Definition alerted (self : t) (symbol : string) (now : Z) : t :=
  AlertSystem.mk (threshold self) (cooldown self) (<[symbol := now]> (last_alerts self)).

(** The alerts for [symbol] in a returned list. *)
Definition alerts_for (symbol : string) (alerts : list Alert) : list Alert :=
  filter (fun a => alert_symbol a = symbol) alerts.

(** A sequence of calls of [check_price_alerts], each with its reading of
    the clock: the object and the returned list after each call. *)
Fixpoint check_sequence (self : t) (calls : list (Z * Prices))
  : result (list (t * list Alert)) :=
  match calls with
  | [] => Ok []
  | (now, prices) :: rest =>
      r ← check_price_alerts self now prices;
      trace ← check_sequence r.1 rest;
      Ok (r :: trace)
  end.

(** A record on both boundaries: the price is MAX_PRICE_VALUE, the change
    is -1000.0. *)
Definition boundary_record : PriceData :=
  {[ "price"%string := PyInt MAX_PRICE_VALUE;
     "change_24h"%string := PyFloat (SFopp (float_lit 1000 0));
     "type"%string := PyStr "stock" ]}.

(** A change of exactly -5.0 under the threshold 5.0. *)
Definition minus_5_0 : PyVal := PyFloat (SFopp (float_lit 5 0)).

End AlertVocabulary.

(* ===================================================================== *)
(** * Vocabulary of the properties of the ledger                          *)
(* ===================================================================== *)

Section LedgerVocabulary.

Import SecurityConfig DataLogger.

(** Two rows are far apart when they are of different symbols or asset
    types, or their timestamps are more than the one-minute window apart. *)
Definition far (r1 r2 : Row) : Prop :=
  symbol r1 = symbol r2 -> asset_type r1 = asset_type r2 ->
  MINUTE < Z.abs (timestamp r1 - timestamp r2).

(** The dedup invariant of a sink: any two of its rows are far apart. *)
Definition separated (rows : list Row) : Prop :=
  forall (i j : nat) (r1 r2 : Row),
    (i < j)%nat -> rows !! i = Some r1 -> rows !! j = Some r2 -> far r1 r2.

(** One call of [log_prices]: what the storage does, the clock, the batch. *)
Record Call : Type := mkCall {
  call_faults : Faults;
  call_time : Z;
  call_prices : Prices
}.

(** A sequence of calls of [log_prices]: the ledger at the end. *)
Fixpoint log_sequence (self : DataLogger.t) (calls : list Call) : DataLogger.t :=
  match calls with
  | [] => self
  | c :: rest =>
      log_sequence (log_prices (call_faults c) self (call_time c) (call_prices c)).1 rest
  end.

(** The row that one item of the batch contributes to [data_to_log]. *)
Definition candidate (faults : Faults) (rows : list Row) (now : Z)
    (item : string * PriceData) : option Row :=
  if validate_price_data item.1 item.2 then
    match item.2 !! "type"%string, item.2 !! "price"%string,
          item.2 !! "change_24h"%string with
    | Some ty, Some p, Some c =>
        if _is_duplicate (dup_query_fails faults item.1) rows item.1 now ty
        then None else Some (mkRow now item.1 p c ty)
    | _, _, _ => None
    end
  else None.

(** What a call must satisfy for the invariant: its batch is a dict, its
    duplicate queries do not fail and its SQLite write does not fail. *)
Definition undisturbed (c : Call) : Prop :=
  dict_items (call_prices c)
  /\ (forall s, dup_query_fails (call_faults c) s = false)
  /\ sqlite_write_fails (call_faults c) = false.

(** The invariant of the ledger: both sinks are separated and every row of
    the CSV file is a row of the table. *)
Definition ledger_ok (self : DataLogger.t) : Prop :=
  separated (table self) /\ separated (csv self)
  /\ forall r, r ∈ csv self -> r ∈ table self.

(** Two submissions of bitcoin, 30 seconds apart. *)
Definition first_call (faults : Faults) : Call :=
  mkCall faults 0 (bitcoin_batch plus_2_5).
Definition second_call (faults : Faults) : Call :=
  mkCall faults (30 * SECOND) (bitcoin_batch plus_2_5).

(** The scenario of the specification: rows stamped 40 days and 5 days
    before [now], in both sinks. *)
Definition purge_now : Z := 100 * DAY.
Definition old_row : Row := bitcoin_row (purge_now - 40 * DAY) plus_2_5.
Definition recent_row : Row := bitcoin_row (purge_now - 5 * DAY) plus_2_5.
Definition two_rows : DataLogger.t :=
  {| table := [old_row; recent_row]; csv := [old_row; recent_row] |}.

End LedgerVocabulary.

(* ===================================================================== *)
(** * data_logger.py: the read operations                                 *)
(* ===================================================================== *)

Module DataLoggerReads.

Import DataLogger.

Definition DEFAULT_LIMIT : Z := 50.
Definition MAX_LIMIT : Z := 1000.
Definition DEFAULT_HISTORY_HOURS : Z := 24.
Definition MAX_HISTORY_HOURS : Z := 8760.
Definition HOUR : Z := 3600 * SECOND.

(** The orders of the two queries. *)
Definition older (r1 r2 : Row) : Prop := timestamp r1 <= timestamp r2.
Definition newer (r1 r2 : Row) : Prop := timestamp r2 <= timestamp r1.

(** The columns [timestamp, price, change_24h] of the history query. *)
Definition history_columns (r : Row) : Z * PyVal * PyVal :=
  (timestamp r, price r, change_24h r).

(** What [get_summary_stats] returns when the database answers. *)
Record Summary : Type := mkSummary {
  total_entries : nat;
  unique_assets : nat;
  date_range : option Z * option Z;
  latest_entry : option Z
}.

(** [MIN(timestamp)] and [MAX(timestamp)]: NULL on the empty table. *)
Definition min_timestamp (rows : list Row) : option Z :=
  foldr (fun r acc => Some (from_option (Z.min (timestamp r)) (timestamp r) acc))
    None rows.
Definition max_timestamp (rows : list Row) : option Z :=
  foldr (fun r acc => Some (from_option (Z.max (timestamp r)) (timestamp r) acc))
    None rows.

Section Queries.

(** SQLite's [ORDER BY timestamp ASC] and [ORDER BY timestamp DESC]. How
    rows of equal timestamp are ordered is SQLite's choice, so the two
    orderings are taken as given; the properties below need of them only
    that they permute the rows and sort them. *)
Variable order_asc : list Row -> list Row.
Variable order_desc : list Row -> list Row.

(** [get_latest_prices]: the rows of the returned frame; an empty frame
    when the database raises ([fails]). *)
Definition get_latest_prices (fails : bool) (self : DataLogger.t) (limit : PyVal)
  : list Row :=
  let limit :=
    match int_value limit with
    | None => DEFAULT_LIMIT
    | Some n =>
        if bool_decide (n <= 0) || bool_decide (n > MAX_LIMIT)
        then DEFAULT_LIMIT else n
    end in
  if fails then []
  else take (Z.to_nat limit) (order_desc (table self)).

(** [get_asset_history], with [now] the reading of [datetime.now()]. *)
Definition get_asset_history (fails : bool) (self : DataLogger.t) (now : Z)
    (symbol : string) (hours : PyVal) : list (Z * PyVal * PyVal) :=
  if bool_decide (symbol = ""%string) then []
  else
    let hours :=
      match int_value hours with
      | None => DEFAULT_HISTORY_HOURS
      | Some h =>
          if bool_decide (h <= 0) || bool_decide (h > MAX_HISTORY_HOURS)
          then DEFAULT_HISTORY_HOURS else h
      end in
    if fails then []
    else
      let end_time := now in
      let start_time := end_time - hours * HOUR in
      history_columns <$>
        order_asc (filter (fun r => DataLogger.symbol r = symbol
                                    /\ start_time <= timestamp r <= end_time)
                     (table self)).

End Queries.

(** [get_summary_stats]: [None] stands for the empty dict returned when
    the database raises. *)
Definition get_summary_stats (fails : bool) (self : DataLogger.t) : option Summary :=
  if fails then None
  else
    Some {| total_entries := length (table self);
            unique_assets := length (remove_dups (DataLogger.symbol <$> table self));
            date_range := (min_timestamp (table self), max_timestamp (table self));
            latest_entry := max_timestamp (table self) |}.

End DataLoggerReads.

(** One way for SQLite to order rows: a stable merge sort on the
    timestamp. *)
#[global] Instance older_dec : RelDecision DataLoggerReads.older.
Proof. intros r1 r2. unfold DataLoggerReads.older. apply _. Defined.

#[global] Instance newer_dec : RelDecision DataLoggerReads.newer.
Proof. intros r1 r2. unfold DataLoggerReads.newer. apply _. Defined.

Definition merge_order_asc : list DataLogger.Row -> list DataLogger.Row :=
  merge_sort DataLoggerReads.older.
Definition merge_order_desc : list DataLogger.Row -> list DataLogger.Row :=
  merge_sort DataLoggerReads.newer.

(* ===================================================================== *)
(** * alert_system.py: statistics and dispatch                            *)
(* ===================================================================== *)

Module AlertDispatch.

Import AlertSystem.

(** The two flags that [__init__] copies from config.EMAIL_ENABLED and
    config.WEBHOOK_ENABLED (both False there). *)
Record Channels : Type := mkChannels {
  email_enabled : bool;
  webhook_enabled : bool
}.

Definition default_channels : Channels :=
  {| email_enabled := false; webhook_enabled := false |}.

(** The dict returned by [get_alert_stats]. *)
Record AlertStats : Type := mkAlertStats {
  total_alerts_sent : nat;
  active_alerts : nat;
  stats_threshold : spec_float;
  cooldown_seconds : Z;
  stats_email_enabled : bool;
  stats_webhook_enabled : bool
}.

(** [get_alert_stats], with [current_time] the reading of
    [datetime.now()]; [total_seconds() < cooldown] is compared as the
    exact quotient, as in [_can_send_alert]. *)
Definition get_alert_stats (self : AlertSystem.t) (channels : Channels)
    (current_time : Z) : AlertStats :=
  let active_alerts :=
    length (filter (fun item : string * Z =>
                      let time_since_last := current_time - item.2 in
                      time_since_last < cooldown self * SECOND)
              (map_to_list (last_alerts self))) in
  {| total_alerts_sent := size (last_alerts self);
     active_alerts := active_alerts;
     stats_threshold := threshold self;
     cooldown_seconds := cooldown self;
     stats_email_enabled := email_enabled channels;
     stats_webhook_enabled := webhook_enabled channels |}.

(** What lies outside the process while the channels send: the
    environment variable EMAIL_PASSWORD, and for each alert whether
    [print], the SMTP exchange, and the HTTP POST (with its
    [raise_for_status]) raise. The configuration is config.py's:
    EMAIL_FROM, EMAIL_TO, EMAIL_SMTP_SERVER, EMAIL_SMTP_PORT and
    WEBHOOK_URL are set, EMAIL_PASSWORD is the empty string. *)
Record Outside : Type := mkOutside {
  env_email_password : option string;
  print_raises : Alert -> bool;
  smtp_raises : Alert -> bool;
  post_raises : Alert -> bool
}.

(** What reached a channel. *)
Inductive Delivery : Type :=
| Printed (alert : Alert)
| Emailed (alert : Alert)
| Posted (alert : Alert).

(** [os.getenv('EMAIL_PASSWORD', config.EMAIL_PASSWORD)]. *)
Definition email_password (out : Outside) : string :=
  default ""%string (env_email_password out).

(** [_validate_email_config]: the four required fields of config.py are
    set, so the password decides. *)
Definition _validate_email_config (out : Outside) : bool :=
  negb (bool_decide (email_password out = ""%string)).

(** [_validate_webhook_config]: config.WEBHOOK_URL is set. *)
Definition _validate_webhook_config (out : Outside) : bool := true.

(** The bodies of the e-mail and of the webhook payload render
    [alert['price']] and [alert['change_24h']] with the format [.2f],
    which raises on what is not a number. *)
Definition renders (alert : Alert) : bool :=
  isinstance_int_float (alert_price alert)
  && isinstance_int_float (alert_change_24h alert).

(** [send_terminal_alert]: the whole body, which prints the message made
    by [check_price_alerts], is in a [try]. *)
Definition send_terminal_alert (out : Outside) (alert : Alert) : list Delivery :=
  if print_raises out alert then [] else [Printed alert].

(** [send_email_alert]. *)
Definition send_email_alert (channels : Channels) (out : Outside) (alert : Alert)
  : list Delivery :=
  if negb (email_enabled channels) then []
  else if negb (_validate_email_config out) then []
  else if negb (renders alert) then []
  else if smtp_raises out alert then []
  else if bool_decide (email_password out = ""%string) then []
  else [Emailed alert].

(** [send_webhook_alert]. *)
Definition send_webhook_alert (channels : Channels) (out : Outside) (alert : Alert)
  : list Delivery :=
  if negb (webhook_enabled channels) then []
  else if negb (_validate_webhook_config out) then []
  else if negb (renders alert) then []
  else if post_raises out alert then []
  else [Posted alert].

(** [process_alerts]: the object after the call and what reached the
    channels, in order. *)
Definition process_alerts (self : AlertSystem.t) (channels : Channels)
    (out : Outside) (current_time : Z) (prices : Prices)
  : result (AlertSystem.t * list Delivery) :=
  r ← check_price_alerts self current_time prices;
  Ok (r.1,
      concat ((fun alert =>
                 send_terminal_alert out alert
                 ++ send_email_alert channels out alert
                 ++ send_webhook_alert channels out alert) <$> r.2)).

End AlertDispatch.

(* ===================================================================== *)
(** * config.py: the tracked assets                                       *)
(* ===================================================================== *)

Definition CRYPTO_ASSETS : list string :=
  ["bitcoin"; "ethereum"; "binancecoin"; "cardano"; "solana"; "ripple";
   "polkadot"; "dogecoin"]%string.

Definition STOCK_ASSETS : list string :=
  ["AAPL"; "GOOGL"; "MSFT"; "TSLA"; "AMZN"; "NVDA"; "META"; "NFLX"]%string.

Definition CHART_HISTORY_HOURS : Z := 24.

(* ===================================================================== *)
(** * JSON values and dicts built by assignment                           *)
(* ===================================================================== *)

(** A member of a JSON object, as the code reads it: a scalar or, for a
    list or an object, [JCompound]. *)
Inductive Json : Type :=
| JVal (v : PyVal)
| JCompound.

#[export] Instance Json_eq_dec : EqDecision Json.
Proof. solve_decision. Defined.

(** [d[k] = v] on the items of a dict: a key that is present keeps its
    place, a new key goes to the end. *)
Fixpoint dict_set (k : string) (v : PriceData) (d : Prices) : Prices :=
  match d with
  | [] => [(k, v)]
  | (k', v') :: rest =>
      if bool_decide (k' = k) then (k, v) :: rest
      else (k', v') :: dict_set k v rest
  end.

(* ===================================================================== *)
(** * security_config.py: the symbol pattern                              *)
(* ===================================================================== *)

Module SymbolPattern.

Import SecurityConfig.

(** The class [[A-Za-z0-9.-]]. *)
Definition symbol_char (c : Ascii.ascii) : bool :=
  let n := Ascii.nat_of_ascii c in
  ((65 <=? n) && (n <=? 90) || (97 <=? n) && (n <=? 122)
   || (48 <=? n) && (n <=? 57) || (n =? 46) || (n =? 45))%nat.

Definition newline : Ascii.ascii := Ascii.ascii_of_nat 10.

(** [$] without MULTILINE: the end of the string, or just before a
    newline that ends the string. *)
Definition at_dollar (rest : list Ascii.ascii) : bool :=
  bool_decide (rest = []) || bool_decide (rest = [newline]).

(** [[A-Za-z0-9.-]{lo,hi}$] from the current position, as a backtracking
    matcher runs it: the repetition is greedy, it takes a character of
    the class while it may and gives it back when the rest then fails. *)
Fixpoint repeat_then_dollar (lo hi : nat) (s : list Ascii.ascii) : bool :=
  match hi, s with
  | S hi', c :: rest =>
      if symbol_char c && repeat_then_dollar (pred lo) hi' rest then true
      else (lo =? 0)%nat && at_dollar s
  | _, _ => (lo =? 0)%nat && at_dollar s
  end.

(** [SYMBOL_PATTERN.match(symbol)]: [^[A-Za-z0-9.-]{1,50}$] at the start
    of the string. *)
Definition SYMBOL_PATTERN_match (symbol : string) : bool :=
  repeat_then_dollar 1 50 (String.list_ascii_of_string symbol).

(** [validate_symbol] *)
Definition validate_symbol (symbol : PyVal) : bool :=
  match symbol with
  | PyStr s =>
      if bool_decide (s = ""%string) then false
      else if bool_decide (Z.of_nat (String.length s) > MAX_SYMBOL_LENGTH) then false
      else if negb (SYMBOL_PATTERN_match s) then false
      else true
  | _ => false
  end.

End SymbolPattern.

(* ===================================================================== *)
(** * dashboard.py                                                        *)
(* ===================================================================== *)

Module Dashboard.

(** What a view can raise, and what a call comes to. *)
Inductive error : Type :=
| ValueError | TypeError | KeyError | OverflowError | AttributeError | HTTPException.

Inductive outcome (A : Type) : Type :=
| Returns (a : A)
| Raises (e : error).
Arguments Returns {A} a.
Arguments Raises {A} e.

#[export] Instance outcome_ret : MRet outcome := fun A a => Returns a.
#[export] Instance outcome_bind : MBind outcome := fun A B k r =>
  match r with
  | Returns a => k a
  | Raises e => Raises e
  end.

(** An exception of the modules below, met in a view. *)
Definition lift {A} (r : result A) : outcome A :=
  match r with
  | Ok a => Returns a
  | Raise Py.TypeError => Raises TypeError
  | Raise Py.KeyError => Raises KeyError
  | Raise Py.OverflowError => Raises OverflowError
  end.

(** config.py. [MIN_THRESHOLD] is the literal [0.1], the binary64 nearest
    to one tenth. *)
Definition MAX_REQUESTS_PER_MINUTE : Z := 60.
Definition INPUT_VALIDATION_ENABLED : bool := true.
Definition MIN_THRESHOLD : spec_float := S754_finite false 7205759403792794 (-56).
Definition MAX_THRESHOLD : spec_float := float_lit 100 0.
Definition MIN_COOLDOWN : Z := 60.
Definition MAX_COOLDOWN : Z := 3600.
Definition MIN_CLEANUP_DAYS : Z := 1.
Definition MAX_CLEANUP_DAYS_INPUT : Z := 365.

(** ** The [rate_limit] decorator

    [request_counts] maps a client address ([request.remote_addr], which
    may be [None]) to its counter. *)
Record Counter : Type := mkCounter {
  count : Z;
  reset_time : Z
}.

Abbreviation RequestCounts := (gmap (option string) Counter).

Definition counter_of (request_counts : RequestCounts) (client_ip : option string)
  : outcome Counter :=
  match request_counts !! client_ip with
  | Some c => Returns c
  | None => Raises KeyError
  end.

(** The part of the decorator that runs before the view: the counters
    after it, and whether the view is called ([true]) or the request is
    answered with 429 ([false]). *)
Definition rate_limit_check (request_counts : RequestCounts)
    (client_ip : option string) (current_time : Z)
  : outcome (RequestCounts * bool) :=
  if negb INPUT_VALIDATION_ENABLED then Returns (request_counts, true)
  else
    (* Clean old entries: request_counts.clear() *)
    let request_counts : RequestCounts := ∅ in
    let request_counts :=
      if bool_decide (request_counts !! client_ip = None)
      then <[client_ip := mkCounter 0 (current_time + MINUTE)]> request_counts
      else request_counts in
    c ← counter_of request_counts client_ip;
    let request_counts :=
      if bool_decide (current_time > reset_time c)
      then <[client_ip := mkCounter 0 (current_time + MINUTE)]> request_counts
      else request_counts in
    c ← counter_of request_counts client_ip;
    let request_counts :=
      <[client_ip := mkCounter (count c + 1) (reset_time c)]> request_counts in
    c ← counter_of request_counts client_ip;
    if bool_decide (count c > MAX_REQUESTS_PER_MINUTE)
    then Returns (request_counts, false)
    else Returns (request_counts, true).

(** A view under the decorator: the view [f] acts on the application
    state and answers with a status code. *)
Definition rate_limit {S : Type} (f : S -> outcome (S * Z))
    (request_counts : RequestCounts) (client_ip : option string) (current_time : Z)
    (app : S) : outcome (RequestCounts * S * Z) :=
  r ← rate_limit_check request_counts client_ip current_time;
  if r.2 : bool then
    a ← f app; Returns (r.1, a.1, a.2)
  else Returns (r.1, app, 429).

(** ** JSON request bodies

    [request.get_json()] raises ([NotJson]), or returns an object or
    something else, of which only the truth value is read. *)
Inductive Body : Type :=
| NotJson
| JsonObject (data : gmap string Json)
| JsonOther (truthy : bool).

(** [int(f)] of a float: truncation toward zero; ValueError for NaN,
    OverflowError for an infinity. *)
Definition py_int (f : spec_float) : outcome Z :=
  match f with
  | S754_nan => Raises ValueError
  | S754_infinity _ => Raises OverflowError
  | S754_zero _ => Returns 0
  | S754_finite s m e => Returns (cond_Zopp s (Z.shiftl (Z.pos m) e))
  end.

Section Views.

(** [float(s)] of a string: the float it spells, or [None] for
    ValueError. *)
Variable str_to_float : string -> option spec_float.

(** [float(value)]. *)
Definition float_of (value : Json) : outcome spec_float :=
  match value with
  | JCompound => Raises TypeError
  | JVal (PyStr s) =>
      match str_to_float s with
      | Some f => Returns f
      | None => Raises ValueError
      end
  | JVal v => lift (py_float v)
  end.

(** [validate_numeric_input]: ValueError and TypeError give [None], any
    other exception leaves the function. *)
Definition validate_numeric_input (value : Json) (min_val max_val : option PyVal)
  : outcome (option spec_float) :=
  let body : outcome (option spec_float) :=
    num_val ← float_of value;
    below ← match min_val with
            | Some m => lift (py_lt (PyFloat num_val) m)
            | None => Returns false
            end;
    if below : bool then Returns None
    else
      above ← match max_val with
              | Some m => lift (py_gt (PyFloat num_val) m)
              | None => Returns false
              end;
      if above : bool then Returns None else Returns (Some num_val) in
  match body with
  | Raises ValueError | Raises TypeError => Returns None
  | r => r
  end.

(** [data.get(key, default)] on the request body, after [if not data]:
    [inl status] is the answer of the view without going further. *)
Definition body_get (body : Body) (key : string) (fallback : Json)
  : outcome (Z + Json) :=
  match body with
  | NotJson => Raises HTTPException
  | JsonOther truthy => if truthy then Raises AttributeError else Returns (inl 400)
  | JsonObject data =>
      if bool_decide (data = ∅) then Returns (inl 400)
      else Returns (inr (default fallback (data !! key)))
  end.

(** [except Exception: ... return ..., 500]: the views below change the
    application state in their last fallible step only, so that an
    exception leaves the state as it was. *)
Definition except_500 {S : Type} (app : S) (r : outcome (S * Z)) : S * Z :=
  match r with
  | Returns a => a
  | Raises _ => (app, 500)
  end.

(** [api_update_threshold] *)
Definition api_update_threshold (alert_system : AlertSystem.t) (body : Body)
  : AlertSystem.t * Z :=
  except_500 alert_system (
    got ← body_get body "threshold" (JVal PyNone);
    match got with
    | inl status => Returns (alert_system, status)
    | inr new_threshold =>
        threshold ← validate_numeric_input new_threshold
                      (Some (PyFloat MIN_THRESHOLD)) (Some (PyFloat MAX_THRESHOLD));
        match threshold with
        | None => Returns (alert_system, 400)
        | Some threshold =>
            r ← lift (AlertSystem.update_threshold alert_system (PyFloat threshold));
            Returns (r.1, 200)
        end
    end).

(** [api_update_cooldown] *)
Definition api_update_cooldown (alert_system : AlertSystem.t) (body : Body)
  : AlertSystem.t * Z :=
  except_500 alert_system (
    got ← body_get body "cooldown" (JVal PyNone);
    match got with
    | inl status => Returns (alert_system, status)
    | inr new_cooldown =>
        cooldown ← validate_numeric_input new_cooldown
                     (Some (PyInt MIN_COOLDOWN)) (Some (PyInt MAX_COOLDOWN));
        match cooldown with
        | None => Returns (alert_system, 400)
        | Some cooldown =>
            seconds ← py_int cooldown;
            r ← lift (AlertSystem.update_cooldown alert_system (PyInt seconds));
            Returns (r.1, 200)
        end
    end).

(** [api_cleanup]: [fails] says that the database raises in
    [cleanup_old_data], [now] is the time of that call. *)
Definition api_cleanup (fails : bool) (now : Z) (data_logger : DataLogger.t)
    (body : Body) : DataLogger.t * Z :=
  except_500 data_logger (
    got ← body_get body "days" (JVal (PyInt 30));
    match got with
    | inl status => Returns (data_logger, status)
    | inr days =>
        days ← validate_numeric_input days
                 (Some (PyInt MIN_CLEANUP_DAYS)) (Some (PyInt MAX_CLEANUP_DAYS_INPUT));
        match days with
        | None => Returns (data_logger, 400)
        | Some days =>
            d ← py_int days;
            Returns ((DataLogger.cleanup_old_data fails data_logger now (PyInt d)).1.1,
                     200)
        end
    end).

(** [str.lower], and the ordering of the history query (see
    [DataLoggerReads]). *)
Variable lower : string -> string.
Variable order_asc : list DataLogger.Row -> list DataLogger.Row.

(** [validate_symbol] of dashboard.py. *)
Definition validate_symbol (symbol : string) : bool :=
  if bool_decide (symbol = ""%string) then false
  else
    let all_symbols := CRYPTO_ASSETS ++ STOCK_ASSETS in
    bool_decide (lower symbol ∈ lower <$> all_symbols).

(** [api_chart]: the status and, with 200, the points [(x, y)] of the
    chart. [hours_arg] is the [hours] argument of the query when it is
    there and reads as an int ([request.args.get] with [type=int] gives
    the default otherwise); [fails] and [now] are those of
    [get_asset_history]. *)
Definition api_chart (fails : bool) (now : Z) (data_logger : DataLogger.t)
    (symbol : string) (hours_arg : option Z) : Z * list (Z * PyVal) :=
  let body : outcome (Z * list (Z * PyVal)) :=
    if negb (validate_symbol symbol) then Returns (400, [])
    else
      let hours_raw := default CHART_HISTORY_HOURS hours_arg in
      hours ← validate_numeric_input (JVal (PyInt hours_raw))
                 (Some (PyInt 1)) (Some (PyInt 168));
      h ← match hours with
          | None => Returns CHART_HISTORY_HOURS
          | Some hours => py_int hours
          end;
      let history :=
        DataLoggerReads.get_asset_history order_asc fails data_logger now symbol
          (PyInt h) in
      match history with
      | [] => Returns (404, [])
      | _ => Returns (200, (fun e => (e.1.1, e.1.2)) <$> history)
      end in
  match body with
  | Returns a => a
  | Raises _ => (500, [])
  end.

End Views.

End Dashboard.

(* ===================================================================== *)
(** * price_scraper.py and the update job of main.py                      *)
(* ===================================================================== *)

Module PriceScraper.

(** A member of the response: a JSON object, or any other JSON value. *)
Inductive CoinData : Type :=
| CoinObject (d : gmap string Json)
| CoinOther.

(** The value behind [isinstance(x, (int, float))]. *)
Definition number (j : Json) : option PyVal :=
  match j with
  | JVal v => if isinstance_int_float v then Some v else None
  | JCompound => None
  end.

(** [_validate_coin_data] *)
Definition _validate_coin_data_body (coin_data : CoinData) : result bool :=
  match coin_data with
  | CoinOther => Ok false
  | CoinObject d =>
      if bool_decide (d !! "usd"%string = None) then Ok false
      else
        let price := default (JVal PyNone) (d !! "usd"%string) in
        bad ← match number price with
              | None => Ok true
              | Some p => py_le p (PyInt 0)
              end;
        if bad : bool then Ok false
        else
          let change_24h := default (JVal PyNone) (d !! "usd_24h_change"%string) in
          if negb (bool_decide (change_24h = JVal PyNone))
             && negb (bool_decide (is_Some (number change_24h)))
          then Ok false
          else Ok true
  end.

Definition _validate_coin_data (coin_data : CoinData) : bool :=
  except_false (_validate_coin_data_body coin_data).

(** [coin_data.get(key, 0)] as a field of a price record. A list or an
    object, which a price record of this development cannot hold, does
    not get here: [_validate_coin_data] has refused it. *)
Definition field (d : gmap string Json) (key : string) : PyVal :=
  match d !! key with
  | Some (JVal v) => v
  | Some JCompound => PyNone
  | None => PyInt 0
  end.

(** The record that [get_crypto_prices] stores (its ['timestamp'] field,
    which no module reads, is left out). *)
Definition record (symbol : string) (d : gmap string Json) : PriceData :=
  {[ "symbol"%string := PyStr symbol;
     "price"%string := field d "usd";
     "change_24h"%string := field d "usd_24h_change";
     "type"%string := PyStr "crypto" ]}.

(** The loop of [get_crypto_prices] over the symbols. *)
Fixpoint fetch (data : gmap string CoinData) (symbols : list string)
    (results : Prices) : Prices :=
  match symbols with
  | [] => results
  | symbol :: rest =>
      match data !! symbol with
      | Some coin_data =>
          if _validate_coin_data coin_data then
            match coin_data with
            | CoinObject d => fetch data rest (dict_set symbol (record symbol d) results)
            | CoinOther => fetch data rest results
            end
          else fetch data rest results
      | None => fetch data rest results
      end
  end.

(** ** [_rate_limit]

    [rate_limit_delay] is [60 / config.COINGECKO_RATE_LIMIT], the quotient
    of two ints as a binary64. *)
Definition COINGECKO_RATE_LIMIT : Z := 50.

Definition rate_limit_delay : spec_float :=
  SFdiv prec emax (float_lit 60 0) (float_lit COINGECKO_RATE_LIMIT 0).

(** What a call of [_rate_limit] does besides writing
    [last_request_time]. *)
Inductive Effect : Type :=
| ReadClock (reading : spec_float)
| Sleep (seconds : spec_float).

Section RateLimit.

(** Whether [time.sleep] raises for a duration: it does for a negative
    one, for NaN and for one that the platform cannot represent. *)
Variable sleep_raises : spec_float -> bool.

(** [_rate_limit]. [t1] and [t2] are the two readings of [time.time()],
    the second taken after the sleep when there is one; the subtractions
    are those of binary64. The result is the new [last_request_time] and
    what the call did, or [None] when [time.sleep] raises, which leaves
    [last_request_time] as it was. ([__init__] sets [last_request_time] to
    the int 0, which the first subtraction reads as 0.0.) *)
Definition _rate_limit (last_request_time t1 t2 : spec_float)
  : option (spec_float * list Effect) :=
  let current_time := t1 in
  let time_since_last := SFsub prec emax current_time last_request_time in
  if num_lt (float_num time_since_last) (float_num rate_limit_delay) then
    let sleep_time := SFsub prec emax rate_limit_delay time_since_last in
    if sleep_raises sleep_time then None
    else Some (t2, [ReadClock t1; Sleep sleep_time; ReadClock t2])
  else Some (t2, [ReadClock t1; ReadClock t2]).

End RateLimit.

Section Fetch.

(** [str.strip], [str.lower] and [len], which counts the characters of
    a string (code points, not bytes). *)
Variables strip lower : string -> string.
Variable len : string -> nat.

(** [_validate_symbols] *)
Fixpoint _validate_symbols (symbols : list PyVal) : list string :=
  match symbols with
  | [] => []
  | PyStr symbol :: rest =>
      if bool_decide (symbol = ""%string) then _validate_symbols rest
      else
        let clean_symbol := lower (strip symbol) in
        if negb (bool_decide (clean_symbol = ""%string))
           && bool_decide (len clean_symbol <= 50)%nat
        then clean_symbol :: _validate_symbols rest
        else _validate_symbols rest
  | _ :: rest => _validate_symbols rest
  end.

(** [get_crypto_prices]. [response] is the JSON object that the request
    returns, or [None] when the request, its status check or its decoding
    raises or when the payload is not an object, in all of which cases the
    method returns the empty dict. The pause of [_rate_limit], modelled
    above, comes before the request and does not bear on the result;
    were its sleep to raise, the method would return the empty dict as
    for a request that raises. *)
Definition get_crypto_prices (response : option (gmap string CoinData))
    (symbols : option (list PyVal)) : Prices :=
  let symbols := default (PyStr <$> CRYPTO_ASSETS) symbols in
  let symbols := _validate_symbols symbols in
  match symbols with
  | [] => []
  | _ =>
      match response with
      | Some data => fetch data symbols []
      | None => []
      end
  end.

(** [PriceTracker._update_crypto_prices] of main.py: the ledger and the
    alert system after the job and what it delivered. [log_prices] reads
    the clock at [log_time], [process_alerts] at [alert_time]. *)
Definition _update_crypto_prices (response : option (gmap string CoinData))
    (faults : DataLogger.Faults) (channels : AlertDispatch.Channels)
    (out : AlertDispatch.Outside) (log_time alert_time : Z)
    (data_logger : DataLogger.t) (alert_system : AlertSystem.t)
  : DataLogger.t * AlertSystem.t * list AlertDispatch.Delivery :=
  let prices := get_crypto_prices response None in
  match prices with
  | [] => (data_logger, alert_system, [])
  | _ =>
      let data_logger' := (DataLogger.log_prices faults data_logger log_time prices).1 in
      match AlertDispatch.process_alerts alert_system channels out alert_time prices with
      | Ok r => (data_logger', r.1, r.2)
      | Raise _ => (data_logger', alert_system, [])
      end
  end.

End Fetch.

End PriceScraper.

(* ===================================================================== *)
(** * Vocabulary of the further properties                                *)
(* ===================================================================== *)

Section FurtherVocabulary.

Import SecurityConfig AlertSystem.

(** An alert [a] of a call at [now] under threshold [thr] is backed by the
    batch: its fields are those of an accepted record of its symbol whose
    change crosses the threshold. *)
Definition backed (thr : spec_float) (now : Z) (items : Prices) (a : Alert) : Prop :=
  alert_timestamp a = now
  /\ alert_threshold a = thr
  /\ exists pd,
       (alert_symbol a, pd) ∈ items
       /\ validate_price_data (alert_symbol a) pd = true
       /\ pd !! "change_24h"%string = Some (alert_change_24h a)
       /\ pd !! "price"%string = Some (alert_price a)
       /\ pd !! "type"%string = Some (alert_type a)
       /\ crossing thr (alert_change_24h a) = true.

(** A row [r] written by a call at [now] is backed by the batch: its
    columns are the fields of an accepted record of its symbol. *)
Definition row_backed (now : Z) (items : Prices) (r : DataLogger.Row) : Prop :=
  DataLogger.timestamp r = now
  /\ exists pd,
       (DataLogger.symbol r, pd) ∈ items
       /\ validate_price_data (DataLogger.symbol r) pd = true
       /\ pd !! "price"%string = Some (DataLogger.price r)
       /\ pd !! "change_24h"%string = Some (DataLogger.change_24h r)
       /\ pd !! "type"%string = Some (DataLogger.asset_type r).

(** A value that a REAL column of the table gives back as it was handed:
    a finite float other than -0.0. (An int or a bool comes back as the
    float it equals, a NaN as NULL.) *)
Definition kept_by_real (v : PyVal) : bool :=
  match v with
  | PyFloat (S754_finite _ _ _) | PyFloat (S754_zero false) => true
  | _ => false
  end.

(** The alert that a delivery carried. *)
Definition delivered (d : AlertDispatch.Delivery) : Alert :=
  match d with
  | AlertDispatch.Printed a | AlertDispatch.Emailed a | AlertDispatch.Posted a => a
  end.

(** Everything outside fails: no password, and every channel raises. *)
Definition all_channels_down : AlertDispatch.Outside :=
  AlertDispatch.mkOutside None (fun _ => true) (fun _ => true) (fun _ => true).

End FurtherVocabulary.

Section DashboardVocabulary.

Import Dashboard.

(** A run of requests through the decorator's check: the counters at
    the end and, for each request, whether its view was called. *)
Fixpoint rate_limit_run (request_counts : RequestCounts)
    (requests : list (option string * Z))
  : outcome (RequestCounts * list bool) :=
  match requests with
  | [] => Returns (request_counts, [])
  | (client_ip, current_time) :: rest =>
      r ← rate_limit_check request_counts client_ip current_time;
      rs ← rate_limit_run r.1 rest;
      Returns (rs.1, r.2 :: rs.2)
  end.

(** A float parser that knows no string. *)
Definition no_strings : string -> option spec_float := fun _ => None.

End DashboardVocabulary.

Section ScraperVocabulary.

Import SecurityConfig PriceScraper.

(** The fields (symbol, price, change, asset type) are those of a coin of
    the response [data] that both validators accept. *)
Definition from_coin (data : gmap string CoinData) (symbol : string)
    (price change asset_type : PyVal) : Prop :=
  exists d,
    data !! symbol = Some (CoinObject d)
    /\ d !! "usd"%string = Some (JVal price)
    /\ PriceScraper.field d "usd_24h_change" = change
    /\ asset_type = PyStr "crypto"
    /\ validate_price price = true
    /\ validate_change_percent change = true.

(** A response with one coin whose 24 h change is null. *)
Definition null_change_response : gmap string CoinData :=
  {[ "bitcoin"%string :=
       CoinObject {[ "usd"%string := JVal (PyFloat (float_lit 45000 0));
                     "usd_24h_change"%string := JVal PyNone ]} ]}.

(** The float [f] is finite and stands for the rational [q]. *)
Definition reads (f : spec_float) (q : Q) : Prop :=
  exists q', value (PyFloat f) = Some q' /\ (q' == q)%Q.

(** The rational that [rate_limit_delay] stands for: 60/50 rounded to
    binary64. *)
Definition min_interval : Q := dyadic_Q 5404319552844595 (-52).

(** A [time.sleep] that raises for the negative durations only. *)
Definition sleep_refuses_negative : spec_float -> bool :=
  fun d => num_lt (float_num d) (XFin 0 0).

(** [str.strip] and [str.lower] where they change nothing. *)
Definition unchanged : string -> string := fun s => s.

End ScraperVocabulary.

(* ===================================================================== *)
(** * Numbers: the comparison is the order of the rationals               *)
(* ===================================================================== *)

Section Numbers.

Local Open Scope Q_scope.

Lemma two_power_pos (e : Z) : 0 < 2 ^ e.
Proof. apply Qpower_0_lt. reflexivity. Qed.

Lemma dyadic_Q_shift (m e d : Z) :
  (0 <= d)%Z -> dyadic_Q (m * 2 ^ d) (e - d) == dyadic_Q m e.
Proof.
  intros Hd. unfold dyadic_Q.
  rewrite inject_Z_mult, (Zpower_Qpower 2 d Hd).
  replace e with ((e - d) + d)%Z at 2 by lia.
  rewrite (Qpower_plus 2 (e - d) d) by discriminate.
  change (inject_Z 2) with 2. ring.
Qed.

Lemma Qcompare_mult_r (x y c : Q) : 0 < c -> (x * c ?= y * c) = (x ?= y).
Proof.
  intros Hc. destruct (x ?= y) eqn:E.
  - apply Qeq_alt in E. apply Qeq_alt. rewrite E. reflexivity.
  - apply Qlt_alt in E. apply Qlt_alt. apply Qmult_lt_r; assumption.
  - apply Qgt_alt in E. apply Qgt_alt. apply Qmult_lt_r; assumption.
Qed.

Lemma fin_compare_Q (m1 e1 m2 e2 : Z) :
  fin_compare m1 e1 m2 e2 = (dyadic_Q m1 e1 ?= dyadic_Q m2 e2).
Proof.
  unfold fin_compare. cbv zeta.
  set (k := Z.min e1 e2).
  assert (H1 : (0 <= e1 - k)%Z) by (subst k; lia).
  assert (H2 : (0 <= e2 - k)%Z) by (subst k; lia).
  rewrite <- (dyadic_Q_shift m1 e1 (e1 - k) H1).
  rewrite <- (dyadic_Q_shift m2 e2 (e2 - k) H2).
  replace (e1 - (e1 - k))%Z with k by lia.
  replace (e2 - (e2 - k))%Z with k by lia.
  unfold dyadic_Q. rewrite Qcompare_mult_r by apply two_power_pos.
  unfold Qcompare. simpl. rewrite !Z.mul_1_r. reflexivity.
Qed.

End Numbers.

Section NumberOrder.

Local Open Scope Q_scope.

Lemma num_le_Q (m1 e1 m2 e2 : Z) :
  num_le (XFin m1 e1) (XFin m2 e2) = true <-> dyadic_Q m1 e1 <= dyadic_Q m2 e2.
Proof.
  unfold num_le, num_compare. rewrite fin_compare_Q, Qle_alt.
  destruct (dyadic_Q m1 e1 ?= dyadic_Q m2 e2); split; congruence.
Qed.

Lemma num_lt_Q (m1 e1 m2 e2 : Z) :
  num_lt (XFin m1 e1) (XFin m2 e2) = true <-> dyadic_Q m1 e1 < dyadic_Q m2 e2.
Proof.
  unfold num_lt, num_compare. rewrite fin_compare_Q, Qlt_alt.
  destruct (dyadic_Q m1 e1 ?= dyadic_Q m2 e2); split; congruence.
Qed.

Lemma num_gt_Q (m1 e1 m2 e2 : Z) :
  num_gt (XFin m1 e1) (XFin m2 e2) = true <-> dyadic_Q m2 e2 < dyadic_Q m1 e1.
Proof.
  unfold num_gt, num_compare. rewrite fin_compare_Q, Qgt_alt.
  destruct (dyadic_Q m1 e1 ?= dyadic_Q m2 e2); split; congruence.
Qed.

Lemma num_ge_Q (m1 e1 m2 e2 : Z) :
  num_ge (XFin m1 e1) (XFin m2 e2) = true <-> dyadic_Q m2 e2 <= dyadic_Q m1 e1.
Proof.
  unfold num_ge, num_compare. rewrite fin_compare_Q, Qle_alt.
  rewrite <- (Qcompare_antisym (dyadic_Q m1 e1) (dyadic_Q m2 e2)).
  destruct (dyadic_Q m1 e1 ?= dyadic_Q m2 e2); simpl; split; congruence.
Qed.

Lemma dyadic_Q_int (z : Z) : dyadic_Q z 0 == inject_Z z.
Proof. unfold dyadic_Q. simpl. ring. Qed.

Lemma dyadic_Q_abs (m e : Z) : Qabs (dyadic_Q m e) == dyadic_Q (Z.abs m) e.
Proof.
  unfold dyadic_Q. rewrite Qabs_Qmult.
  rewrite (Qabs_pos (2 ^ e)) by (apply Qlt_le_weak, two_power_pos).
  reflexivity.
Qed.

(** A value with a rational reading is an int, a bool or a finite float. *)
Lemma value_finite (v : PyVal) (q : Q) :
  value v = Some q ->
  exists m e, to_num v = Some (XFin m e) /\ q = dyadic_Q m e
              /\ isinstance_int_float v = true.
Proof.
  unfold value. destruct v as [| b | z | f | s]; simpl; try discriminate.
  - intros [= <-]. eauto.
  - intros [= <-]. eauto.
  - destruct f; simpl; try discriminate; intros [= <-]; eauto.
Qed.

(** [abs] of a finite number is its absolute value, of the same kind. *)
Lemma py_abs_finite (v : PyVal) (m e : Z) :
  to_num v = Some (XFin m e) ->
  exists a, py_abs v = Ok a /\ to_num a = Some (XFin (Z.abs m) e).
Proof.
  destruct v as [| b | z | f | s]; simpl; try discriminate.
  - intros [= <- <-]. eexists; split; [reflexivity|]. by destruct b.
  - intros [= <- <-]. eexists; split; reflexivity.
  - destruct f as [s0 | s0 | | s0 m0 e0]; simpl; try discriminate;
      intros [= <- <-]; eexists; (split; [reflexivity|]); simpl; try done.
    by destruct s0.
Qed.

End NumberOrder.

(* ===================================================================== *)
(** * The validator                                                       *)
(* ===================================================================== *)

Section Validator.

Import SecurityConfig.
Local Open Scope Q_scope.

Lemma py_cmp_finite (op : xnum -> xnum -> bool) (v : PyVal) (m e z : Z) :
  to_num v = Some (XFin m e) ->
  py_cmp op v (PyInt z) = Ok (op (XFin m e) (XFin z 0)).
Proof. intros H. unfold py_cmp. rewrite H. reflexivity. Qed.

(** A finite price passes exactly when it lies in (0, MAX_PRICE_VALUE]. *)
Lemma validate_price_finite (v : PyVal) (q : Q) :
  value v = Some q ->
  validate_price v = true <-> 0 < q /\ q <= inject_Z MAX_PRICE_VALUE.
Proof.
  intros Hv. destruct (value_finite v q Hv) as (m & e & Hn & -> & Hi).
  unfold validate_price, validate_price_body, py_le, py_gt.
  rewrite Hi, !(py_cmp_finite _ v m e) by exact Hn. simpl.
  destruct (num_le (XFin m e) (XFin 0 0)) eqn:Hle; simpl.
  - apply num_le_Q in Hle. rewrite dyadic_Q_int in Hle.
    split; [discriminate|]. intros [H0 _]. exfalso.
    apply (Qlt_irrefl 0). eapply Qlt_le_trans; eauto.
  - assert (Hpos : 0 < dyadic_Q m e).
    { apply Qnot_le_lt. intros H. rewrite <- (dyadic_Q_int 0) in H.
      apply num_le_Q in H. congruence. }
    destruct (num_gt (XFin m e) (XFin MAX_PRICE_VALUE 0)) eqn:Hgt; simpl.
    + apply num_gt_Q in Hgt. rewrite dyadic_Q_int in Hgt.
      split; [discriminate|]. intros [_ H1]. exfalso.
      apply (Qlt_irrefl (inject_Z MAX_PRICE_VALUE)). eapply Qlt_le_trans; eauto.
    + split; [|reflexivity]. intros _. split; [exact Hpos|].
      apply Qnot_lt_le. intros H. rewrite <- (dyadic_Q_int MAX_PRICE_VALUE) in H.
      apply num_gt_Q in H. congruence.
Qed.

(** A finite change passes exactly when its magnitude is at most
    MAX_CHANGE_PERCENT. *)
Lemma validate_change_percent_finite (v : PyVal) (q : Q) :
  value v = Some q ->
  validate_change_percent v = true <-> Qabs q <= inject_Z MAX_CHANGE_PERCENT.
Proof.
  intros Hv. destruct (value_finite v q Hv) as (m & e & Hn & -> & Hi).
  destruct (py_abs_finite v m e Hn) as (a & Ha & Hna).
  rewrite dyadic_Q_abs.
  unfold validate_change_percent, validate_change_percent_body, py_gt.
  rewrite Hi, Ha. cbn [negb mbind result_bind].
  rewrite (py_cmp_finite _ a _ e) by exact Hna.
  destruct (num_gt (XFin (Z.abs m) e) (XFin MAX_CHANGE_PERCENT 0)) eqn:Hgt; simpl.
  - apply num_gt_Q in Hgt. rewrite dyadic_Q_int in Hgt.
    split; [discriminate|]. intros H. exfalso.
    apply (Qlt_irrefl (inject_Z MAX_CHANGE_PERCENT)). eapply Qlt_le_trans; eauto.
  - split; [|reflexivity]. intros _.
    apply Qnot_lt_le. intros H. rewrite <- (dyadic_Q_int MAX_CHANGE_PERCENT) in H.
    apply num_gt_Q in H. congruence.
Qed.

(** With a non-empty symbol, the three fields present and a known asset
    type, the record is admitted exactly when its price and its change
    are. *)
Lemma validate_price_data_fields (symbol : string) (pd : PriceData) (p c ty : PyVal) :
  symbol <> ""%string ->
  pd !! "price"%string = Some p ->
  pd !! "change_24h"%string = Some c ->
  pd !! "type"%string = Some ty ->
  ty ∈ asset_types ->
  validate_price_data symbol pd = validate_price p && validate_change_percent c.
Proof.
  intros Hs Hp Hc Ht Hty.
  unfold validate_price_data, validate_price_data_body, getitem, required_fields.
  rewrite bool_decide_eq_false_2 by exact Hs.
  simpl. rewrite Hp, Hc, Ht. simpl.
  destruct (validate_price p); simpl; [|reflexivity].
  destruct (validate_change_percent c); simpl; [|reflexivity].
  rewrite bool_decide_eq_true_2 by exact Hty. reflexivity.
Qed.

End Validator.

Section ValidationBoundary.

Import SecurityConfig.
Local Open Scope Q_scope.

(** Every positive binary64 is at least [smallest_positive]. *)
Lemma smallest_positive_least (f : spec_float) (q : Q) :
  is_binary64 f = true -> value (PyFloat f) = Some q -> 0 < q ->
  dyadic_Q 1 (-1074) <= q.
Proof.
  intros Hb Hv Hq. unfold value in Hv. simpl in Hv.
  destruct f as [s | s | | s m e]; simpl in Hv; try discriminate.
  - injection Hv as <-. exfalso. revert Hq. unfold dyadic_Q. simpl.
    rewrite Qmult_0_l. apply Qlt_irrefl.
  - injection Hv as <-.
    assert (He : (-1074 <= e)%Z).
    { unfold is_binary64, valid_binary, bounded, canonical_mantissa in Hb.
      apply andb_prop in Hb as [Hb _]. apply Z.eqb_eq in Hb.
      unfold fexp, SpecFloat.emin, prec, emax in Hb. lia. }
    destruct s; simpl in *.
    + exfalso. apply (Qlt_irrefl 0). eapply Qlt_le_trans; [exact Hq|].
      rewrite <- (dyadic_Q_int 0). apply num_le_Q.
      unfold num_le, num_compare, fin_compare. cbv zeta.
      assert (0 < 2 ^ (e - Z.min e 0))%Z by (apply Z.pow_pos_nonneg; lia).
      pose proof (Pos2Z.is_pos m).
      match goal with
      | |- context [(?a ?= ?b)%Z] => destruct (Z.compare_spec a b)
      end; try reflexivity; nia.
    + apply num_le_Q. unfold num_le, num_compare, fin_compare. cbv zeta.
      replace (Z.min (-1074) e) with (-1074)%Z by lia.
      assert (0 < 2 ^ (e - -1074))%Z by (apply Z.pow_pos_nonneg; lia).
      pose proof (Pos2Z.is_pos m).
      rewrite Z.sub_diag.
      match goal with
      | |- context [(?a ?= ?b)%Z] => destruct (Z.compare_spec a b)
      end; try reflexivity; nia.
Qed.

(** C8. The validator's admission boundaries. For a record with a
    non-empty symbol, the three fields present and a known asset type: a
    price of value 0 is rejected; a price above MAX_PRICE_VALUE is
    rejected; a change of magnitude above MAX_CHANGE_PERCENT is rejected;
    a price in (0, MAX_PRICE_VALUE] with a change of magnitude at most
    MAX_CHANGE_PERCENT, the maximum itself included, is accepted. The
    smallest positive binary64, a binary64 below which no positive one
    lies, is an accepted price. *)
Theorem validation_boundaries
    (symbol : string) (pd : PriceData) (p c ty : PyVal) :
  symbol <> ""%string ->
  pd !! "price"%string = Some p ->
  pd !! "change_24h"%string = Some c ->
  pd !! "type"%string = Some ty ->
  ty ∈ asset_types ->
  (forall qp, value p = Some qp -> qp == 0 ->
     validate_price_data symbol pd = false)
  /\ (forall qp, value p = Some qp -> inject_Z MAX_PRICE_VALUE < qp ->
     validate_price_data symbol pd = false)
  /\ (forall qc, value c = Some qc -> inject_Z MAX_CHANGE_PERCENT < Qabs qc ->
     validate_price_data symbol pd = false)
  /\ (forall qp qc, value p = Some qp -> value c = Some qc ->
     0 < qp -> qp <= inject_Z MAX_PRICE_VALUE ->
     Qabs qc <= inject_Z MAX_CHANGE_PERCENT ->
     validate_price_data symbol pd = true)
  /\ (validate_price (PyFloat smallest_positive) = true
      /\ is_binary64 smallest_positive = true
      /\ value (PyFloat smallest_positive) = Some (dyadic_Q 1 (-1074))
      /\ forall f q, is_binary64 f = true -> value (PyFloat f) = Some q ->
           0 < q -> dyadic_Q 1 (-1074) <= q).
Proof.
  intros Hs Hp Hc Ht Hty.
  rewrite (validate_price_data_fields symbol pd p c ty Hs Hp Hc Ht Hty).
  split; [|split; [|split; [|split]]].
  - intros qp Hqp H0. apply andb_false_iff. left.
    apply not_true_is_false. intros H.
    apply (validate_price_finite p qp Hqp) in H as [H _].
    rewrite H0 in H. revert H. apply Qlt_irrefl.
  - intros qp Hqp H1. apply andb_false_iff. left.
    apply not_true_is_false. intros H.
    apply (validate_price_finite p qp Hqp) in H as [_ H].
    apply (Qlt_irrefl qp). eapply Qle_lt_trans; eauto.
  - intros qc Hqc H1. apply andb_false_iff. right.
    apply not_true_is_false. intros H.
    apply (validate_change_percent_finite c qc Hqc) in H.
    apply (Qlt_irrefl (Qabs qc)). eapply Qle_lt_trans; eauto.
  - intros qp qc Hqp Hqc H1 H2 H3. apply andb_true_iff. split.
    + apply (validate_price_finite p qp Hqp). auto.
    + apply (validate_change_percent_finite c qc Hqc). exact H3.
  - repeat split. exact smallest_positive_least.
Qed.

End ValidationBoundary.

(* ===================================================================== *)
(** * What an accepted record holds                                       *)
(* ===================================================================== *)

Section AcceptedRecords.

Import SecurityConfig.

Lemma validate_price_number (p : PyVal) :
  validate_price p = true -> isinstance_int_float p = true.
Proof.
  unfold validate_price, validate_price_body.
  destruct (isinstance_int_float p); [reflexivity | discriminate].
Qed.

Lemma validate_change_percent_number (c : PyVal) :
  validate_change_percent c = true -> isinstance_int_float c = true.
Proof.
  unfold validate_change_percent, validate_change_percent_body.
  destruct (isinstance_int_float c); [reflexivity | discriminate].
Qed.

(** An accepted record has a non-empty symbol, a numeric price, a numeric
    change and one of the two asset types. *)
Lemma validate_price_data_true (symbol : string) (pd : PriceData) :
  validate_price_data symbol pd = true ->
  symbol <> ""%string
  /\ exists p c ty,
       pd !! "price"%string = Some p /\ pd !! "change_24h"%string = Some c
       /\ pd !! "type"%string = Some ty
       /\ validate_price p = true /\ validate_change_percent c = true
       /\ ty ∈ asset_types.
Proof.
  unfold validate_price_data, validate_price_data_body, getitem.
  case_bool_decide as Hs; [discriminate|].
  destruct (forallb _ required_fields); simpl; [|discriminate].
  destruct (pd !! "price"%string) as [p|]; simpl; [|discriminate].
  destruct (validate_price p) eqn:Hp; simpl; [|discriminate].
  destruct (pd !! "change_24h"%string) as [c|]; simpl; [|discriminate].
  destruct (validate_change_percent c) eqn:Hc; simpl; [|discriminate].
  destruct (pd !! "type"%string) as [ty|]; simpl; [|discriminate].
  case_bool_decide as Hty; simpl; [|discriminate].
  intros _. split; [exact Hs|]. exists p, c, ty. auto 10.
Qed.

Lemma number_to_num (v : PyVal) :
  isinstance_int_float v = true -> exists x, to_num v = Some x.
Proof. destruct v; simpl; try discriminate; eauto. Qed.

Lemma number_abs (v : PyVal) :
  isinstance_int_float v = true ->
  exists a, py_abs v = Ok a /\ isinstance_int_float a = true.
Proof. destruct v; simpl; try discriminate; eauto. Qed.

End AcceptedRecords.

(* ===================================================================== *)
(** * The alert engine                                                    *)
(* ===================================================================== *)

Section AlertEngine.

Import SecurityConfig AlertSystem.

Lemma check_item_invalid now self alerts symbol pd :
  validate_price_data symbol pd = false ->
  check_item now self alerts symbol pd = Ok (self, alerts).
Proof. intros H. unfold check_item. rewrite H. reflexivity. Qed.

(** One turn of the loop on an accepted record: it never raises, and it
    emits exactly when the change crosses and the cooldown allows. *)
Lemma check_item_valid now self alerts symbol pd c :
  validate_price_data symbol pd = true ->
  pd !! "change_24h"%string = Some c ->
  check_item now self alerts symbol pd =
    Ok (if crossing (threshold self) c && _can_send_alert self symbol now
        then (alerted self symbol now, alerts ++ [alert_of self now symbol pd c])
        else (self, alerts)).
Proof.
  intros Hv Hc. unfold check_item. rewrite Hv. simpl.
  apply validate_price_data_true in Hv as (_ & p & c' & ty & Hp & Hc' & Hty & _ & Hvc & _).
  rewrite Hc in Hc'. injection Hc' as <-.
  apply validate_change_percent_number in Hvc.
  rewrite Hc, Hp, Hty. simpl.
  unfold crossing, alert_of.
  destruct (number_abs c Hvc) as (a & Ha & Hna). rewrite Ha. simpl.
  destruct (number_to_num a Hna) as (x & Hx).
  destruct (number_to_num c Hvc) as (y & Hy).
  unfold py_ge, py_gt, py_cmp. rewrite Hx, Hy. simpl.
  destruct (num_ge x (float_num (threshold self))); simpl; [|reflexivity].
  destruct (_can_send_alert self symbol now); simpl; [|reflexivity].
  rewrite Hp, Hty. reflexivity.
Qed.

(** Every turn returns: the threshold and the cooldown are as before, and
    entries of other symbols in [last_alerts] and alerts of other symbols
    are as before. *)
Lemma check_item_frame now self alerts symbol pd :
  exists self' alerts',
    check_item now self alerts symbol pd = Ok (self', alerts')
    /\ threshold self' = threshold self /\ cooldown self' = cooldown self
    /\ forall s, s <> symbol ->
         last_alerts self' !! s = last_alerts self !! s
         /\ alerts_for s alerts' = alerts_for s alerts.
Proof.
  destruct (validate_price_data symbol pd) eqn:Hv.
  - destruct (validate_price_data_true _ _ Hv) as (_ & p & c & ty & _ & Hc & _).
    rewrite (check_item_valid now self alerts symbol pd c Hv Hc).
    destruct (crossing _ _ && _can_send_alert _ _ _).
    + eexists _, _. split; [reflexivity|]. simpl. repeat split; auto.
      * rewrite lookup_insert_ne; auto.
      * unfold alerts_for. rewrite filter_app.
        rewrite filter_cons_False, filter_nil, app_nil_r; simpl; congruence.
    + eexists _, _. split; [reflexivity|]. auto.
  - rewrite (check_item_invalid _ _ _ _ _ Hv).
    eexists _, _. split; [reflexivity|]. auto.
Qed.

End AlertEngine.

Section Cooldown.

Import SecurityConfig AlertSystem.

Lemma check_items_app now (l1 l2 : Prices) self alerts :
  check_items now self alerts (l1 ++ l2) =
    (r ← check_items now self alerts l1; check_items now r.1 r.2 l2).
Proof.
  revert self alerts. induction l1 as [|[symbol pd] l1 IH]; intros self alerts.
  - reflexivity.
  - simpl. destruct (check_item now self alerts symbol pd) as [[self' alerts']|e];
      simpl; [apply IH | reflexivity].
Qed.

(** The loop returns; symbols that are not keys of the batch keep their
    entry in [last_alerts] and get no alert. *)
Lemma check_items_frame now (items : Prices) self alerts :
  exists self' alerts',
    check_items now self alerts items = Ok (self', alerts')
    /\ threshold self' = threshold self /\ cooldown self' = cooldown self
    /\ forall s, s ∉ items.*1 ->
         last_alerts self' !! s = last_alerts self !! s
         /\ alerts_for s alerts' = alerts_for s alerts.
Proof.
  revert self alerts. induction items as [|[symbol pd] items IH]; intros self alerts.
  - exists self, alerts. simpl. auto.
  - destruct (check_item_frame now self alerts symbol pd)
      as (self1 & alerts1 & H1 & Ht1 & Hc1 & Hf1).
    destruct (IH self1 alerts1) as (self2 & alerts2 & H2 & Ht2 & Hc2 & Hf2).
    exists self2, alerts2. simpl. rewrite H1. simpl. rewrite H2.
    split; [reflexivity|]. split; [congruence|]. split; [congruence|].
    intros s Hs. simpl in Hs. apply not_elem_of_cons in Hs as [Hne Hs].
    destruct (Hf2 s Hs) as [E2 E2']. destruct (Hf1 s Hne) as [E1 E1'].
    split; congruence.
Qed.

(** [check_price_alerts] never raises. *)
Lemma check_price_alerts_returns self now prices :
  exists self' alerts, check_price_alerts self now prices = Ok (self', alerts)
    /\ threshold self' = threshold self /\ cooldown self' = cooldown self.
Proof.
  destruct prices as [|item prices]; [exists self, []; auto|].
  destruct (check_items_frame now (item :: prices) self [])
    as (self' & alerts' & H & Ht & Hc & _).
  exists self', alerts'. auto.
Qed.

(** A turn for a symbol whose cooldown is running changes nothing. *)
Lemma check_item_suppressed now self alerts s pd t0 :
  last_alerts self !! s = Some t0 ->
  now - t0 < cooldown self * SECOND ->
  check_item now self alerts s pd = Ok (self, alerts).
Proof.
  intros Hl Hlt.
  assert (Hcan : _can_send_alert self s now = false).
  { unfold _can_send_alert. rewrite Hl. apply bool_decide_eq_false_2. lia. }
  destruct (validate_price_data s pd) eqn:Hv.
  - destruct (validate_price_data_true _ _ Hv) as (_ & p & c & ty & _ & Hc & _).
    rewrite (check_item_valid now self alerts s pd c Hv Hc), Hcan, andb_false_r.
    reflexivity.
  - apply check_item_invalid. exact Hv.
Qed.

Lemma check_items_suppressed now (items : Prices) self alerts s t0 :
  last_alerts self !! s = Some t0 ->
  now - t0 < cooldown self * SECOND ->
  exists self' alerts',
    check_items now self alerts items = Ok (self', alerts')
    /\ threshold self' = threshold self /\ cooldown self' = cooldown self
    /\ last_alerts self' !! s = Some t0
    /\ alerts_for s alerts' = alerts_for s alerts.
Proof.
  revert self alerts. induction items as [|[symbol pd] items IH];
    intros self alerts Hl Hlt.
  - exists self, alerts. simpl. auto.
  - simpl. destruct (decide (symbol = s)) as [->|Hne].
    + rewrite (check_item_suppressed now self alerts s pd t0 Hl Hlt). simpl.
      apply IH; assumption.
    + destruct (check_item_frame now self alerts symbol pd)
        as (self1 & alerts1 & H1 & Ht1 & Hc1 & Hf1).
      rewrite H1. simpl.
      destruct (Hf1 s) as [Hl1 Ha1]; [congruence|].
      destruct (IH self1 alerts1) as (self2 & alerts2 & H2 & Ht2 & Hc2 & Hl2 & Ha2).
      * rewrite Hl1. exact Hl.
      * rewrite Hc1. exact Hlt.
      * exists self2, alerts2. repeat split; congruence.
Qed.

(** A whole call while the cooldown of [s] is running: no alert for [s],
    and its entry in [last_alerts] is as before. *)
Lemma check_price_alerts_suppressed self now prices s t0 :
  last_alerts self !! s = Some t0 ->
  now - t0 < cooldown self * SECOND ->
  exists self' alerts,
    check_price_alerts self now prices = Ok (self', alerts)
    /\ threshold self' = threshold self /\ cooldown self' = cooldown self
    /\ last_alerts self' !! s = Some t0
    /\ alerts_for s alerts = [].
Proof.
  intros Hl Hlt. destruct prices as [|item prices].
  - exists self, []. simpl. auto.
  - apply (check_items_suppressed now (item :: prices) self [] s t0 Hl Hlt).
Qed.

End Cooldown.

Section CooldownInvariant.

Import SecurityConfig AlertSystem.

Lemma can_send_alert_ext self self' s now :
  last_alerts self' !! s = last_alerts self !! s ->
  cooldown self' = cooldown self ->
  _can_send_alert self' s now = _can_send_alert self s now.
Proof. intros Hl Hc. unfold _can_send_alert. rewrite Hl, Hc. reflexivity. Qed.

(** A call whose batch, a dict, holds an accepted record for [s]. When
    its change crosses the threshold and the cooldown allows: one alert
    for [s], stamped with the time of the call, and that time becomes the
    entry of [s] in [last_alerts]. Otherwise: no alert for [s], and its
    entry is as before. *)
Lemma check_price_alerts_symbol self now (prices : Prices) s pd c :
  dict_items prices ->
  (s, pd) ∈ prices ->
  validate_price_data s pd = true ->
  pd !! "change_24h"%string = Some c ->
  exists self' alerts,
    check_price_alerts self now prices = Ok (self', alerts)
    /\ threshold self' = threshold self /\ cooldown self' = cooldown self
    /\ ((crossing (threshold self) c && _can_send_alert self s now = true
         /\ last_alerts self' !! s = Some now
         /\ exists a, alerts_for s alerts = [a]
              /\ alert_symbol a = s /\ alert_change_24h a = c
              /\ alert_timestamp a = now)
        \/ (crossing (threshold self) c && _can_send_alert self s now = false
            /\ last_alerts self' !! s = last_alerts self !! s
            /\ alerts_for s alerts = [])).
Proof.
  intros Hnd Hin Hv Hc.
  apply list_elem_of_split in Hin as (l1 & l2 & ->).
  unfold dict_items in Hnd. rewrite fmap_app, fmap_cons in Hnd. simpl in Hnd.
  apply NoDup_app in Hnd as (_ & Hl1 & Hnd2).
  apply NoDup_cons in Hnd2 as (Hl2 & _).
  assert (Hs1 : s ∉ l1.*1) by (intros H; apply (Hl1 s H); left).
  assert (Hrun : check_price_alerts self now (l1 ++ (s, pd) :: l2)
                 = check_items now self [] (l1 ++ (s, pd) :: l2)).
  { destruct l1; reflexivity. }
  rewrite Hrun, check_items_app.
  destruct (check_items_frame now l1 self []) as (self1 & alerts1 & H1 & Ht1 & Hc1 & Hf1).
  rewrite H1. simpl.
  destruct (Hf1 s Hs1) as [Hla1 Hal1].
  rewrite (check_item_valid now self1 alerts1 s pd c Hv Hc).
  rewrite Ht1, (can_send_alert_ext self self1 s now Hla1 Hc1).
  destruct (crossing (threshold self) c && _can_send_alert self s now) eqn:E.
  - destruct (check_items_frame now l2 (alerted self1 s now)
                (alerts1 ++ [alert_of self1 now s pd c]))
      as (self2 & alerts2 & H2 & Ht2 & Hc2 & Hf2).
    simpl. rewrite H2. destruct (Hf2 s Hl2) as [Hla2 Hal2].
    exists self2, alerts2.
    split; [reflexivity|]. simpl in *.
    split; [congruence|]. split; [congruence|]. left.
    split; [reflexivity|].
    split; [rewrite Hla2; apply lookup_insert_eq|].
    exists (alert_of self1 now s pd c). split; [|auto].
    rewrite Hal2. unfold alerts_for in *. rewrite filter_app, Hal1. simpl.
    rewrite filter_cons_True by reflexivity. reflexivity.
  - destruct (check_items_frame now l2 self1 alerts1)
      as (self2 & alerts2 & H2 & Ht2 & Hc2 & Hf2).
    simpl. rewrite H2. destruct (Hf2 s Hl2) as [Hla2 Hal2].
    exists self2, alerts2.
    split; [reflexivity|].
    split; [rewrite Ht2; exact Ht1|]. split; [rewrite Hc2; exact Hc1|]. right.
    split; [reflexivity|].
    split; [rewrite Hla2; exact Hla1 | rewrite Hal2; exact Hal1].
Qed.

Lemma check_price_alerts_fires self now (prices : Prices) s pd c :
  dict_items prices ->
  (s, pd) ∈ prices ->
  validate_price_data s pd = true ->
  pd !! "change_24h"%string = Some c ->
  crossing (threshold self) c = true ->
  _can_send_alert self s now = true ->
  exists self' alerts a,
    check_price_alerts self now prices = Ok (self', alerts)
    /\ threshold self' = threshold self /\ cooldown self' = cooldown self
    /\ last_alerts self' !! s = Some now
    /\ alerts_for s alerts = [a]
    /\ alert_symbol a = s /\ alert_change_24h a = c /\ alert_timestamp a = now.
Proof.
  intros Hnd Hin Hv Hc Hx Hcan.
  destruct (check_price_alerts_symbol self now prices s pd c Hnd Hin Hv Hc)
    as (self' & alerts & H & Ht & Hcd & [(_ & Hl & a & Ha)|(E & _)]).
  - exists self', alerts, a. auto 10.
  - rewrite Hx, Hcan in E. discriminate.
Qed.

(** While the cooldown of [s], started at [t0], is running, a sequence of
    calls returns, emits nothing for [s] and keeps [last_alerts[s]] at
    [t0] after each call. *)
Lemma check_sequence_suppressed (later : list (Z * Prices)) self s t0 :
  last_alerts self !! s = Some t0 ->
  Forall (fun call => call.1 - t0 < cooldown self * SECOND) later ->
  exists trace,
    check_sequence self later = Ok trace
    /\ length trace = length later
    /\ Forall (fun r => alerts_for s r.2 = [] /\ last_alerts r.1 !! s = Some t0) trace.
Proof.
  revert self. induction later as [|[now prices] later IH]; intros self Hl Hall.
  - exists []. simpl. auto.
  - apply Forall_cons in Hall as [Hnow Hall]. simpl in Hnow.
    destruct (check_price_alerts_suppressed self now prices s t0 Hl Hnow)
      as (self1 & alerts1 & H1 & Ht1 & Hc1 & Hl1 & Ha1).
    destruct (IH self1 Hl1) as (trace & Htr & Hlen & Hfa).
    { rewrite Hc1. exact Hall. }
    exists ((self1, alerts1) :: trace). simpl. rewrite H1. simpl. rewrite Htr.
    split; [reflexivity|]. split; [simpl; congruence|].
    apply Forall_cons. auto.
Qed.

(** C4. The cooldown invariant. Let the cooldown be at most 2^34 seconds,
    the range in which the comparison of [_can_send_alert] on exact
    values is the comparison that the code makes on [total_seconds()].
    Let the first of N calls come at [t0] with a batch that holds an
    accepted, threshold-crossing record for an idle symbol [s], and let
    the N-1 later calls come within the cooldown period that starts at
    [t0]. Then the first call emits exactly one alert for [s] (for that
    first crossing, stamped [t0]) and records [last_alerts[s] = t0]; every
    later call returns, emits no alert for [s], whatever its batch holds,
    and leaves [last_alerts[s]] at [t0]. *)
Theorem cooldown_invariant
    (self : AlertSystem.t) (s : string) (t0 : Z) (prices0 : Prices)
    (pd0 : PriceData) (c0 : PyVal) (later : list (Z * Prices)) :
  dict_items prices0 ->
  (s, pd0) ∈ prices0 ->
  validate_price_data s pd0 = true ->
  pd0 !! "change_24h"%string = Some c0 ->
  crossing (threshold self) c0 = true ->
  _can_send_alert self s t0 = true ->
  cooldown self <= 2 ^ 34 ->
  Forall (fun call => call.1 - t0 < cooldown self * SECOND) later ->
  exists self1 out0 a trace,
    check_sequence self ((t0, prices0) :: later) = Ok ((self1, out0) :: trace)
    /\ alerts_for s out0 = [a]
    /\ alert_change_24h a = c0 /\ alert_timestamp a = t0
    /\ last_alerts self1 !! s = Some t0
    /\ length trace = length later
    /\ Forall (fun r => alerts_for s r.2 = [] /\ last_alerts r.1 !! s = Some t0) trace.
Proof.
  intros Hnd Hin Hv Hc Hx Hcan _ Hall.
  destruct (check_price_alerts_fires self t0 prices0 s pd0 c0 Hnd Hin Hv Hc Hx Hcan)
    as (self1 & out0 & a & H1 & Ht1 & Hc1 & Hl1 & Ha1 & _ & Hac & Hat).
  destruct (check_sequence_suppressed later self1 s t0 Hl1) as (trace & Htr & Hlen & Hfa).
  { rewrite Hc1. exact Hall. }
  exists self1, out0, a, trace. simpl. rewrite H1. simpl. rewrite Htr.
  auto 10.
Qed.

End CooldownInvariant.

Section ThresholdBoundary.

Import SecurityConfig AlertSystem.
Local Open Scope Q_scope.

(** On finite numbers the crossing test is [threshold <= |change|]. *)
Lemma crossing_finite (thr : spec_float) (c : PyVal) (qt qc : Q) :
  value (PyFloat thr) = Some qt -> value c = Some qc ->
  crossing thr c = true <-> qt <= Qabs qc.
Proof.
  intros Ht Hc.
  destruct (value_finite _ _ Ht) as (mt & et & Hnt & -> & _).
  destruct (value_finite _ _ Hc) as (m & e & Hn & -> & _).
  destruct (py_abs_finite c m e Hn) as (a & Ha & Hna).
  rewrite dyadic_Q_abs. unfold crossing. rewrite Ha.
  unfold py_ge, py_cmp. rewrite Hna, Hnt. simpl.
  apply num_ge_Q.
Qed.

(** A batch of one record through [check_price_alerts]. *)
Lemma check_price_alerts_single self now symbol pd c :
  validate_price_data symbol pd = true ->
  pd !! "change_24h"%string = Some c ->
  check_price_alerts self now [(symbol, pd)] =
    Ok (if crossing (threshold self) c && _can_send_alert self symbol now
        then (alerted self symbol now, [alert_of self now symbol pd c])
        else (self, [])).
Proof.
  intros Hv Hc. unfold check_price_alerts, check_items.
  rewrite (check_item_valid now self [] symbol pd c Hv Hc). simpl.
  destruct (crossing _ _ && _); reflexivity.
Qed.

(** C5. The trigger is inclusive and reads only the magnitude of the
    change. Take a batch that holds an accepted record for [s] whose
    change has the finite value [qc], under a threshold of finite value
    [qt]; the call returns. When [|qc|] equals [qt], and more generally
    when [qt <= |qc|], the record alerts (one alert for [s], and
    [last_alerts[s]] becomes the time of the call) unless the cooldown
    holds it back, in which case nothing goes out for [s]. When [|qc|] is
    [qt] minus a positive epsilon, and more generally when [|qc| < qt], no
    alert goes out for [s] and [last_alerts[s]] is as before. The sign of
    [qc] plays no part. *)
Theorem threshold_boundary
    (self : AlertSystem.t) (now : Z) (prices : Prices) (s : string)
    (pd : PriceData) (c : PyVal) (qc qt : Q) :
  dict_items prices ->
  (s, pd) ∈ prices ->
  validate_price_data s pd = true ->
  pd !! "change_24h"%string = Some c ->
  value c = Some qc ->
  value (PyFloat (threshold self)) = Some qt ->
  exists self' alerts,
    check_price_alerts self now prices = Ok (self', alerts)
    /\ (Qabs qc == qt -> _can_send_alert self s now = true ->
        last_alerts self' !! s = Some now
        /\ exists a, alerts_for s alerts = [a] /\ alert_symbol a = s
             /\ alert_change_24h a = c /\ alert_timestamp a = now)
    /\ (qt <= Qabs qc -> _can_send_alert self s now = true ->
        last_alerts self' !! s = Some now
        /\ exists a, alerts_for s alerts = [a] /\ alert_symbol a = s
             /\ alert_change_24h a = c /\ alert_timestamp a = now)
    /\ (qt <= Qabs qc -> _can_send_alert self s now = false ->
        last_alerts self' !! s = last_alerts self !! s
        /\ alerts_for s alerts = [])
    /\ (forall eps, 0 < eps -> Qabs qc == qt - eps ->
        last_alerts self' !! s = last_alerts self !! s
        /\ alerts_for s alerts = [])
    /\ (Qabs qc < qt ->
        last_alerts self' !! s = last_alerts self !! s
        /\ alerts_for s alerts = []).
Proof.
  intros Hnd Hin Hv Hc Hqc Hqt.
  pose proof (crossing_finite (threshold self) c qt qc Hqt Hqc) as HX.
  destruct (check_price_alerts_symbol self now prices s pd c Hnd Hin Hv Hc)
    as (self' & alerts & H & _ & _ & Hcases).
  exists self', alerts. split; [exact H|].
  assert (Hge : qt <= Qabs qc -> _can_send_alert self s now = true ->
    last_alerts self' !! s = Some now
    /\ exists a, alerts_for s alerts = [a] /\ alert_symbol a = s
         /\ alert_change_24h a = c /\ alert_timestamp a = now).
  { intros Hq Hcan. apply HX in Hq.
    destruct Hcases as [(_ & Hl & Ha)|(E & _)]; [auto|].
    rewrite Hq, Hcan in E. discriminate. }
  assert (Hlt : Qabs qc < qt ->
    last_alerts self' !! s = last_alerts self !! s /\ alerts_for s alerts = []).
  { intros Hq. destruct Hcases as [(E & _)|(_ & Hl & Ha)]; [|auto].
    apply andb_prop in E as [E _]. apply HX in E.
    exfalso. apply (Qlt_irrefl qt). eapply Qle_lt_trans; eauto. }
  split; [|split; [|split; [|split]]].
  - intros Hq. apply Hge. rewrite Hq. apply Qle_refl.
  - exact Hge.
  - intros Hq Hcan. destruct Hcases as [(E & _)|(_ & Hl & Ha)]; [|auto].
    apply andb_prop in E as [_ E]. congruence.
  - intros eps Heps Hq. apply Hlt. rewrite Hq.
    rewrite <- (Qplus_0_r qt) at 2. unfold Qminus.
    apply Qplus_lt_r. apply (Qopp_lt_compat 0 eps) in Heps. exact Heps.
  - exact Hlt.
Qed.

End ThresholdBoundary.

(* ===================================================================== *)
(** * Runtime updates of the threshold and the cooldown                   *)
(* ===================================================================== *)

Section Updates.

Import AlertSystem.
Local Open Scope Q_scope.

Lemma update_threshold_not_number self v :
  isinstance_int_float v = false ->
  update_threshold self v = Ok (self, [InvalidThreshold v]).
Proof. intros H. unfold update_threshold. rewrite H. reflexivity. Qed.

Lemma update_threshold_finite self v q :
  value v = Some q ->
  update_threshold self v =
    (if Qle_bool q 0 then Ok (self, [InvalidThreshold v])
     else f ← py_float v;
          Ok (AlertSystem.mk f (cooldown self) (last_alerts self), [ThresholdUpdated v])).
Proof.
  intros Hv. destruct (value_finite v q Hv) as (m & e & Hn & -> & Hi).
  unfold update_threshold. rewrite Hi. simpl.
  unfold py_le. rewrite (py_cmp_finite _ v m e 0 Hn). simpl.
  destruct (num_le (XFin m e) (XFin 0 0)) eqn:Hle.
  - apply num_le_Q in Hle. rewrite dyadic_Q_int in Hle.
    change (inject_Z 0) with 0 in Hle.
    apply Qle_bool_iff in Hle. rewrite Hle. reflexivity.
  - destruct (Qle_bool (dyadic_Q m e) 0) eqn:Hq; [|reflexivity].
    apply Qle_bool_iff in Hq. change 0 with (inject_Z 0) in Hq.
    rewrite <- (dyadic_Q_int 0) in Hq.
    apply num_le_Q in Hq. congruence.
Qed.

(** [update_threshold]: what is not a number, and a number that is at
    most 0, is rejected and the object is left as it was; a positive
    number whose conversion to float succeeds becomes the threshold, as
    that float; when the conversion overflows the call raises. *)
Theorem update_threshold_cases (self : AlertSystem.t) (v : PyVal) :
  (isinstance_int_float v = false ->
     update_threshold self v = Ok (self, [InvalidThreshold v]))
  /\ (forall q, value v = Some q -> q <= 0 ->
     update_threshold self v = Ok (self, [InvalidThreshold v]))
  /\ (forall q f, value v = Some q -> 0 < q -> py_float v = Ok f ->
     update_threshold self v =
       Ok (AlertSystem.mk f (cooldown self) (last_alerts self), [ThresholdUpdated v]))
  /\ (forall q e, value v = Some q -> 0 < q -> py_float v = Raise e ->
     update_threshold self v = Raise e).
Proof.
  split; [apply update_threshold_not_number|].
  split; [|split]; intros q.
  - intros Hv Hq. rewrite (update_threshold_finite self v q Hv).
    apply Qle_bool_iff in Hq. rewrite Hq. reflexivity.
  - intros f Hv Hq Hf. rewrite (update_threshold_finite self v q Hv).
    destruct (Qle_bool q 0) eqn:E.
    + apply Qle_bool_iff in E. exfalso. apply (Qlt_irrefl 0).
      eapply Qlt_le_trans; eauto.
    + rewrite Hf. reflexivity.
  - intros e Hv Hq Hf. rewrite (update_threshold_finite self v q Hv).
    destruct (Qle_bool q 0) eqn:E.
    + apply Qle_bool_iff in E. exfalso. apply (Qlt_irrefl 0).
      eapply Qlt_le_trans; eauto.
    + rewrite Hf. reflexivity.
Qed.

(** [update_cooldown]: what is not an int, and an int that is at most 0,
    is rejected and the object is left as it was; a positive int becomes
    the cooldown. *)
Theorem update_cooldown_cases (self : AlertSystem.t) (v : PyVal) :
  (isinstance_int v = false ->
     update_cooldown self v = Ok (self, [InvalidCooldown v]))
  /\ (forall z, int_value v = Some z -> (z <= 0)%Z ->
     update_cooldown self v = Ok (self, [InvalidCooldown v]))
  /\ (forall z, int_value v = Some z -> (0 < z)%Z ->
     update_cooldown self v =
       Ok (AlertSystem.mk (threshold self) z (last_alerts self), [CooldownUpdated v])).
Proof.
  unfold update_cooldown. repeat split.
  - destruct v; simpl; try discriminate; reflexivity.
  - intros z -> Hz. rewrite bool_decide_eq_true_2 by exact Hz. reflexivity.
  - intros z -> Hz. rewrite bool_decide_eq_false_2 by lia. reflexivity.
Qed.


(** Outside the declared type: at the int 2^1024, a number above 0,
    [float(new_threshold)] overflows; the call raises and the threshold
    is not replaced. *)
Theorem update_threshold_overflow :
  isinstance_int_float (PyInt (2 ^ 1024)) = true
  /\ py_le (PyInt (2 ^ 1024)) (PyInt 0) = Ok false
  /\ update_threshold AlertSystem.init (PyInt (2 ^ 1024)) = Raise OverflowError.
Proof. repeat split; vm_compute; reflexivity. Qed.

End Updates.

(* ===================================================================== *)
(** * The ledger                                                          *)
(* ===================================================================== *)

Section Ledger.

Import SecurityConfig DataLogger.

Lemma separated_nil : separated [].
Proof. intros i j r1 r2 _ H. rewrite lookup_nil in H. discriminate. Qed.

Lemma separated_app (l1 l2 : list Row) :
  separated l1 -> separated l2 ->
  (forall r1 r2, r1 ∈ l1 -> r2 ∈ l2 -> far r1 r2) ->
  separated (l1 ++ l2).
Proof.
  intros H1 H2 H12 i j r1 r2 Hij Hi Hj.
  apply lookup_app_Some in Hi as [Hi | [Hli Hi]];
    apply lookup_app_Some in Hj as [Hj | [Hlj Hj]].
  - eapply H1; eauto.
  - apply H12; eapply list_elem_of_lookup_2; eauto.
  - apply lookup_lt_Some in Hj. lia.
  - eapply (H2 (i - length l1)%nat (j - length l1)%nat); eauto. lia.
Qed.

(** The loop never raises: it appends the candidates of the items. *)
Lemma collect_candidates faults rows now (items : Prices) data :
  collect faults rows now items data =
    Ok (data ++ omap (candidate faults rows now) items).
Proof.
  revert data. induction items as [|[s pd] items IH]; intros data.
  - simpl. rewrite app_nil_r. reflexivity.
  - simpl. unfold candidate at 1. simpl.
    destruct (validate_price_data s pd) eqn:Hv; simpl; [|apply IH].
    destruct (validate_price_data_true _ _ Hv) as (_ & p & c & ty & Hp & Hc & Hty & _).
    unfold getitem. rewrite Hp, Hc, Hty. simpl.
    destruct (_is_duplicate _ rows s now ty); [apply IH|].
    rewrite IH, <- app_assoc. reflexivity.
Qed.

(** [log_prices] in one equation: the new rows go to each sink that does
    not fail, and each sink that takes them adds their number to the
    returned count. *)
Lemma log_prices_unfold faults self now (prices : Prices) :
  let new := omap (candidate faults (table self) now) prices in
  log_prices faults self now prices =
    ({| table := if sqlite_write_fails faults then table self else table self ++ new;
        csv := if csv_write_fails faults then csv self else csv self ++ new |},
     (if sqlite_write_fails faults then 0 else Z.of_nat (length new))
     + (if csv_write_fails faults then 0 else Z.of_nat (length new))).
Proof.
  cbv zeta. unfold log_prices.
  destruct prices as [|item prices].
  - simpl. rewrite !app_nil_r. destruct self.
    by destruct (sqlite_write_fails faults), (csv_write_fails faults).
  - rewrite collect_candidates. rewrite app_nil_l.
    destruct (omap _ (item :: prices)) as [|r new] eqn:E.
    + rewrite !app_nil_r. destruct self. simpl.
      by destruct (sqlite_write_fails faults), (csv_write_fails faults).
    + unfold _log_to_sqlite, _log_to_csv.
      by destruct (sqlite_write_fails faults), (csv_write_fails faults).
Qed.

End Ledger.

Section DedupInvariant.

Import SecurityConfig DataLogger.

(** The query answers [True] exactly when the table holds a row of the
    same symbol and asset type stamped within a minute, bounds included. *)
Lemma is_duplicate_true (rows : list Row) s now ty :
  _is_duplicate false rows s now ty = true <->
  exists r, r ∈ rows /\ symbol r = s /\ asset_type r = ty
            /\ now - MINUTE <= timestamp r <= now + MINUTE.
Proof.
  unfold _is_duplicate. cbv zeta. rewrite bool_decide_eq_true.
  split.
  - intros Hlen.
    destruct (filter _ rows) as [|r l] eqn:E; [simpl in Hlen; lia|].
    assert (Hr : r ∈ filter (fun r => in_window s ty (now - MINUTE) (now + MINUTE) r = true) rows)
      by (rewrite E; left).
    apply list_elem_of_filter in Hr as [Hw Hr]. exists r. split; [exact Hr|].
    unfold in_window in Hw. apply andb_prop in Hw as [Hw H3].
    apply andb_prop in Hw as [H1 H2].
    apply bool_decide_eq_true in H1, H2, H3. auto.
  - intros (r & Hr & Hs & Hty & Hw).
    assert (Hf : r ∈ filter (fun r => in_window s ty (now - MINUTE) (now + MINUTE) r = true) rows).
    { apply list_elem_of_filter. split; [|exact Hr]. unfold in_window.
      rewrite !bool_decide_eq_true_2 by assumption. reflexivity. }
    destruct (filter _ rows); [inversion Hf | simpl; lia].
Qed.

(** When the query succeeds and answers [False], every row of the table is
    far from the candidate. *)
Lemma is_duplicate_false_far (rows : list Row) s now ty p c r0 :
  _is_duplicate false rows s now ty = false ->
  r0 ∈ rows -> far r0 (mkRow now s p c ty).
Proof.
  intros Hd Hr. unfold far. simpl. intros Hs Hty.
  destruct (decide (now - MINUTE <= timestamp r0 <= now + MINUTE)) as [Hw|Hw];
    [|lia].
  exfalso.
  assert (H : _is_duplicate false rows s now ty = true)
    by (apply is_duplicate_true; exists r0; auto).
  rewrite Hd in H. discriminate.
Qed.

Lemma candidate_Some faults rows now s pd r :
  candidate faults rows now (s, pd) = Some r ->
  timestamp r = now /\ symbol r = s
  /\ validate_price_data s pd = true
  /\ pd !! "type"%string = Some (asset_type r)
  /\ pd !! "price"%string = Some (price r)
  /\ pd !! "change_24h"%string = Some (change_24h r)
  /\ _is_duplicate (dup_query_fails faults s) rows s now (asset_type r) = false.
Proof.
  unfold candidate. simpl.
  destruct (validate_price_data s pd); [|discriminate].
  destruct (pd !! "type"%string) as [ty|]; [|discriminate].
  destruct (pd !! "price"%string) as [p|]; [|discriminate].
  destruct (pd !! "change_24h"%string) as [c|]; [|discriminate].
  destruct (_is_duplicate _ rows s now ty) eqn:Hd; [discriminate|].
  intros [= <-]. simpl. auto 10.
Qed.

(** The rows of one batch bear distinct symbols, so they are far apart. *)
Lemma candidates_separated faults rows now (items : Prices) :
  dict_items items -> separated (omap (candidate faults rows now) items).
Proof.
  unfold dict_items. induction items as [|[s pd] items IH]; intros Hnd.
  - apply separated_nil.
  - simpl in Hnd. apply NoDup_cons in Hnd as [Hs Hnd]. simpl.
    destruct (candidate faults rows now (s, pd)) as [r|] eqn:E; [|auto].
    apply (separated_app [r]); [| auto |].
    + intros i j r1 r2 Hij Hi Hj. apply lookup_lt_Some in Hj. simpl in Hj. lia.
    + intros r1 r2 Hr1 Hr2 Hsym _. exfalso.
      apply list_elem_of_singleton in Hr1 as ->.
      apply candidate_Some in E as (_ & Hsr & _).
      apply list_elem_of_omap in Hr2 as ([s2 pd2] & Hin & E2).
      apply candidate_Some in E2 as (_ & Hs2 & _).
      apply Hs. apply list_elem_of_fmap. exists (s2, pd2). split; [|exact Hin].
      simpl. congruence.
Qed.

(** When no duplicate query fails, every new row is far from every row of
    the table. *)
Lemma candidates_far faults rows now (items : Prices) r0 r :
  (forall s, dup_query_fails faults s = false) ->
  r0 ∈ rows -> r ∈ omap (candidate faults rows now) items -> far r0 r.
Proof.
  intros Hq Hr0 Hr.
  apply list_elem_of_omap in Hr as ([s pd] & _ & E).
  apply candidate_Some in E as (Ht & Hs & _ & _ & _ & _ & Hd).
  rewrite Hq in Hd. destruct r as [t s' p c ty]. simpl in *. subst.
  eapply is_duplicate_false_far; eauto.
Qed.

Lemma log_prices_ledger_ok (c : Call) (self : DataLogger.t) :
  undisturbed c -> ledger_ok self ->
  ledger_ok (log_prices (call_faults c) self (call_time c) (call_prices c)).1.
Proof.
  intros (Hnd & Hq & Hw) (Ht & Hc & Hsub).
  rewrite log_prices_unfold. cbv zeta. rewrite Hw. simpl.
  set (new := omap (candidate (call_faults c) (table self) (call_time c)) (call_prices c)).
  assert (Hnew : separated new) by (apply candidates_separated; exact Hnd).
  assert (Hfar : forall r0 r, r0 ∈ table self -> r ∈ new -> far r0 r).
  { intros r0 r H0 H. eapply candidates_far; eauto. }
  split; [|split].
  - apply separated_app; auto.
  - destruct (csv_write_fails (call_faults c)); [exact Hc|].
    apply separated_app; auto.
  - intros r Hr. apply elem_of_app.
    destruct (csv_write_fails (call_faults c)); [left; auto|].
    apply elem_of_app in Hr as [Hr|Hr]; auto.
Qed.

Lemma log_sequence_ledger_ok (calls : list Call) (self : DataLogger.t) :
  Forall undisturbed calls -> ledger_ok self -> ledger_ok (log_sequence self calls).
Proof.
  revert self. induction calls as [|c calls IH]; intros self Hall Hok.
  - exact Hok.
  - apply Forall_cons in Hall as [Hc Hall]. simpl.
    apply IH; [exact Hall|]. apply log_prices_ledger_ok; assumption.
Qed.

End DedupInvariant.

(* ===================================================================== *)
(** * The dedup invariant and the duplicate check                         *)
(* ===================================================================== *)

Section DedupProperties.

Import SecurityConfig DataLogger.

Lemma separated_elem (l1 l2 : list Row) r1 r2 :
  separated (l1 ++ l2) -> r1 ∈ l1 -> r2 ∈ l2 -> far r1 r2.
Proof.
  intros H H1 H2.
  apply list_elem_of_lookup in H1 as [i Hi].
  apply list_elem_of_lookup in H2 as [j Hj].
  apply (H i (length l1 + j)%nat).
  - apply lookup_lt_Some in Hi. lia.
  - apply lookup_app_l_Some. exact Hi.
  - rewrite lookup_app_r by lia. replace (length l1 + j - length l1)%nat with j by lia.
    exact Hj.
Qed.

Lemma empty_ledger_ok : ledger_ok DataLogger.empty.
Proof.
  split; [apply separated_nil|]. split; [apply separated_nil|]. intros r Hr. exact Hr.
Qed.

(** C1, as the code has it. Over any sequence of calls of [log_prices],
    in any order and with any grouping into batches, in which no duplicate
    query fails and no SQLite write fails: no two rows of the table, and no
    two rows of the CSV file, bear the same symbol and asset type with
    timestamps within one minute of each other. *)
Theorem dedup_invariant (self : DataLogger.t) (calls : list Call) :
  ledger_ok self ->
  Forall undisturbed calls ->
  separated (table (log_sequence self calls))
  /\ separated (csv (log_sequence self calls)).
Proof.
  intros Hok Hall.
  destruct (log_sequence_ledger_ok calls self Hall Hok) as (Ht & Hc & _).
  split; assumption.
Qed.

(** The table alone needs less: it stays separated as long as no duplicate
    query fails, whatever the writes do. *)
Theorem table_separated (self : DataLogger.t) (calls : list Call) :
  separated (table self) ->
  Forall (fun c => dict_items (call_prices c)
                   /\ forall s, dup_query_fails (call_faults c) s = false) calls ->
  separated (table (log_sequence self calls)).
Proof.
  revert self. induction calls as [|c calls IH]; intros self Hs Hall; [exact Hs|].
  apply Forall_cons in Hall as [[Hnd Hq] Hall]. simpl. apply IH; [|exact Hall].
  rewrite log_prices_unfold. cbv zeta. simpl.
  destruct (sqlite_write_fails (call_faults c)); [exact Hs|].
  apply separated_app; [exact Hs | apply candidates_separated; exact Hnd |].
  intros r0 r H0 H. eapply candidates_far; eauto.
Qed.

(** C1 fails as stated. When the duplicate query of the second submission
    raises, the table and the CSV file end with two bitcoin rows 30
    seconds apart; when the SQLite write of the first submission raises
    and its CSV write goes through, the CSV file does. *)
Lemma dedup_invariant_broken :
  ~ separated (table (log_sequence DataLogger.empty
                        [first_call no_faults; second_call query_down]))
  /\ ~ separated (csv (log_sequence DataLogger.empty
                         [first_call sqlite_down; second_call no_faults])).
Proof.
  split; intros H.
  - specialize (H 0%nat 1%nat (bitcoin_row 0 plus_2_5)
                  (bitcoin_row (30 * SECOND) plus_2_5)).
    assert (Hfar : far (bitcoin_row 0 plus_2_5) (bitcoin_row (30 * SECOND) plus_2_5)).
    { apply H; [lia | vm_compute; reflexivity | vm_compute; reflexivity]. }
    specialize (Hfar eq_refl eq_refl). vm_compute in Hfar. discriminate.
  - specialize (H 0%nat 1%nat (bitcoin_row 0 plus_2_5)
                  (bitcoin_row (30 * SECOND) plus_2_5)).
    assert (Hfar : far (bitcoin_row 0 plus_2_5) (bitcoin_row (30 * SECOND) plus_2_5)).
    { apply H; [lia | vm_compute; reflexivity | vm_compute; reflexivity]. }
    specialize (Hfar eq_refl eq_refl). vm_compute in Hfar. discriminate.
Qed.

Lemma dedup_invariant_witness :
  separated (table (log_sequence DataLogger.empty
                      [first_call no_faults; second_call no_faults]))
  /\ separated (csv (log_sequence DataLogger.empty
                       [first_call no_faults; second_call no_faults])).
Proof.
  apply dedup_invariant; [apply empty_ledger_ok|].
  constructor; [|constructor; [|constructor]];
    (split; [apply NoDup_singleton | split; [intros s; reflexivity | reflexivity]]).
Defined.

Lemma table_separated_witness :
  separated (table (log_sequence DataLogger.empty
                      [first_call sqlite_down; second_call no_faults])).
Proof.
  apply table_separated; [apply separated_nil|].
  constructor; [|constructor; [|constructor]];
    (split; [apply NoDup_singleton | intros s; reflexivity]).
Defined.

End DedupProperties.

Section SinkProperties.

Import SecurityConfig DataLogger.

(** C2, as the code has it. When the SQLite write fails and the CSV write
    goes through, every new row counts once in the returned number and is
    appended to the CSV file, but the table, which is all the duplicate
    check reads, is as it was: the check answers as before the call, and
    the same batch submitted again at the same instant is written to the
    CSV file a second time. *)
Theorem sqlite_failure_counted_not_indexed
    (faults : Faults) (self : DataLogger.t) (now : Z) (prices : Prices) :
  sqlite_write_fails faults = true ->
  csv_write_fails faults = false ->
  log_prices faults self now prices =
    ({| table := table self;
        csv := csv self ++ omap (candidate faults (table self) now) prices |},
     Z.of_nat (length (omap (candidate faults (table self) now) prices)))
  /\ (forall fails s t ty,
        _is_duplicate fails (table (log_prices faults self now prices).1) s t ty
        = _is_duplicate fails (table self) s t ty)
  /\ log_prices faults (log_prices faults self now prices).1 now prices =
       ({| table := table self;
           csv := (csv self ++ omap (candidate faults (table self) now) prices)
                  ++ omap (candidate faults (table self) now) prices |},
        Z.of_nat (length (omap (candidate faults (table self) now) prices))).
Proof.
  intros Hs Hc.
  assert (H1 : log_prices faults self now prices =
    ({| table := table self;
        csv := csv self ++ omap (candidate faults (table self) now) prices |},
     Z.of_nat (length (omap (candidate faults (table self) now) prices)))).
  { rewrite log_prices_unfold. cbv zeta. rewrite Hs, Hc. reflexivity. }
  split; [exact H1|]. rewrite H1. simpl. split; [reflexivity|].
  rewrite log_prices_unfold. cbv zeta. rewrite Hs, Hc. reflexivity.
Qed.

Lemma sqlite_failure_counted_not_indexed_witness :
  log_prices sqlite_down DataLogger.empty 0 (bitcoin_batch plus_2_5) =
    ({| table := []; csv := [bitcoin_row 0 plus_2_5] |}, 1).
Proof.
  exact (proj1 (sqlite_failure_counted_not_indexed sqlite_down DataLogger.empty 0
                  (bitcoin_batch plus_2_5) eq_refl eq_refl)).
Defined.

(** C2 fails as stated. The SQLite write of the first submission raises
    and its CSV write goes through: the call returns 1, yet the duplicate
    check of a submission 30 seconds later answers [False], and that
    submission is written, not skipped. *)
Lemma resubmission_not_skipped :
  (log_prices sqlite_down DataLogger.empty 0 (bitcoin_batch plus_2_5)).2 = 1
  /\ _is_duplicate false
       (table (log_prices sqlite_down DataLogger.empty 0 (bitcoin_batch plus_2_5)).1)
       "bitcoin" (30 * SECOND) (PyStr "crypto") <> true
  /\ log_prices no_faults
       (log_prices sqlite_down DataLogger.empty 0 (bitcoin_batch plus_2_5)).1
       (30 * SECOND) (bitcoin_batch plus_2_5)
     = ({| table := [bitcoin_row (30 * SECOND) plus_2_5];
           csv := [bitcoin_row 0 plus_2_5; bitcoin_row (30 * SECOND) plus_2_5] |}, 2).
Proof. repeat split; vm_compute; congruence. Qed.

(** C3, at one new record with both sinks up: the row is written once to
    each sink and the call returns 2, one for each sink. *)
Theorem log_prices_counts_each_sink :
  log_prices no_faults DataLogger.empty 0 (bitcoin_batch plus_2_5) =
    ({| table := [bitcoin_row 0 plus_2_5]; csv := [bitcoin_row 0 plus_2_5] |}, 2).
Proof. vm_compute. reflexivity. Qed.

(** The returned count on any input: the number of new rows, once for
    each sink that took them. *)
Theorem log_prices_count (faults : Faults) (self : DataLogger.t) (now : Z)
    (prices : Prices) :
  (log_prices faults self now prices).2 =
    (if sqlite_write_fails faults then 0
     else Z.of_nat (length (omap (candidate faults (table self) now) prices)))
    + (if csv_write_fails faults then 0
       else Z.of_nat (length (omap (candidate faults (table self) now) prices))).
Proof. rewrite log_prices_unfold. reflexivity. Qed.

(** C10. The duplicate check fails open. A query that raises answers
    [False] whatever the table holds; the record whose query raised is
    then taken as new and, when both writes go through, one row for it,
    stamped with the time of the call, is appended to the table and to
    the CSV file; if the table already held a row of that symbol and asset
    type within the minute, the table is no longer separated. *)
Theorem duplicate_check_fails_open
    (faults : Faults) (self : DataLogger.t) (now : Z) (prices : Prices)
    (s : string) (pd : PriceData) :
  (s, pd) ∈ prices ->
  validate_price_data s pd = true ->
  dup_query_fails faults s = true ->
  sqlite_write_fails faults = false ->
  csv_write_fails faults = false ->
  (forall rows ty, _is_duplicate (dup_query_fails faults s) rows s now ty = false)
  /\ exists r before after,
       timestamp r = now /\ symbol r = s
       /\ pd !! "type"%string = Some (asset_type r)
       /\ table (log_prices faults self now prices).1
          = table self ++ before ++ r :: after
       /\ csv (log_prices faults self now prices).1
          = csv self ++ before ++ r :: after
       /\ forall r0, r0 ∈ table self -> symbol r0 = s ->
            asset_type r0 = asset_type r ->
            Z.abs (timestamp r0 - now) <= MINUTE ->
            ~ separated (table (log_prices faults self now prices).1).
Proof.
  intros Hin Hv Hq Hs Hc.
  split; [intros rows ty; rewrite Hq; reflexivity|].
  destruct (validate_price_data_true _ _ Hv) as (_ & p & c & ty & Hp & Hch & Hty & _).
  set (r := mkRow now s p c ty).
  assert (Hcand : candidate faults (table self) now (s, pd) = Some r).
  { unfold candidate. simpl. rewrite Hv, Hty, Hp, Hch, Hq. reflexivity. }
  apply list_elem_of_split in Hin as (l1 & l2 & ->).
  rewrite log_prices_unfold. cbv zeta. rewrite Hs, Hc. simpl.
  rewrite omap_app. simpl. rewrite Hcand.
  exists r, (omap (candidate faults (table self) now) l1),
    (omap (candidate faults (table self) now) l2).
  repeat split; try reflexivity; try assumption.
  intros r0 Hr0 Hs0 Ha0 Hw Hsep.
  assert (Hfar : far r0 r).
  { eapply separated_elem; [exact Hsep | exact Hr0 |].
    apply elem_of_app. right. left. }
  specialize (Hfar Hs0 Ha0). simpl in Hfar. lia.
Qed.

Lemma duplicate_check_fails_open_witness :
  ~ separated
      (table (log_prices query_down
                {| table := [bitcoin_row 0 plus_2_5]; csv := [bitcoin_row 0 plus_2_5] |}
                (30 * SECOND) (bitcoin_batch plus_2_5)).1).
Proof.
  assert (Hin : ("bitcoin"%string, bitcoin plus_2_5) ∈ bitcoin_batch plus_2_5) by left.
  destruct (duplicate_check_fails_open query_down
              {| table := [bitcoin_row 0 plus_2_5]; csv := [bitcoin_row 0 plus_2_5] |}
              (30 * SECOND) (bitcoin_batch plus_2_5) "bitcoin" (bitcoin plus_2_5)
              Hin eq_refl eq_refl eq_refl eq_refl)
    as (_ & r & before & after & Ht & Hs & Hty & _ & _ & Hbad).
  apply (Hbad (bitcoin_row 0 plus_2_5)).
  - left.
  - reflexivity.
  - assert (E : bitcoin plus_2_5 !! "type"%string = Some (PyStr "crypto"))
      by (vm_compute; reflexivity).
    rewrite E in Hty. injection Hty as Hty. rewrite <- Hty. reflexivity.
  - vm_compute. discriminate.
Defined.

End SinkProperties.

(* ===================================================================== *)
(** * Purging old rows                                                    *)
(* ===================================================================== *)

Section Purge.

Import DataLogger.

Lemma filter_split_length {A} (P : A -> Prop) `{!forall x, Decision (P x)} (l : list A) :
  (length (filter P l) + length (filter (fun x => ~ P x) l))%nat = length l.
Proof.
  induction l as [|x l IH]; [reflexivity|].
  destruct (decide (P x)) as [Hx|Hx].
  - rewrite (filter_cons_True P) by exact Hx.
    rewrite (filter_cons_False (fun x => ~ P x)) by tauto. simpl. lia.
  - rewrite (filter_cons_False P) by exact Hx.
    rewrite (filter_cons_True (fun x => ~ P x)) by exact Hx. simpl. lia.
Qed.

(** C6, as the code has it. For a day count that is an int from 1 to
    MAX_CLEANUP_DAYS, when the database does not fail: the table keeps
    exactly its rows stamped at or after [now - days], the CSV file is
    untouched, the rows removed and the rows kept add up to the table, and
    the number removed is logged; the call itself returns [None]. *)
Theorem cleanup_old_data_purges
    (self : DataLogger.t) (now : Z) (days : PyVal) (d : Z) :
  int_value days = Some d ->
  1 <= d <= MAX_CLEANUP_DAYS ->
  cleanup_old_data false self now days =
    ({| table := filter (fun r => ~ timestamp r < now - d * DAY) (table self);
        csv := csv self |},
     PyNone,
     [CleanedUp (Z.of_nat (length (filter (fun r => timestamp r < now - d * DAY)
                                     (table self))))])
  /\ (forall r, r ∈ table (cleanup_old_data false self now days).1.1
              <-> r ∈ table self /\ now - d * DAY <= timestamp r)
  /\ (length (filter (fun r => (timestamp r < now - d * DAY)%Z) (table self))
      + length (table (cleanup_old_data false self now days).1.1))%nat
     = length (table self).
Proof.
  intros Hd Hr.
  assert (H : cleanup_old_data false self now days =
    ({| table := filter (fun r => ~ timestamp r < now - d * DAY) (table self);
        csv := csv self |},
     PyNone,
     [CleanedUp (Z.of_nat (length (filter (fun r => timestamp r < now - d * DAY)
                                     (table self))))])).
  { unfold cleanup_old_data. rewrite Hd.
    rewrite bool_decide_eq_false_2 by lia.
    rewrite bool_decide_eq_false_2 by lia. reflexivity. }
  rewrite H. simpl. split; [reflexivity|]. split.
  - intros r. rewrite list_elem_of_filter. split; intros [H1 H2]; split; auto; lia.
  - apply filter_split_length.
Qed.

(** A day count that is not an int from 1 to MAX_CLEANUP_DAYS is replaced
    by DEFAULT_CLEANUP_DAYS; a database that raises leaves the ledger as it
    was. *)
Theorem cleanup_old_data_other_cases (self : DataLogger.t) (now : Z) (days : PyVal) :
  ((int_value days = None
    \/ exists d, int_value days = Some d /\ (d <= 0 \/ MAX_CLEANUP_DAYS < d)) ->
   cleanup_old_data false self now days
   = cleanup_old_data false self now (PyInt DEFAULT_CLEANUP_DAYS))
  /\ cleanup_old_data true self now days = (self, PyNone, [CleanupError]).
Proof.
  split; [|reflexivity].
  unfold cleanup_old_data. intros [-> | (d & -> & Hd)]; [reflexivity|].
  simpl. destruct Hd.
  - rewrite bool_decide_eq_true_2 by assumption. reflexivity.
  - rewrite (bool_decide_eq_true_2 (d > MAX_CLEANUP_DAYS)) by lia.
    rewrite orb_true_r. reflexivity.
Qed.

Lemma cleanup_old_data_purges_witness :
  cleanup_old_data false two_rows purge_now (PyInt 30) =
    ({| table := [recent_row]; csv := [old_row; recent_row] |}, PyNone, [CleanedUp 1]).
Proof.
  assert (Hr : 1 <= 30 <= MAX_CLEANUP_DAYS) by (unfold MAX_CLEANUP_DAYS; lia).
  rewrite (proj1 (cleanup_old_data_purges two_rows purge_now (PyInt 30) 30 eq_refl Hr)).
  vm_compute. reflexivity.
Defined.

(** C6 fails as stated. In that scenario one row is deleted, and logged as
    such, but the call returns [None], not the count 1; the row of 40 days
    ago also stays in the CSV file. *)
Lemma cleanup_returns_no_count :
  (cleanup_old_data false two_rows purge_now (PyInt 30)).1.2 <> PyInt 1
  /\ (cleanup_old_data false two_rows purge_now (PyInt 30)).1.2 = PyNone
  /\ (cleanup_old_data false two_rows purge_now (PyInt 30)).2 = [CleanedUp 1]
  /\ table (cleanup_old_data false two_rows purge_now (PyInt 30)).1.1 = [recent_row]
  /\ csv (cleanup_old_data false two_rows purge_now (PyInt 30)).1.1
     = [old_row; recent_row].
Proof. repeat split; vm_compute; congruence. Qed.

End Purge.

(* ===================================================================== *)
(** * Sample runs                                                         *)
(* ===================================================================== *)

Section Scenarios.

Import SecurityConfig AlertSystem.
Local Open Scope Q_scope.

Lemma validation_boundaries_witness :
  validate_price_data "AAPL" boundary_record = true.
Proof.
  assert (Hty : PyStr "stock" ∈ asset_types) by (right; left).
  assert (Hs : "AAPL"%string <> ""%string) by discriminate.
  refine (proj1 (proj2 (proj2 (proj2
            (validation_boundaries "AAPL" boundary_record
               (PyInt MAX_PRICE_VALUE) (PyFloat (SFopp (float_lit 1000 0)))
               (PyStr "stock") Hs eq_refl eq_refl eq_refl Hty)))) _ _ eq_refl eq_refl _ _ _).
  - vm_compute. reflexivity.
  - vm_compute. discriminate.
  - vm_compute. discriminate.
Defined.

Lemma threshold_boundary_witness :
  exists self' alerts,
    check_price_alerts AlertSystem.init 0 (bitcoin_batch minus_5_0) = Ok (self', alerts)
    /\ last_alerts self' !! "bitcoin"%string = Some 0%Z
    /\ exists a, alerts_for "bitcoin" alerts = [a] /\ alert_symbol a = "bitcoin"%string
         /\ alert_change_24h a = minus_5_0 /\ alert_timestamp a = 0%Z.
Proof.
  assert (Hv : validate_price_data "bitcoin" (bitcoin minus_5_0) = true)
    by (vm_compute; reflexivity).
  assert (Hc : bitcoin minus_5_0 !! "change_24h"%string = Some minus_5_0)
    by (vm_compute; reflexivity).
  assert (Hin : ("bitcoin"%string, bitcoin minus_5_0) ∈ bitcoin_batch minus_5_0) by left.
  destruct (threshold_boundary AlertSystem.init 0 (bitcoin_batch minus_5_0) "bitcoin"
              (bitcoin minus_5_0) minus_5_0 _ _
              (NoDup_singleton _) Hin Hv Hc eq_refl eq_refl)
    as (self' & alerts & H & Heq & _).
  exists self', alerts. split; [exact H|].
  apply Heq; vm_compute; reflexivity.
Defined.

Lemma cooldown_invariant_witness :
  exists self1 out0 a trace,
    check_sequence AlertSystem.init
      [(0%Z, bitcoin_batch plus_7_5); ((120 * SECOND)%Z, bitcoin_batch plus_8_0)]
    = Ok ((self1, out0) :: trace)
    /\ alerts_for "bitcoin" out0 = [a]
    /\ alert_change_24h a = plus_7_5 /\ alert_timestamp a = 0%Z
    /\ last_alerts self1 !! "bitcoin"%string = Some 0%Z
    /\ length trace = 1%nat
    /\ Forall (fun r => alerts_for "bitcoin" r.2 = []
                        /\ last_alerts r.1 !! "bitcoin"%string = Some 0%Z) trace.
Proof.
  apply (cooldown_invariant AlertSystem.init "bitcoin" 0 (bitcoin_batch plus_7_5)
           (bitcoin plus_7_5) plus_7_5 [((120 * SECOND)%Z, bitcoin_batch plus_8_0)]).
  - apply NoDup_singleton.
  - left.
  - vm_compute. reflexivity.
  - vm_compute. reflexivity.
  - vm_compute. reflexivity.
  - vm_compute. reflexivity.
  - vm_compute. discriminate.
  - constructor; [|constructor]. vm_compute. reflexivity.
Defined.

(** The scenario of the specification: threshold 5.0, cooldown 300 s;
    +7.5 at 0 s alerts, +8.0 at 120 s is held back, +8.0 at 305 s alerts. *)
Theorem alert_scenario :
  exists trace,
    check_sequence AlertSystem.init
      [(0%Z, bitcoin_batch plus_7_5);
       ((120 * SECOND)%Z, bitcoin_batch plus_8_0);
       ((305 * SECOND)%Z, bitcoin_batch plus_8_0)] = Ok trace
    /\ (fun r => length r.2) <$> trace = [1; 0; 1]%nat
    /\ (fun r => last_alerts r.1 !! "bitcoin"%string) <$> trace
       = [Some 0%Z; Some 0%Z; Some (305 * SECOND)%Z].
Proof. eexists. split; [vm_compute; reflexivity|]. split; vm_compute; reflexivity. Qed.

(** NaN and the infinities at the validator and at [update_threshold]: a
    NaN price and a NaN change are accepted, the infinities are rejected;
    a NaN threshold is accepted, and under it no change alerts. *)
Theorem nan_cases :
  validate_price (PyFloat S754_nan) = true
  /\ validate_change_percent (PyFloat S754_nan) = true
  /\ validate_price (PyFloat (S754_infinity false)) = false
  /\ validate_change_percent (PyFloat (S754_infinity true)) = false
  /\ update_threshold AlertSystem.init (PyFloat S754_nan)
     = Ok (AlertSystem.mk S754_nan ALERT_COOLDOWN ∅, [ThresholdUpdated (PyFloat S754_nan)])
  /\ forall c, crossing S754_nan c = false.
Proof.
  repeat split; try (vm_compute; reflexivity).
  intros c. unfold crossing. destruct c as [| b | z | f | s]; try reflexivity.
  destruct f; reflexivity.
Qed.

End Scenarios.

(* ===================================================================== *)
(** * Alerts and rows come from accepted records only                     *)
(* ===================================================================== *)

Section Soundness.

Import SecurityConfig AlertSystem.

Lemma backed_weaken thr now (items : Prices) item a :
  backed thr now items a -> backed thr now (item :: items) a.
Proof.
  intros (Ht & Hthr & pd & Hin & H). split; [exact Ht|]. split; [exact Hthr|].
  exists pd. split; [right; exact Hin | exact H].
Qed.

Lemma check_items_backed now (items : Prices) self alerts :
  exists self' new,
    check_items now self alerts items = Ok (self', alerts ++ new)
    /\ threshold self' = threshold self /\ cooldown self' = cooldown self
    /\ Forall (backed (threshold self) now items) new
    /\ forall s, last_alerts self' !! s =
         if bool_decide (s ∈ alert_symbol <$> new) then Some now
         else last_alerts self !! s.
Proof.
  revert self alerts. induction items as [|[symbol pd] items IH]; intros self alerts.
  - exists self, []. simpl. rewrite app_nil_r. repeat split; auto.
  - simpl. destruct (validate_price_data symbol pd) eqn:Hv.
    + destruct (validate_price_data_true _ _ Hv) as (_ & p & c & ty & Hp & Hc & Hty & _).
      rewrite (check_item_valid now self alerts symbol pd c Hv Hc).
      destruct (crossing (threshold self) c) eqn:Hx; simpl.
      * destruct (_can_send_alert self symbol now) eqn:Hcan; simpl.
        -- destruct (IH (alerted self symbol now) (alerts ++ [alert_of self now symbol pd c]))
             as (self' & new & H & Ht & Hcd & Hall & Hl).
           exists self', (alert_of self now symbol pd c :: new).
           rewrite H. simpl in *. split; [by rewrite <- app_assoc|].
           split; [exact Ht|]. split; [exact Hcd|]. split.
           ++ constructor.
              ** split; [reflexivity|]. split; [reflexivity|]. exists pd. simpl.
                 rewrite Hp, Hty. repeat split; auto. left.
              ** eapply Forall_impl; [exact Hall|]. intros a. apply backed_weaken.
           ++ intros s. rewrite Hl.
              destruct (decide (s = symbol)) as [->|Hne].
              ** rewrite lookup_insert_eq.
                 rewrite (bool_decide_eq_true_2 (symbol ∈ symbol :: _)) by left.
                 by case_bool_decide.
              ** rewrite lookup_insert_ne by congruence.
                 apply (f_equal (fun b : bool => if b then Some now else last_alerts self !! s)).
                 apply bool_decide_ext. rewrite ?fmap_cons, elem_of_cons. simpl. tauto.
        -- destruct (IH self alerts) as (self' & new & H & Ht & Hcd & Hall & Hl).
           exists self', new. rewrite H. repeat split; auto.
           eapply Forall_impl; [exact Hall|]. intros a. apply backed_weaken.
      * destruct (IH self alerts) as (self' & new & H & Ht & Hcd & Hall & Hl).
        exists self', new. rewrite H. repeat split; auto.
        eapply Forall_impl; [exact Hall|]. intros a. apply backed_weaken.
    + rewrite (check_item_invalid _ _ _ _ _ Hv). simpl.
      destruct (IH self alerts) as (self' & new & H & Ht & Hcd & Hall & Hl).
      exists self', new. rewrite H. repeat split; auto.
      eapply Forall_impl; [exact Hall|]. intros a. apply backed_weaken.
Qed.

Lemma check_price_alerts_effect (self : AlertSystem.t) (now : Z) (prices : Prices) :
  exists self' alerts,
    check_price_alerts self now prices = Ok (self', alerts)
    /\ threshold self' = threshold self /\ cooldown self' = cooldown self
    /\ Forall (backed (threshold self) now prices) alerts
    /\ forall s, last_alerts self' !! s =
         if bool_decide (s ∈ alert_symbol <$> alerts) then Some now
         else last_alerts self !! s.
Proof.
  destruct prices as [|item prices].
  - exists self, []. simpl. auto.
  - destruct (check_items_backed now (item :: prices) self [])
      as (self' & new & H & Ht & Hc & Hall & Hl).
    exists self', new. auto.
Qed.

(** [check_price_alerts] is sound. Every alert it returns is stamped with
    the time of the call, carries the current threshold and repeats the
    fields of a record of the batch that the validator accepts and whose
    change crosses the threshold; [last_alerts] becomes the time of the
    call for exactly the symbols of the returned alerts and is as before
    for every other symbol. *)
Theorem check_price_alerts_sound (self : AlertSystem.t) (now : Z) (prices : Prices) :
  exists self' alerts,
    check_price_alerts self now prices = Ok (self', alerts)
    /\ Forall (backed (threshold self) now prices) alerts
    /\ forall s, last_alerts self' !! s =
         if bool_decide (s ∈ alert_symbol <$> alerts) then Some now
         else last_alerts self !! s.
Proof.
  destruct (check_price_alerts_effect self now prices)
    as (self' & alerts & H & _ & _ & Hall & Hl).
  exists self', alerts. auto.
Qed.

End Soundness.

Section RowSoundness.

Import SecurityConfig DataLogger.

(** [log_prices] writes rows of accepted records only. Whatever the
    storage does, each sink after the call is the sink before the call
    followed by new rows (none when its write fails, the same rows in both
    sinks otherwise), and every new row is stamped with the time of the
    call and repeats the fields of a record of the batch that the
    validator accepts. *)
Theorem log_prices_rows_backed
    (faults : Faults) (self : DataLogger.t) (now : Z) (prices : Prices) :
  exists new,
    table (log_prices faults self now prices).1
      = table self ++ (if sqlite_write_fails faults then [] else new)
    /\ csv (log_prices faults self now prices).1
      = csv self ++ (if csv_write_fails faults then [] else new)
    /\ Forall (row_backed now prices) new.
Proof.
  exists (omap (candidate faults (table self) now) prices).
  rewrite log_prices_unfold. cbv zeta. simpl.
  split; [destruct (sqlite_write_fails faults); by rewrite ?app_nil_r|].
  split; [destruct (csv_write_fails faults); by rewrite ?app_nil_r|].
  apply Forall_forall. intros r Hr.
  apply list_elem_of_omap in Hr as ([s pd] & Hin & E).
  apply candidate_Some in E as (Ht & Hs & Hv & Hty & Hp & Hc & _).
  split; [exact Ht|]. exists pd. subst s. auto 10.
Qed.

(** The validator puts no bound on the symbol beyond its not being empty:
    two non-empty symbols get the same verdict on the same record. *)
Theorem validate_price_data_any_symbol (s1 s2 : string) (pd : PriceData) :
  s1 <> ""%string -> s2 <> ""%string ->
  validate_price_data s1 pd = validate_price_data s2 pd.
Proof.
  intros H1 H2. unfold validate_price_data, validate_price_data_body.
  rewrite !bool_decide_eq_false_2 by assumption. reflexivity.
Qed.

Lemma validate_price_data_any_symbol_witness :
  validate_price_data "AAPL" (bitcoin plus_2_5)
  = validate_price_data "<script>alert(1)</script> or any text of any length at all, spaces included"
      (bitcoin plus_2_5).
Proof. apply validate_price_data_any_symbol; discriminate. Defined.

End RowSoundness.

(* ===================================================================== *)
(** * Reading the ledger                                                  *)
(* ===================================================================== *)

Section ReadProperties.

Import SecurityConfig DataLogger DataLoggerReads.

Variable order_asc : list Row -> list Row.
Variable order_desc : list Row -> list Row.
Hypothesis order_asc_perm : forall rows, order_asc rows ≡ₚ rows.
Hypothesis order_asc_sorted : forall rows, StronglySorted older (order_asc rows).
Hypothesis order_desc_perm : forall rows, order_desc rows ≡ₚ rows.
Hypothesis order_desc_sorted : forall rows, StronglySorted newer (order_desc rows).

(** [get_latest_prices] bounds its read and returns the newest rows. The
    frame never holds more than MAX_LIMIT rows nor more than the table; a
    limit that is an int from 1 to MAX_LIMIT gives that many rows when the
    table has them; any other limit is replaced by DEFAULT_LIMIT. The rows
    returned are rows of the table, newest first, and no row left out is
    newer than a row returned. When the database raises the frame is
    empty. *)
Theorem get_latest_prices_newest (self : DataLogger.t) (limit : PyVal) :
  (length (get_latest_prices order_desc false self limit) <= Z.to_nat MAX_LIMIT)%nat
  /\ (forall n, int_value limit = Some n -> 1 <= n <= MAX_LIMIT ->
        length (get_latest_prices order_desc false self limit)
        = Nat.min (Z.to_nat n) (length (table self)))
  /\ ((int_value limit = None
       \/ exists n, int_value limit = Some n /\ (n <= 0 \/ MAX_LIMIT < n)) ->
      get_latest_prices order_desc false self limit
      = get_latest_prices order_desc false self (PyInt DEFAULT_LIMIT))
  /\ StronglySorted newer (get_latest_prices order_desc false self limit)
  /\ (exists rest,
        table self ≡ₚ get_latest_prices order_desc false self limit ++ rest
        /\ forall r r', r ∈ get_latest_prices order_desc false self limit ->
             r' ∈ rest -> timestamp r' <= timestamp r)
  /\ get_latest_prices order_desc true self limit = [].
Proof.
  assert (Hk : exists k, 1 <= k <= MAX_LIMIT
            /\ get_latest_prices order_desc false self limit
               = take (Z.to_nat k) (order_desc (table self))
            /\ forall n, int_value limit = Some n -> 1 <= n <= MAX_LIMIT -> k = n).
  { unfold get_latest_prices, MAX_LIMIT, DEFAULT_LIMIT.
    destruct (int_value limit) as [n|].
    - destruct (decide (n <= 0)) as [H0|H0].
      + rewrite (bool_decide_eq_true_2 _ H0). simpl.
        exists 50. split; [lia|]. split; [reflexivity|]. intros ? [= <-]. lia.
      + rewrite (bool_decide_eq_false_2 _ H0). simpl.
        destruct (decide (n > 1000)) as [H1|H1].
        * rewrite (bool_decide_eq_true_2 _ H1).
          exists 50. split; [lia|]. split; [reflexivity|]. intros ? [= <-]. lia.
        * rewrite (bool_decide_eq_false_2 _ H1).
          exists n. split; [lia|]. split; [reflexivity|]. intros ? [= <-]. reflexivity.
    - exists 50. split; [lia|]. split; [reflexivity|]. discriminate. }
  destruct Hk as (k & Hk & Hres & Hvalid).
  split; [|split; [|split; [|split; [|split]]]].
  - rewrite Hres, length_take. lia.
  - intros n Hn Hr. rewrite Hres, length_take, (Hvalid n Hn Hr).
    rewrite (Permutation_length (order_desc_perm (table self))). reflexivity.
  - unfold get_latest_prices, MAX_LIMIT, DEFAULT_LIMIT.
    intros [-> | (n & -> & Hn)]; [reflexivity|]. simpl. destruct Hn.
    + rewrite bool_decide_eq_true_2 by assumption. reflexivity.
    + rewrite (bool_decide_eq_true_2 (n > 1000)) by lia.
      rewrite orb_true_r. reflexivity.
  - rewrite Hres. apply (StronglySorted_app_1_l newer _ (drop (Z.to_nat k) (order_desc (table self)))).
    rewrite take_drop. apply order_desc_sorted.
  - exists (drop (Z.to_nat k) (order_desc (table self))).
    rewrite Hres, take_drop. split; [symmetry; apply order_desc_perm|].
    intros r r' Hr Hr'.
    apply (StronglySorted_app_1_elem_of newer
             (take (Z.to_nat k) (order_desc (table self)))
             (drop (Z.to_nat k) (order_desc (table self))) r r'); auto.
    rewrite take_drop. apply order_desc_sorted.
  - unfold get_latest_prices. reflexivity.
Qed.

(** [get_asset_history] returns the rows of one symbol in a trailing
    window, oldest first. Let [h] be the count of hours when it is an int
    from 1 to MAX_HISTORY_HOURS, and DEFAULT_HISTORY_HOURS for any other
    argument. For a non-empty symbol: an entry is returned exactly when it
    is the (timestamp, price, change) of a row of that symbol, of either
    asset type, stamped from [now - h] to [now], bounds included; there is
    one entry for each such row; the entries ascend by timestamp. An
    empty symbol, or a database that raises, gives the empty frame. *)
Theorem get_asset_history_window
    (self : DataLogger.t) (now : Z) (symbol : string) (hours : PyVal) (h : Z) :
  symbol <> ""%string ->
  (int_value hours = Some h /\ 1 <= h <= MAX_HISTORY_HOURS)
  \/ (h = DEFAULT_HISTORY_HOURS
      /\ (int_value hours = None
          \/ exists n, int_value hours = Some n /\ (n <= 0 \/ MAX_HISTORY_HOURS < n))) ->
  (forall e, e ∈ get_asset_history order_asc false self now symbol hours <->
     exists r, r ∈ table self /\ DataLogger.symbol r = symbol
               /\ now - h * HOUR <= timestamp r <= now
               /\ e = history_columns r)
  /\ length (get_asset_history order_asc false self now symbol hours)
     = length (filter (fun r => DataLogger.symbol r = symbol
                                /\ now - h * HOUR <= timestamp r <= now)
                 (table self))
  /\ StronglySorted (fun e1 e2 => e1.1.1 <= e2.1.1)
       (get_asset_history order_asc false self now symbol hours)
  /\ get_asset_history order_asc false self now "" hours = []
  /\ get_asset_history order_asc true self now symbol hours = [].
Proof.
  intros Hs Hh.
  assert (E : get_asset_history order_asc false self now symbol hours
              = history_columns <$>
                  order_asc (filter (fun r => DataLogger.symbol r = symbol
                                              /\ now - h * HOUR <= timestamp r <= now)
                               (table self))).
  { unfold get_asset_history, MAX_HISTORY_HOURS, DEFAULT_HISTORY_HOURS in *.
    rewrite bool_decide_eq_false_2 by exact Hs.
    destruct Hh as [[-> Hr] | [-> [-> | (n & -> & [Hn | Hn])]]].
    - rewrite (bool_decide_eq_false_2 (h <= 0)) by lia.
      rewrite (bool_decide_eq_false_2 (h > 8760)) by lia. reflexivity.
    - reflexivity.
    - rewrite (bool_decide_eq_true_2 (n <= 0)) by assumption. reflexivity.
    - rewrite (bool_decide_eq_true_2 (n > 8760)) by lia.
      rewrite orb_true_r. reflexivity. }
  rewrite E. split; [|split; [|split; [|split]]].
  - intros e. rewrite list_elem_of_fmap. split.
    + intros (r & -> & Hin). rewrite order_asc_perm in Hin.
      apply list_elem_of_filter in Hin as [[H1 H2] Hin]. exists r. auto.
    + intros (r & Hin & H1 & H2 & ->). exists r. split; [reflexivity|].
      rewrite order_asc_perm. apply list_elem_of_filter. auto.
  - rewrite length_fmap. apply Permutation_length, order_asc_perm.
  - apply (StronglySorted_fmap history_columns older); [|apply order_asc_sorted].
    intros x y Hxy. exact Hxy.
  - reflexivity.
  - unfold get_asset_history. case_bool_decide; reflexivity.
Qed.

Lemma cleanup_old_data_table (self : DataLogger.t) (now : Z) (days : PyVal) (d : Z) :
  int_value days = Some d ->
  1 <= d <= MAX_CLEANUP_DAYS ->
  cleanup_old_data false self now days =
    ({| table := filter (fun r => ~ timestamp r < now - d * DAY) (table self);
        csv := csv self |},
     PyNone,
     [CleanedUp (Z.of_nat (length (filter (fun r => timestamp r < now - d * DAY)
                                     (table self))))]).
Proof.
  intros Hd Hr. unfold cleanup_old_data. rewrite Hd.
  rewrite bool_decide_eq_false_2 by lia.
  rewrite bool_decide_eq_false_2 by lia. reflexivity.
Qed.

(** A purge does not shorten a history that it is meant to keep. After
    [cleanup_old_data] with a day count [d] that is an int from 1 to
    MAX_CLEANUP_DAYS, [get_asset_history] at the same instant, for any
    symbol and any count of hours that, if it is an int from 1 to
    MAX_HISTORY_HOURS, is at most [24 * d], returns the frame it returned
    before the purge. *)
Theorem cleanup_keeps_history
    (self : DataLogger.t) (now : Z) (days : PyVal) (d : Z)
    (symbol : string) (hours : PyVal) :
  int_value days = Some d ->
  1 <= d <= MAX_CLEANUP_DAYS ->
  (forall h, int_value hours = Some h -> 1 <= h <= MAX_HISTORY_HOURS -> h <= 24 * d) ->
  get_asset_history order_asc false (cleanup_old_data false self now days).1.1
    now symbol hours
  = get_asset_history order_asc false self now symbol hours.
Proof.
  intros Hd Hr Hh.
  rewrite (cleanup_old_data_table self now days d Hd Hr).
  unfold get_asset_history. simpl.
  case_bool_decide; [reflexivity|].
  set (k := match int_value hours with
            | Some h => if bool_decide (h <= 0) || bool_decide (h > MAX_HISTORY_HOURS)
                        then DEFAULT_HISTORY_HOURS else h
            | None => DEFAULT_HISTORY_HOURS
            end).
  assert (Hk : 1 <= k <= 24 * d).
  { subst k. unfold MAX_HISTORY_HOURS, DEFAULT_HISTORY_HOURS in *.
    destruct (int_value hours) as [h|]; [|lia].
    destruct (decide (h <= 0)) as [H0|H0].
    - rewrite (bool_decide_eq_true_2 _ H0). simpl. lia.
    - rewrite (bool_decide_eq_false_2 _ H0). simpl.
      destruct (decide (h > 8760)) as [H1|H1].
      + rewrite (bool_decide_eq_true_2 _ H1). lia.
      + rewrite (bool_decide_eq_false_2 _ H1).
        specialize (Hh h eq_refl). lia. }
  f_equal. f_equal. rewrite list_filter_filter.
  apply list_filter_iff. intros r. unfold HOUR, DAY, SECOND in *. clearbody k.
  split; [tauto|]. intros [H1 H2]. split; [auto|]. lia.
Qed.

(** What [log_prices] writes, [get_asset_history] reads back. When the
    SQLite write does not fail, a record of the batch that the validator
    accepts, that the duplicate check lets through and whose price and
    change are finite floats (values that the REAL columns keep as they
    are) is found again, as (time of the call, price, change), in the
    history of its symbol read at the time of the call, for any count of
    hours. *)
Theorem log_prices_then_history
    (faults : Faults) (self : DataLogger.t) (now : Z) (prices : Prices)
    (s : string) (pd : PriceData) (p c ty : PyVal) (hours : PyVal) :
  (s, pd) ∈ prices ->
  validate_price_data s pd = true ->
  pd !! "price"%string = Some p ->
  pd !! "change_24h"%string = Some c ->
  pd !! "type"%string = Some ty ->
  kept_by_real p = true ->
  kept_by_real c = true ->
  _is_duplicate (dup_query_fails faults s) (table self) s now ty = false ->
  sqlite_write_fails faults = false ->
  (now, p, c) ∈ get_asset_history order_asc false
                  (log_prices faults self now prices).1 now s hours.
Proof.
  intros Hin Hv Hp Hc Hty _ _ Hd Hw.
  destruct (validate_price_data_true _ _ Hv) as (Hs & _).
  unfold get_asset_history. rewrite bool_decide_eq_false_2 by exact Hs.
  set (k := match int_value hours with
            | Some h => if bool_decide (h <= 0) || bool_decide (h > MAX_HISTORY_HOURS)
                        then DEFAULT_HISTORY_HOURS else h
            | None => DEFAULT_HISTORY_HOURS
            end).
  assert (Hk : 1 <= k).
  { subst k. unfold MAX_HISTORY_HOURS, DEFAULT_HISTORY_HOURS.
    destruct (int_value hours) as [h|]; [|lia].
    destruct (decide (h <= 0)) as [H0|H0].
    - rewrite (bool_decide_eq_true_2 _ H0). simpl. lia.
    - rewrite (bool_decide_eq_false_2 _ H0). simpl.
      destruct (bool_decide (h > 8760)); lia. }
  cbv zeta. apply list_elem_of_fmap. exists (mkRow now s p c ty).
  split; [reflexivity|]. rewrite order_asc_perm.
  apply list_elem_of_filter. simpl.
  split; [split; [reflexivity | clearbody k; unfold HOUR, SECOND; lia]|].
  rewrite log_prices_unfold. cbv zeta. rewrite Hw. simpl.
  apply elem_of_app. right. apply list_elem_of_omap. exists (s, pd).
  split; [exact Hin|]. unfold candidate. simpl. rewrite Hv, Hty, Hp, Hc, Hd.
  reflexivity.
Qed.

End ReadProperties.

Section SummaryProperties.

Import DataLogger DataLoggerReads.

Lemma remove_dups_shorter {A} `{!EqDecision A} (l : list A) :
  (length (remove_dups l) <= length l)%nat.
Proof.
  induction l as [|x l IH]; [reflexivity|]. simpl.
  destruct (decide_rel elem_of x l); simpl; lia.
Qed.

Lemma min_timestamp_spec (rows : list Row) :
  match min_timestamp rows with
  | None => rows = []
  | Some m => (exists r, r ∈ rows /\ timestamp r = m)
              /\ forall r, r ∈ rows -> m <= timestamp r
  end.
Proof.
  induction rows as [|r rows IH]; [reflexivity|]. simpl.
  destruct (min_timestamp rows) as [m|]; simpl.
  - destruct IH as [(r0 & Hr0 & E) Hall]. split.
    + destruct (Z.min_spec (timestamp r) m) as [[_ ->] | [_ ->]].
      * exists r. split; [left | reflexivity].
      * exists r0. split; [right; exact Hr0 | exact E].
    + intros r' Hr'. apply elem_of_cons in Hr' as [-> | Hr']; [lia|].
      specialize (Hall r' Hr'). lia.
  - subst rows. split.
    + exists r. split; [left | reflexivity].
    + intros r' Hr'. apply list_elem_of_singleton in Hr' as ->. lia.
Qed.

Lemma max_timestamp_spec (rows : list Row) :
  match max_timestamp rows with
  | None => rows = []
  | Some m => (exists r, r ∈ rows /\ timestamp r = m)
              /\ forall r, r ∈ rows -> timestamp r <= m
  end.
Proof.
  induction rows as [|r rows IH]; [reflexivity|]. simpl.
  destruct (max_timestamp rows) as [m|]; simpl.
  - destruct IH as [(r0 & Hr0 & E) Hall]. split.
    + destruct (Z.max_spec (timestamp r) m) as [[_ ->] | [_ ->]].
      * exists r0. split; [right; exact Hr0 | exact E].
      * exists r. split; [left | reflexivity].
    + intros r' Hr'. apply elem_of_cons in Hr' as [-> | Hr']; [lia|].
      specialize (Hall r' Hr'). lia.
  - subst rows. split.
    + exists r. split; [left | reflexivity].
    + intros r' Hr'. apply list_elem_of_singleton in Hr' as ->. lia.
Qed.

(** [get_summary_stats] is consistent with the table. When the database
    answers: the total is the number of rows; the number of unique assets
    is the number of distinct symbols among the rows (asset types are not
    told apart), at most the total, and 0 only for the empty table; the
    date range is (None, None) for the empty table and otherwise holds
    the timestamps of two rows that bracket every row; the latest entry is
    the upper end of the range. When the database raises, the result is
    the empty dict. *)
Theorem get_summary_stats_consistent (self : DataLogger.t) :
  get_summary_stats true self = None
  /\ exists sm,
       get_summary_stats false self = Some sm
       /\ total_entries sm = length (table self)
       /\ (unique_assets sm <= total_entries sm)%nat
       /\ (unique_assets sm = 0%nat <-> table self = [])
       /\ (exists symbols, NoDup symbols
             /\ (forall s, s ∈ symbols <-> exists r, r ∈ table self /\ DataLogger.symbol r = s)
             /\ unique_assets sm = length symbols)
       /\ latest_entry sm = (date_range sm).2
       /\ (table self = [] -> date_range sm = (None, None))
       /\ (forall r, r ∈ table self ->
             exists lo hi, date_range sm = (Some lo, Some hi)
                           /\ lo <= timestamp r <= hi)
       /\ (forall lo hi, date_range sm = (Some lo, Some hi) ->
             (exists r, r ∈ table self /\ timestamp r = lo)
             /\ (exists r, r ∈ table self /\ timestamp r = hi)).
Proof.
  split; [reflexivity|]. eexists. split; [reflexivity|]. simpl.
  pose proof (min_timestamp_spec (table self)) as Hmin.
  pose proof (max_timestamp_spec (table self)) as Hmax.
  split; [reflexivity|]. split; [|split; [|split; [|split; [|split; [|split]]]]].
  - etransitivity; [apply remove_dups_shorter|]. rewrite length_fmap. reflexivity.
  - split.
    + intros H0. destruct (table self) as [|r rows]; [reflexivity|]. exfalso.
      assert (Hin : DataLogger.symbol r ∈ remove_dups (DataLogger.symbol <$> r :: rows))
        by (apply elem_of_remove_dups; left).
      destruct (remove_dups _); [inversion Hin | discriminate].
    + intros ->. reflexivity.
  - exists (remove_dups (DataLogger.symbol <$> table self)).
    split; [apply NoDup_remove_dups|]. split; [|reflexivity].
    intros s. rewrite elem_of_remove_dups, list_elem_of_fmap.
    split; [intros (r & -> & Hr); eauto | intros (r & Hr & <-); eauto].
  - reflexivity.
  - intros ->. reflexivity.
  - intros r Hr.
    destruct (min_timestamp (table self)) as [lo|];
      [|rewrite Hmin in Hr; inversion Hr].
    destruct (max_timestamp (table self)) as [hi|];
      [|rewrite Hmax in Hr; inversion Hr].
    exists lo, hi. split; [reflexivity|].
    destruct Hmin as [_ Hmin], Hmax as [_ Hmax].
    specialize (Hmin r Hr). specialize (Hmax r Hr). lia.
  - intros lo hi [= Hlo Hhi]. rewrite Hlo in Hmin. rewrite Hhi in Hmax.
    destruct Hmin as [Hmin _], Hmax as [Hmax _]. auto.
Qed.

(** A purge and the summary read after it. After [cleanup_old_data] with
    a day count [d] that is an int from 1 to MAX_CLEANUP_DAYS, the summary
    reports no timestamp older than [now - d] days, and its total plus the
    number of deleted rows that the purge logs is the total before. *)
Theorem cleanup_then_summary
    (self : DataLogger.t) (now : Z) (days : PyVal) (d : Z) :
  int_value days = Some d ->
  1 <= d <= MAX_CLEANUP_DAYS ->
  exists sm deleted,
    get_summary_stats false (cleanup_old_data false self now days).1.1 = Some sm
    /\ (cleanup_old_data false self now days).2 = [CleanedUp deleted]
    /\ Z.of_nat (total_entries sm) + deleted = Z.of_nat (length (table self))
    /\ forall lo, (date_range sm).1 = Some lo -> now - d * DAY <= lo.
Proof.
  intros Hd Hr.
  pose proof (cleanup_old_data_table self now days d Hd Hr) as E.
  pose proof (filter_split_length (fun r => timestamp r < now - d * DAY) (table self))
    as Hlen.
  eexists _, _. split; [reflexivity|]. rewrite E in *. simpl in *.
  split; [reflexivity|]. split; [lia|].
  intros lo Hlo.
  pose proof (min_timestamp_spec
                (filter (fun r => ~ timestamp r < now - d * DAY) (table self))) as Hmin.
  rewrite Hlo in Hmin. destruct Hmin as [(r & Hr' & <-) _].
  apply list_elem_of_filter in Hr' as [Hr' _]. lia.
Qed.

End SummaryProperties.

Section ReadSamples.

Import SecurityConfig DataLogger DataLoggerReads.

#[local] Instance older_total : Total older.
Proof. intros r1 r2. unfold older. lia. Qed.
#[local] Instance older_trans : Transitive older.
Proof. intros r1 r2 r3. unfold older. lia. Qed.
#[local] Instance newer_total : Total newer.
Proof. intros r1 r2. unfold newer. lia. Qed.
#[local] Instance newer_trans : Transitive newer.
Proof. intros r1 r2 r3. unfold newer. lia. Qed.

Lemma merge_order_asc_perm rows : merge_order_asc rows ≡ₚ rows.
Proof. apply merge_sort_Permutation. Qed.
Lemma merge_order_asc_sorted rows : StronglySorted older (merge_order_asc rows).
Proof. apply StronglySorted_merge_sort; apply _. Qed.
Lemma merge_order_desc_perm rows : merge_order_desc rows ≡ₚ rows.
Proof. apply merge_sort_Permutation. Qed.
Lemma merge_order_desc_sorted rows : StronglySorted newer (merge_order_desc rows).
Proof. apply StronglySorted_merge_sort; apply _. Qed.

Lemma get_latest_prices_newest_witness :
  length (get_latest_prices merge_order_desc false two_rows (PyInt 1))
  = Nat.min (Z.to_nat 1) (length (table two_rows)).
Proof.
  assert (Hr : 1 <= 1 <= MAX_LIMIT) by (unfold MAX_LIMIT; lia).
  exact (proj1 (proj2 (get_latest_prices_newest merge_order_desc
                         merge_order_desc_perm merge_order_desc_sorted
                         two_rows (PyInt 1))) 1 eq_refl Hr).
Defined.

Lemma get_asset_history_window_witness :
  StronglySorted (fun e1 e2 => e1.1.1 <= e2.1.1)
    (get_asset_history merge_order_asc false two_rows purge_now "bitcoin" (PyInt 168)).
Proof.
  assert (Hs : "bitcoin"%string <> ""%string) by discriminate.
  assert (Hr : 1 <= 168 <= MAX_HISTORY_HOURS) by (unfold MAX_HISTORY_HOURS; lia).
  exact (proj1 (proj2 (proj2
           (get_asset_history_window merge_order_asc
              merge_order_asc_perm merge_order_asc_sorted
              two_rows purge_now "bitcoin" (PyInt 168) 168 Hs
              (or_introl (conj eq_refl Hr)))))).
Defined.

Lemma cleanup_keeps_history_witness :
  get_asset_history merge_order_asc false
    (cleanup_old_data false two_rows purge_now (PyInt 30)).1.1
    purge_now "bitcoin" (PyInt 168)
  = get_asset_history merge_order_asc false two_rows purge_now "bitcoin" (PyInt 168).
Proof.
  apply (cleanup_keeps_history merge_order_asc two_rows purge_now (PyInt 30) 30).
  - reflexivity.
  - unfold MAX_CLEANUP_DAYS. lia.
  - intros h [= <-] _. lia.
Defined.

Lemma log_prices_then_history_witness :
  (0, PyFloat (float_lit 45000 0), plus_2_5)
  ∈ get_asset_history merge_order_asc false
      (log_prices no_faults DataLogger.empty 0 (bitcoin_batch plus_2_5)).1
      0 "bitcoin" (PyInt 24).
Proof.
  apply (log_prices_then_history merge_order_asc merge_order_asc_perm
           no_faults DataLogger.empty 0 (bitcoin_batch plus_2_5)
           "bitcoin" (bitcoin plus_2_5) _ _ (PyStr "crypto")).
  - left.
  - vm_compute. reflexivity.
  - vm_compute. reflexivity.
  - vm_compute. reflexivity.
  - vm_compute. reflexivity.
  - vm_compute. reflexivity.
  - vm_compute. reflexivity.
  - reflexivity.
  - reflexivity.
Defined.

Lemma cleanup_then_summary_witness :
  exists sm deleted,
    get_summary_stats false (cleanup_old_data false two_rows purge_now (PyInt 30)).1.1
    = Some sm
    /\ (cleanup_old_data false two_rows purge_now (PyInt 30)).2 = [CleanedUp deleted]
    /\ Z.of_nat (total_entries sm) + deleted = Z.of_nat (length (table two_rows))
    /\ forall lo, (date_range sm).1 = Some lo -> purge_now - 30 * DAY <= lo.
Proof.
  apply (cleanup_then_summary two_rows purge_now (PyInt 30) 30).
  - reflexivity.
  - unfold MAX_CLEANUP_DAYS. lia.
Defined.

End ReadSamples.

(* ===================================================================== *)
(** * Alert statistics and dispatch                                       *)
(* ===================================================================== *)

Section DispatchProperties.

Import SecurityConfig AlertSystem AlertDispatch.

(** [get_alert_stats] agrees with the cooldown check. The active alerts
    are at most the total; the total is the number of symbols that have
    an entry in [last_alerts]; the active alerts are the number of symbols
    for which [_can_send_alert], asked at the same instant, answers
    [False]. *)
Theorem get_alert_stats_consistent
    (self : AlertSystem.t) (channels : Channels) (now : Z) :
  (active_alerts (get_alert_stats self channels now)
   <= total_alerts_sent (get_alert_stats self channels now))%nat
  /\ total_alerts_sent (get_alert_stats self channels now)
     = size (dom (last_alerts self))
  /\ exists held : list string,
       NoDup held
       /\ (forall s, s ∈ held <-> _can_send_alert self s now = false)
       /\ active_alerts (get_alert_stats self channels now) = length held.
Proof.
  unfold get_alert_stats. simpl.
  set (P := fun item : string * Z => now - item.2 < cooldown self * SECOND).
  split; [|split].
  - etransitivity; [apply length_filter|].
    rewrite length_map_to_list. reflexivity.
  - rewrite size_dom. reflexivity.
  - exists ((filter P (map_to_list (last_alerts self))).*1).
    split; [|split].
    + eapply NoDup_fmap_fst.
      * intros s t1 t2 H1 H2.
        apply list_elem_of_filter in H1 as [_ H1], H2 as [_ H2].
        apply elem_of_map_to_list in H1, H2. congruence.
      * apply NoDup_filter, NoDup_map_to_list.
    + intros s. unfold _can_send_alert. rewrite list_elem_of_fmap. split.
      * intros ([s' t] & -> & Hin). apply list_elem_of_filter in Hin as [HP Hin].
        apply elem_of_map_to_list in Hin. simpl. rewrite Hin.
        apply bool_decide_eq_false_2. unfold P in HP. simpl in HP. lia.
      * destruct (last_alerts self !! s) as [t|] eqn:E; [|discriminate].
        intros Hb. apply bool_decide_eq_false in Hb.
        exists (s, t). split; [reflexivity|]. apply list_elem_of_filter.
        split; [unfold P; simpl; lia|]. apply elem_of_map_to_list. exact E.
    + rewrite length_fmap. reflexivity.
Qed.

(** [total_alerts_sent] counts symbols, not alerts. After a call of
    [check_price_alerts] it is the number of symbols that had an entry
    before the call or got an alert in it: an alert for a symbol alerted
    before does not raise it. *)
Theorem total_alerts_sent_counts_symbols
    (self : AlertSystem.t) (channels : Channels) (now later : Z) (prices : Prices) :
  exists self' alerts,
    check_price_alerts self now prices = Ok (self', alerts)
    /\ total_alerts_sent (get_alert_stats self' channels later)
       = size (dom (last_alerts self) ∪ list_to_set (alert_symbol <$> alerts)
               : gset string).
Proof.
  destruct (check_price_alerts_effect self now prices)
    as (self' & alerts & H & _ & _ & _ & Hl).
  exists self', alerts. split; [exact H|].
  unfold get_alert_stats. simpl. rewrite <- size_dom. f_equal.
  apply set_eq. intros s.
  rewrite elem_of_union, !elem_of_dom, elem_of_list_to_set, Hl.
  case_bool_decide as Hs.
  - split; [auto | intros _; eauto].
  - split; [auto | intros [?|?]; [assumption | contradiction]].
Qed.

End DispatchProperties.

Section Dispatch.

Import SecurityConfig AlertSystem AlertDispatch.

(** The fields of a backed alert are numbers: its bodies render. *)
Lemma backed_renders thr now (items : Prices) a :
  backed thr now items a -> renders a = true.
Proof.
  intros (_ & _ & pd & _ & Hv & Hc & Hp & _).
  destruct (validate_price_data_true _ _ Hv) as (_ & p & c & ty & Hp' & Hc' & _ & Hvp & Hvc & _).
  rewrite Hp in Hp'. rewrite Hc in Hc'. injection Hp' as <-. injection Hc' as <-.
  unfold renders. rewrite (validate_price_number _ Hvp), (validate_change_percent_number _ Hvc).
  reflexivity.
Qed.

Lemma elem_of_concat_fmap {A B} (f : A -> list B) (l : list A) (y : B) :
  y ∈ concat (f <$> l) <-> exists x, x ∈ l /\ y ∈ f x.
Proof.
  induction l as [|x l IH]; simpl.
  - split; [intros H; inversion H | intros (x & H & _); inversion H].
  - rewrite elem_of_app, IH. split.
    + intros [H | (x' & H1 & H2)]; [exists x; split; [left | exact H]|].
      exists x'. split; [right; exact H1 | exact H2].
    + intros (x' & H1 & H2). apply elem_of_cons in H1 as [-> | H1]; [left; exact H2|].
      right. exists x'. auto.
Qed.

(** [process_alerts] never raises and keeps the channels apart. It leaves
    the object as [check_price_alerts] leaves it, and of the alerts that
    [check_price_alerts] returns: an alert is printed exactly when its
    [print] does not raise; it is e-mailed exactly when e-mail is enabled,
    EMAIL_PASSWORD is set and not empty, and its SMTP exchange does not
    raise; it is posted exactly when the webhook is enabled and its POST
    does not raise. No channel's failure bears on another channel or on
    another alert. *)
Theorem process_alerts_channels
    (self : AlertSystem.t) (channels : Channels) (out : Outside)
    (now : Z) (prices : Prices) :
  exists self' alerts deliveries,
    check_price_alerts self now prices = Ok (self', alerts)
    /\ process_alerts self channels out now prices = Ok (self', deliveries)
    /\ (forall a, Printed a ∈ deliveries <->
          a ∈ alerts /\ print_raises out a = false)
    /\ (forall a, Emailed a ∈ deliveries <->
          a ∈ alerts /\ email_enabled channels = true
          /\ email_password out <> ""%string /\ smtp_raises out a = false)
    /\ (forall a, Posted a ∈ deliveries <->
          a ∈ alerts /\ webhook_enabled channels = true
          /\ post_raises out a = false).
Proof.
  destruct (check_price_alerts_effect self now prices)
    as (self' & alerts & H & _ & _ & Hb & _).
  exists self', alerts. eexists. split; [exact H|].
  unfold process_alerts. rewrite H. simpl. split; [reflexivity|].
  assert (Hr : forall a, a ∈ alerts -> renders a = true).
  { intros a Ha. rewrite Forall_forall in Hb. eapply backed_renders, Hb, Ha. }
  split; [|split]; intros a; rewrite elem_of_concat_fmap.
  - split.
    + intros (x & Hx & Hin).
      unfold send_terminal_alert, send_email_alert, send_webhook_alert,
        _validate_email_config, _validate_webhook_config in Hin.
      rewrite !elem_of_app in Hin. destruct Hin as [Hin | [Hin | Hin]];
        repeat (match type of Hin with
                | _ ∈ (if ?b then _ else _) => destruct b eqn:?
                end; try (by inversion Hin));
        apply list_elem_of_singleton in Hin; try discriminate.
      injection Hin as ->. auto.
    + intros [Ha Hp]. exists a. split; [exact Ha|].
      apply elem_of_app. left. unfold send_terminal_alert. rewrite Hp. left.
  - split.
    + intros (x & Hx & Hin).
      unfold send_terminal_alert, send_email_alert, send_webhook_alert,
        _validate_email_config, _validate_webhook_config in Hin.
      rewrite !elem_of_app in Hin. destruct Hin as [Hin | [Hin | Hin]];
        repeat (match type of Hin with
                | _ ∈ (if ?b then _ else _) => destruct b eqn:?
                end; try (by inversion Hin));
        apply list_elem_of_singleton in Hin; try discriminate.
      injection Hin as ->.
      repeat match goal with
             | E : negb _ = false |- _ => apply negb_false_iff in E
             | E : bool_decide _ = false |- _ => apply bool_decide_eq_false in E
             end.
      auto.
    + intros (Ha & He & Hpw & Hs). exists a. split; [exact Ha|].
      apply elem_of_app. right. apply elem_of_app. left.
      unfold send_email_alert, _validate_email_config.
      rewrite He, (Hr a Ha), Hs, (bool_decide_eq_false_2 _ Hpw). simpl. left.
  - split.
    + intros (x & Hx & Hin).
      unfold send_terminal_alert, send_email_alert, send_webhook_alert,
        _validate_email_config, _validate_webhook_config in Hin.
      rewrite !elem_of_app in Hin. destruct Hin as [Hin | [Hin | Hin]];
        repeat (match type of Hin with
                | _ ∈ (if ?b then _ else _) => destruct b eqn:?
                end; try (by inversion Hin));
        apply list_elem_of_singleton in Hin; try discriminate.
      injection Hin as ->.
      repeat match goal with
             | E : negb _ = false |- _ => apply negb_false_iff in E
             end.
      auto.
    + intros (Ha & He & Hp). exists a. split; [exact Ha|].
      apply elem_of_app. right. apply elem_of_app. right.
      unfold send_webhook_alert, _validate_webhook_config.
      rewrite He, (Hr a Ha), Hp. simpl. left.
Qed.

(** An alert that no channel delivered is not sent again within the
    cooldown. [process_alerts] records the time of an alert in
    [last_alerts] before any channel is tried, whatever the channels then
    do; so, for a cooldown of at most 2^34 seconds (the range in which the
    exact comparison of [_can_send_alert] is the code's comparison on
    [total_seconds()]), after a call that raised an alert for [s], a call
    less than the cooldown later returns and delivers nothing about [s],
    whatever its batch holds and whether or not the first alert reached
    anyone. *)
Theorem lost_alert_not_retried
    (self : AlertSystem.t) (channels : Channels) (out out' : Outside)
    (now now' : Z) (prices prices' : Prices) (s : string) :
  cooldown self <= 2 ^ 34 ->
  now' - now < cooldown self * SECOND ->
  exists self' alerts deliveries,
    check_price_alerts self now prices = Ok (self', alerts)
    /\ process_alerts self channels out now prices = Ok (self', deliveries)
    /\ (s ∈ alert_symbol <$> alerts ->
        exists self'' deliveries',
          process_alerts self' channels out' now' prices' = Ok (self'', deliveries')
          /\ forall d, d ∈ deliveries' -> alert_symbol (delivered d) <> s).
Proof.
  intros _ Hlt.
  destruct (check_price_alerts_effect self now prices)
    as (self' & alerts & H & _ & Hc & _ & Hl).
  exists self', alerts. eexists. split; [exact H|].
  unfold process_alerts at 1. rewrite H. simpl. split; [reflexivity|].
  intros Hs.
  assert (Hls : last_alerts self' !! s = Some now).
  { rewrite Hl. rewrite bool_decide_eq_true_2 by exact Hs. reflexivity. }
  destruct (check_price_alerts_suppressed self' now' prices' s now Hls)
    as (self'' & alerts'' & H'' & _ & _ & _ & Hnone).
  { rewrite Hc. exact Hlt. }
  exists self''. eexists. unfold process_alerts. rewrite H''. simpl.
  split; [reflexivity|].
  intros d Hd Hsym. apply elem_of_concat_fmap in Hd as (a & Ha & Hd).
  assert (Hda : delivered d = a).
  { unfold send_terminal_alert, send_email_alert, send_webhook_alert in Hd.
    rewrite !elem_of_app in Hd. destruct Hd as [Hd | [Hd | Hd]];
      repeat (match type of Hd with
              | _ ∈ (if ?b then _ else _) => destruct b eqn:?
              end; try (by inversion Hd));
      apply list_elem_of_singleton in Hd; subst d; reflexivity. }
  assert (Hin : a ∈ alerts_for s alerts'').
  { unfold alerts_for. apply list_elem_of_filter. split; [congruence | exact Ha]. }
  rewrite Hnone in Hin. inversion Hin.
Qed.

Lemma lost_alert_not_retried_witness :
  exists self' alerts deliveries,
    check_price_alerts AlertSystem.init 0 (bitcoin_batch plus_7_5) = Ok (self', alerts)
    /\ process_alerts AlertSystem.init default_channels all_channels_down 0
         (bitcoin_batch plus_7_5) = Ok (self', deliveries)
    /\ ("bitcoin"%string ∈ alert_symbol <$> alerts ->
        exists self'' deliveries',
          process_alerts self' default_channels all_channels_down (120 * SECOND)
            (bitcoin_batch plus_8_0) = Ok (self'', deliveries')
          /\ forall d, d ∈ deliveries' -> alert_symbol (delivered d) <> "bitcoin"%string).
Proof.
  apply lost_alert_not_retried.
  - vm_compute. discriminate.
  - vm_compute. reflexivity.
Defined.

End Dispatch.

(* ===================================================================== *)
(** * The dashboard                                                       *)
(* ===================================================================== *)

Section DashboardProperties.

Import AlertSystem DataLogger Dashboard.

Lemma rate_limit_check_passes (request_counts : RequestCounts)
    (client_ip : option string) (current_time : Z) :
  rate_limit_check request_counts client_ip current_time
  = Returns ({[ client_ip := mkCounter 1 (current_time + MINUTE) ]}, true).
Proof.
  unfold rate_limit_check. cbv [INPUT_VALIDATION_ENABLED negb]. cbv zeta.
  assert (H0 : bool_decide ((∅ : RequestCounts) !! client_ip = None) = true).
  { apply bool_decide_eq_true_2, lookup_empty. }
  rewrite H0.
  assert (H1 : forall (c : Counter) (m : RequestCounts),
             counter_of (<[client_ip := c]> m) client_ip = Returns c).
  { intros c m. unfold counter_of. rewrite lookup_insert_eq. reflexivity. }
  rewrite H1. cbn [mbind outcome_bind reset_time].
  rewrite bool_decide_eq_false_2 by (unfold MINUTE, SECOND; lia).
  rewrite H1. cbn [mbind outcome_bind reset_time count].
  rewrite H1. cbn [mbind outcome_bind reset_time count].
  rewrite bool_decide_eq_false_2 by (unfold MAX_REQUESTS_PER_MINUTE; lia).
  rewrite insert_insert_eq. reflexivity.
Qed.

(** The rate limiter never limits. The decorator empties [request_counts]
    on every request before it counts, so that each request is the first
    of its client: over any run of requests, from any clients at any
    times and from any counters, every view is called and no request is
    answered with 429; a decorated view answers what the bare view
    answers. *)
Theorem rate_limit_never_rejects
    (request_counts : RequestCounts) (requests : list (option string * Z)) :
  (exists request_counts',
     rate_limit_run request_counts requests
     = Returns (request_counts', replicate (length requests) true))
  /\ forall (S : Type) (f : S -> outcome (S * Z)) (client_ip : option string)
       (current_time : Z) (app : S),
       rate_limit f request_counts client_ip current_time app
       = (a ← f app;
          Returns ({[ client_ip := mkCounter 1 (current_time + MINUTE) ]}, a.1, a.2)).
Proof.
  split.
  - revert request_counts.
    induction requests as [|[client_ip current_time] rest IH]; intros request_counts.
    + exists request_counts. reflexivity.
    + simpl. rewrite rate_limit_check_passes. simpl.
      destruct (IH {[ client_ip := mkCounter 1 (current_time + MINUTE) ]}) as (rc & ->).
      exists rc. reflexivity.
  - intros S f client_ip current_time app. unfold rate_limit.
    rewrite rate_limit_check_passes. reflexivity.
Qed.

(** ** Numeric input *)

Section NumericInput.

Variable str_to_float : string -> option spec_float.

Lemma validate_numeric_input_Some (value : Json) (lo hi : PyVal) (f : spec_float) :
  validate_numeric_input str_to_float value (Some lo) (Some hi) = Returns (Some f) ->
  float_of str_to_float value = Returns f
  /\ exists xl xh, to_num lo = Some xl /\ to_num hi = Some xh
       /\ num_lt (float_num f) xl = false /\ num_gt (float_num f) xh = false.
Proof.
  unfold validate_numeric_input.
  destruct (float_of str_to_float value) as [g|e]; simpl; [|destruct e; discriminate].
  unfold py_lt, py_gt, py_cmp. simpl.
  destruct (to_num lo) as [xl|]; simpl; [|discriminate].
  destruct (num_lt (float_num g) xl) eqn:Hlt; simpl; [discriminate|].
  destruct (to_num hi) as [xh|]; simpl; [|discriminate].
  destruct (num_gt (float_num g) xh) eqn:Hgt; simpl; [discriminate|].
  intros [= <-]. split; [reflexivity|]. exists xl, xh. auto.
Qed.

Lemma validate_numeric_input_nan (value : Json) (lo hi : PyVal) :
  float_of str_to_float value = Returns S754_nan ->
  isinstance_int_float lo = true -> isinstance_int_float hi = true ->
  validate_numeric_input str_to_float value (Some lo) (Some hi)
  = Returns (Some S754_nan).
Proof.
  intros Hf Hlo Hhi. unfold validate_numeric_input. rewrite Hf. simpl.
  unfold py_lt, py_gt, py_cmp. simpl.
  destruct lo as [| b | z | g | s]; try discriminate;
    destruct hi as [| b' | z' | g' | s']; try discriminate; simpl;
    try destruct g; try destruct g'; reflexivity.
Qed.

(** [int] of a float that lies between two ints lies between them. *)
Lemma py_int_between (f : spec_float) (lo hi z : Z) :
  0 < lo ->
  num_lt (float_num f) (XFin lo 0) = false ->
  num_gt (float_num f) (XFin hi 0) = false ->
  py_int f = Returns z ->
  lo <= z <= hi.
Proof.
  intros Hlo Hlt Hgt Hz.
  destruct f as [s | s | | s m e]; simpl in *; try discriminate.
  - exfalso. unfold num_lt, num_compare, fin_compare in Hlt. simpl in Hlt.
    destruct lo; try discriminate; lia.
  - injection Hz as <-.
    unfold num_lt, num_gt, num_compare, fin_compare in Hlt, Hgt.
    pose proof (Pos2Z.is_pos m) as Hm.
    destruct (Z.min_spec e 0) as [[He Hk] | [He Hk]]; rewrite Hk in Hlt, Hgt.
    + (* e < 0: the float has a fraction *)
      rewrite Z.sub_diag, Z.sub_0_l in Hlt, Hgt. rewrite Z.pow_0_r in Hlt, Hgt.
      rewrite Z.mul_1_r in Hlt, Hgt.
      assert (HP : 0 < 2 ^ (- e)) by (apply Z.pow_pos_nonneg; lia).
      replace (Z.shiftl (Z.pos m) e) with (Z.pos m / 2 ^ (- e)).
      2:{ rewrite <- Z.shiftr_div_pow2 by lia. rewrite <- Z.shiftl_opp_r.
          f_equal. lia. }
      destruct s; unfold cond_Zopp in *.
      * exfalso.
        destruct (Z.compare_spec (- Z.pos m) (lo * 2 ^ (- e))); try discriminate; nia.
      * destruct (Z.compare_spec (Z.pos m) (lo * 2 ^ (- e))); try discriminate;
          destruct (Z.compare_spec (Z.pos m) (hi * 2 ^ (- e))); try discriminate;
          (split; [apply Z.div_le_lower_bound | apply Z.div_le_upper_bound]); lia.
    + (* 0 <= e: the float is an integer *)
      rewrite !Z.sub_0_r in Hlt, Hgt. rewrite Z.pow_0_r in Hlt, Hgt.
      rewrite !Z.mul_1_r in Hlt, Hgt.
      rewrite Z.shiftl_mul_pow2 by lia.
      assert (HP : 0 < 2 ^ e) by (apply Z.pow_pos_nonneg; lia).
      destruct s; unfold cond_Zopp in *.
      * exfalso.
        destruct (Z.compare_spec (- Z.pos m * 2 ^ e) lo); try discriminate; nia.
      * destruct (Z.compare_spec (Z.pos m * 2 ^ e) lo); try discriminate;
          destruct (Z.compare_spec (Z.pos m * 2 ^ e) hi); try discriminate; lia.
Qed.

(** [MIN_THRESHOLD] is one tenth as binary64 division rounds it. *)
Lemma MIN_THRESHOLD_tenth :
  SFdiv prec emax (float_lit 1 0) (float_lit 10 0) = MIN_THRESHOLD.
Proof. vm_compute. reflexivity. Qed.

Lemma MIN_THRESHOLD_value : (1 # 10 <= dyadic_Q 7205759403792794 (-56))%Q.
Proof. unfold dyadic_Q. vm_compute. discriminate. Qed.

Lemma MAX_THRESHOLD_value : (dyadic_Q 7036874417766400 (-46) == 100)%Q.
Proof. unfold dyadic_Q. vm_compute. reflexivity. Qed.

(** A float that [validate_numeric_input] lets through the threshold
    bounds is NaN or a finite float from 0.1 to 100. *)
Lemma threshold_bounds (f : spec_float) :
  num_lt (float_num f) (float_num MIN_THRESHOLD) = false ->
  num_gt (float_num f) (float_num MAX_THRESHOLD) = false ->
  f = S754_nan
  \/ exists q, value (PyFloat f) = Some q /\ (1 # 10 <= q <= 100)%Q.
Proof.
  change (float_num MIN_THRESHOLD) with (XFin 7205759403792794 (-56)).
  change (float_num MAX_THRESHOLD) with (XFin 7036874417766400 (-46)).
  intros Hlt Hgt.
  assert (Hfin : forall m e,
             num_lt (XFin m e) (XFin 7205759403792794 (-56)) = false ->
             num_gt (XFin m e) (XFin 7036874417766400 (-46)) = false ->
             (1 # 10 <= dyadic_Q m e <= 100)%Q).
  { intros m e H1 H2. split.
    - eapply Qle_trans; [apply MIN_THRESHOLD_value|].
      apply Qnot_lt_le. intros H. apply num_lt_Q in H. congruence.
    - rewrite <- MAX_THRESHOLD_value.
      apply Qnot_lt_le. intros H. apply num_gt_Q in H. congruence. }
  destruct f as [s | s | | s m e]; simpl in Hlt, Hgt.
  - right. eexists. split; [reflexivity|]. apply Hfin; assumption.
  - destruct s; discriminate.
  - left. reflexivity.
  - right. eexists. split; [reflexivity|]. apply Hfin; assumption.
Qed.

Lemma update_threshold_float (self : AlertSystem.t) (f : spec_float) :
  f = S754_nan \/ (exists q, value (PyFloat f) = Some q /\ (1 # 10 <= q <= 100)%Q) ->
  update_threshold self (PyFloat f)
  = Ok (AlertSystem.mk f (cooldown self) (last_alerts self),
        [ThresholdUpdated (PyFloat f)]).
Proof.
  intros [-> | (q & Hq & Hlo & _)]; [reflexivity|].
  rewrite (update_threshold_finite self _ q Hq).
  destruct (Qle_bool q 0) eqn:E; [|reflexivity].
  apply Qle_bool_iff in E. exfalso.
  assert (H : (1 # 10 <= 0)%Q) by (eapply Qle_trans; eauto).
  vm_compute in H. apply H. reflexivity.
Qed.

Lemma body_get_cases (body : Body) (key : string) (fallback : Json) :
  body_get body key fallback = Returns (inl 400)
  \/ (exists e, body_get body key fallback = Raises e)
  \/ exists data, body = JsonObject data /\ data <> ∅
       /\ body_get body key fallback = Returns (inr (default fallback (data !! key))).
Proof.
  destruct body as [|data|truthy]; simpl.
  - right. left. eauto.
  - case_bool_decide; [left; reflexivity|]. right. right. eauto.
  - destruct truthy; [right; left; eauto | left; reflexivity].
Qed.

(** [api_update_threshold]: what the HTTP interface can do to the
    threshold. The view answers 200, 400 or 500; unless it answers 200
    the alert system is as it was; when it answers 200 only the threshold
    has changed, and the new threshold is a finite float from 0.1 to 100
    or NaN: [validate_numeric_input] compares, and every comparison with
    NaN is false. *)
Theorem api_update_threshold_range (alert_system : AlertSystem.t) (body : Body) :
  let r := api_update_threshold str_to_float alert_system body in
  (r.2 = 200 \/ r.2 = 400 \/ r.2 = 500)
  /\ (r.2 <> 200 -> r.1 = alert_system)
  /\ (r.2 = 200 ->
      cooldown r.1 = cooldown alert_system
      /\ last_alerts r.1 = last_alerts alert_system
      /\ (threshold r.1 = S754_nan
          \/ exists q, value (PyFloat (threshold r.1)) = Some q
                       /\ (1 # 10 <= q <= 100)%Q)).
Proof.
  cbv zeta.
  assert (H : api_update_threshold str_to_float alert_system body = (alert_system, 400)
              \/ api_update_threshold str_to_float alert_system body = (alert_system, 500)
              \/ exists f,
                   (f = S754_nan
                    \/ exists q, value (PyFloat f) = Some q /\ (1 # 10 <= q <= 100)%Q)
                   /\ api_update_threshold str_to_float alert_system body
                      = (AlertSystem.mk f (cooldown alert_system)
                           (last_alerts alert_system), 200)).
  { unfold api_update_threshold.
    destruct (body_get_cases body "threshold" (JVal PyNone))
      as [-> | [(e & ->) | (data & _ & _ & ->)]]; simpl; auto.
    destruct (validate_numeric_input str_to_float _ _ _) as [[f|]|e] eqn:Hv;
      simpl; auto.
    apply validate_numeric_input_Some in Hv as (_ & xl & xh & [= <-] & [= <-] & Hlt & Hgt).
    pose proof (threshold_bounds f Hlt Hgt) as Hf.
    rewrite (update_threshold_float alert_system f Hf). simpl.
    right. right. exists f. auto. }
  destruct H as [-> | [-> | (f & Hf & ->)]]; simpl.
  - split; [auto|]. split; [reflexivity | discriminate].
  - split; [auto|]. split; [reflexivity | discriminate].
  - split; [auto|]. split; [congruence|]. auto.
Qed.

(** A request that spells NaN silences the alert engine. When the
    ['threshold'] member of the body is one whose [float] is NaN (the JSON
    literal [NaN], or a string that [float] reads as NaN),
    [api_update_threshold] answers 200 and stores NaN as the threshold;
    from then on [check_price_alerts] returns no alert and records
    nothing, whatever the batch. *)
Theorem api_update_threshold_nan
    (alert_system : AlertSystem.t) (data : gmap string Json) (v : Json) :
  data !! "threshold"%string = Some v ->
  float_of str_to_float v = Returns S754_nan ->
  api_update_threshold str_to_float alert_system (JsonObject data)
  = (AlertSystem.mk S754_nan (cooldown alert_system) (last_alerts alert_system), 200)
  /\ forall (now : Z) (prices : Prices),
       check_price_alerts
         (AlertSystem.mk S754_nan (cooldown alert_system) (last_alerts alert_system))
         now prices
       = Ok (AlertSystem.mk S754_nan (cooldown alert_system) (last_alerts alert_system),
             []).
Proof.
  intros Hd Hv. split.
  - unfold api_update_threshold, body_get.
    rewrite bool_decide_eq_false_2.
    2:{ intros ->. rewrite lookup_empty in Hd. discriminate. }
    rewrite Hd. simpl.
    rewrite (validate_numeric_input_nan v (PyFloat MIN_THRESHOLD) (PyFloat MAX_THRESHOLD)
               Hv eq_refl eq_refl). reflexivity.
  - intros now prices.
    destruct (check_price_alerts_effect
                (AlertSystem.mk S754_nan (cooldown alert_system) (last_alerts alert_system))
                now prices) as (self' & alerts & H & Ht & Hc & Hb & Hl).
    assert (Ha : alerts = []).
    { destruct alerts as [|a alerts]; [reflexivity|]. exfalso.
      apply Forall_cons in Hb as [(_ & _ & pd & _ & _ & _ & _ & _ & Hx) _].
      simpl in Hx. unfold crossing in Hx.
      destruct (alert_change_24h a) as [| b | z | f | s]; try discriminate.
      destruct f; discriminate. }
    subst alerts. rewrite H. f_equal. f_equal.
    destruct self' as [t c l]. simpl in *. subst t c. f_equal.
    apply map_eq. intros s. rewrite Hl. reflexivity.
Qed.

(** [api_update_cooldown]: what the HTTP interface can do to the
    cooldown. The view answers 200, 400 or 500; unless it answers 200 the
    alert system is as it was; when it answers 200 only the cooldown has
    changed, and the new cooldown is an int from 60 to 3600 (a float in
    that range is truncated); a NaN, which passes the range check, is
    answered 500 and changes nothing. *)
Theorem api_update_cooldown_range (alert_system : AlertSystem.t) (body : Body) :
  let r := api_update_cooldown str_to_float alert_system body in
  (r.2 = 200 \/ r.2 = 400 \/ r.2 = 500)
  /\ (r.2 <> 200 -> r.1 = alert_system)
  /\ (r.2 = 200 ->
      exists seconds, MIN_COOLDOWN <= seconds <= MAX_COOLDOWN
        /\ r.1 = AlertSystem.mk (threshold alert_system) seconds
                   (last_alerts alert_system))
  /\ (forall data v, body = JsonObject data ->
        data !! "cooldown"%string = Some v ->
        float_of str_to_float v = Returns S754_nan ->
        r = (alert_system, 500)).
Proof.
  cbv zeta.
  assert (H : api_update_cooldown str_to_float alert_system body = (alert_system, 400)
              \/ api_update_cooldown str_to_float alert_system body = (alert_system, 500)
              \/ exists seconds, MIN_COOLDOWN <= seconds <= MAX_COOLDOWN
                   /\ api_update_cooldown str_to_float alert_system body
                      = (AlertSystem.mk (threshold alert_system) seconds
                           (last_alerts alert_system), 200)).
  { unfold api_update_cooldown.
    destruct (body_get_cases body "cooldown" (JVal PyNone))
      as [-> | [(e & ->) | (data & _ & _ & ->)]]; simpl; auto.
    destruct (validate_numeric_input str_to_float _ _ _) as [[f|]|e] eqn:Hv;
      simpl; auto.
    apply validate_numeric_input_Some in Hv as (_ & xl & xh & [= <-] & [= <-] & Hlt & Hgt).
    destruct (py_int f) as [z|e] eqn:Hz; simpl; auto.
    pose proof (py_int_between f MIN_COOLDOWN MAX_COOLDOWN z eq_refl Hlt Hgt Hz) as Hb.
    unfold update_cooldown. simpl.
    rewrite bool_decide_eq_false_2 by (unfold MIN_COOLDOWN in Hb; lia). simpl.
    right. right. exists z. auto. }
  split; [|split; [|split]].
  - destruct H as [-> | [-> | (z & _ & ->)]]; simpl; auto.
  - destruct H as [-> | [-> | (z & _ & ->)]]; simpl; congruence.
  - destruct H as [-> | [-> | (z & Hz & ->)]]; simpl; try discriminate.
    intros _. exists z. auto.
  - intros data v -> Hd Hv. unfold api_update_cooldown, body_get.
    rewrite bool_decide_eq_false_2.
    2:{ intros ->. rewrite lookup_empty in Hd. discriminate. }
    rewrite Hd. simpl.
    rewrite (validate_numeric_input_nan v (PyInt MIN_COOLDOWN) (PyInt MAX_COOLDOWN)
               Hv eq_refl eq_refl). reflexivity.
Qed.

(** [api_cleanup] and the purge behind it. The view answers 200, 400 or
    500 and never touches the CSV file; unless it answers 200 the ledger
    is as it was; when it answers 200 and the database did not raise, the
    table keeps exactly its rows stamped at or after [now - d] days for an
    int [d] from 1 to 365, so that [cleanup_old_data] never falls back on
    its default; and it answers 200 as well when the database raised and
    nothing was deleted. *)
Theorem api_cleanup_purges
    (fails : bool) (now : Z) (data_logger : DataLogger.t) (body : Body) :
  let r := api_cleanup str_to_float fails now data_logger body in
  (r.2 = 200 \/ r.2 = 400 \/ r.2 = 500)
  /\ csv r.1 = csv data_logger
  /\ (r.2 <> 200 -> r.1 = data_logger)
  /\ (r.2 = 200 ->
      if fails then r.1 = data_logger
      else exists d, MIN_CLEANUP_DAYS <= d <= MAX_CLEANUP_DAYS_INPUT
             /\ table r.1
                = filter (fun row => ~ timestamp row < now - d * DAY) (table data_logger)).
Proof.
  cbv zeta.
  assert (H : api_cleanup str_to_float fails now data_logger body = (data_logger, 400)
              \/ api_cleanup str_to_float fails now data_logger body = (data_logger, 500)
              \/ exists d, MIN_CLEANUP_DAYS <= d <= MAX_CLEANUP_DAYS_INPUT
                   /\ api_cleanup str_to_float fails now data_logger body
                      = ((cleanup_old_data fails data_logger now (PyInt d)).1.1, 200)).
  { unfold api_cleanup.
    destruct (body_get_cases body "days" (JVal (PyInt 30)))
      as [-> | [(e & ->) | (data & _ & _ & ->)]]; simpl; auto.
    destruct (validate_numeric_input str_to_float _ _ _) as [[f|]|e] eqn:Hv;
      simpl; auto.
    apply validate_numeric_input_Some in Hv as (_ & xl & xh & [= <-] & [= <-] & Hlt & Hgt).
    destruct (py_int f) as [z|e] eqn:Hz; simpl; auto.
    pose proof (py_int_between f MIN_CLEANUP_DAYS MAX_CLEANUP_DAYS_INPUT z
                  eq_refl Hlt Hgt Hz) as Hb.
    right. right. exists z. auto. }
  assert (Hc : forall d, MIN_CLEANUP_DAYS <= d <= MAX_CLEANUP_DAYS_INPUT ->
             cleanup_old_data fails data_logger now (PyInt d)
             = if fails then (data_logger, PyNone, [CleanupError])
               else ({| table := filter (fun row => ~ timestamp row < now - d * DAY)
                                   (table data_logger);
                        csv := csv data_logger |}, PyNone,
                     [CleanedUp (Z.of_nat (length (filter
                        (fun row => timestamp row < now - d * DAY)
                        (table data_logger))))])).
  { intros d Hd. destruct fails; [reflexivity|].
    apply cleanup_old_data_table; [reflexivity|].
    unfold MIN_CLEANUP_DAYS, MAX_CLEANUP_DAYS_INPUT, MAX_CLEANUP_DAYS in *. lia. }
  destruct H as [-> | [-> | (d & Hd & ->)]]; simpl.
  - split; [auto|]. split; [reflexivity|]. split; [reflexivity | discriminate].
  - split; [auto|]. split; [reflexivity|]. split; [reflexivity | discriminate].
  - rewrite (Hc d Hd). split; [auto|].
    destruct fails; simpl; (split; [reflexivity|]); (split; [congruence|]); intros _;
      [reflexivity | exists d; auto].
Qed.

End NumericInput.

Lemma api_update_threshold_nan_witness :
  api_update_threshold no_strings AlertSystem.init
    (JsonObject {[ "threshold"%string := JVal (PyFloat S754_nan) ]})
  = (AlertSystem.mk S754_nan (cooldown AlertSystem.init) (last_alerts AlertSystem.init),
     200)
  /\ forall (now : Z) (prices : Prices),
       check_price_alerts
         (AlertSystem.mk S754_nan (cooldown AlertSystem.init)
            (last_alerts AlertSystem.init)) now prices
       = Ok (AlertSystem.mk S754_nan (cooldown AlertSystem.init)
               (last_alerts AlertSystem.init), []).
Proof.
  apply (api_update_threshold_nan no_strings AlertSystem.init
           {[ "threshold"%string := JVal (PyFloat S754_nan) ]} (JVal (PyFloat S754_nan))).
  - apply lookup_singleton_eq.
  - reflexivity.
Defined.

End DashboardProperties.

(* ===================================================================== *)
(** * The symbol pattern                                                  *)
(* ===================================================================== *)

Section SymbolProperties.

Import SecurityConfig SymbolPattern.

Lemma repeat_then_dollar_spec (lo hi : nat) (s : list Ascii.ascii) :
  repeat_then_dollar lo hi s = true <->
  exists body rest,
    s = body ++ rest
    /\ Forall (fun c => symbol_char c = true) body
    /\ (lo <= length body <= hi)%nat
    /\ at_dollar rest = true.
Proof.
  revert lo s. induction hi as [|hi IH]; intros lo s.
  - assert (E : repeat_then_dollar lo 0 s = (lo =? 0)%nat && at_dollar s)
      by (destruct s; reflexivity).
    rewrite E, andb_true_iff, Nat.eqb_eq. split.
    + intros [-> Hd]. exists [], s. repeat split; auto.
    + intros (body & rest & -> & _ & [Hlo Hhi] & Hd).
      destruct body; simpl in *; [|lia]. split; [lia | exact Hd].
  - destruct s as [|c t].
    + simpl. rewrite andb_true_iff, Nat.eqb_eq. split.
      * intros [-> Hd]. exists [], []. repeat split; auto; simpl; lia.
      * intros (body & rest & E & _ & [Hlo _] & Hd).
        symmetry in E. apply app_eq_nil in E as [-> ->]. simpl in Hlo.
        split; [lia | exact Hd].
    + simpl. destruct (symbol_char c && repeat_then_dollar (pred lo) hi t) eqn:Hc.
      * split; [intros _ | reflexivity].
        apply andb_true_iff in Hc as [Hc Hrec].
        apply IH in Hrec as (body & rest & -> & Hall & [Hlo Hhi] & Hd).
        exists (c :: body), rest. repeat split; auto; simpl; lia.
      * rewrite andb_true_iff, Nat.eqb_eq. split.
        -- intros [-> Hd]. exists [], (c :: t). repeat split; auto; simpl; lia.
        -- intros (body & rest & E & Hall & [Hlo Hhi] & Hd).
           destruct body as [|c' body]; simpl in *.
           ++ subst rest. split; [lia | exact Hd].
           ++ injection E as <- ->. exfalso.
              apply Forall_cons in Hall as [Hc' Hall].
              rewrite Hc' in Hc. simpl in Hc.
              assert (Hrec : repeat_then_dollar (pred lo) hi (body ++ rest) = true).
              { apply IH. exists body, rest. repeat split; auto; lia. }
              congruence.
Qed.

Lemma length_list_ascii (s : string) :
  length (String.list_ascii_of_string s) = String.length s.
Proof. induction s as [|c s IH]; simpl; congruence. Qed.

Lemma at_dollar_cases (rest : list Ascii.ascii) :
  at_dollar rest = true <-> rest = [] \/ rest = [newline].
Proof.
  unfold at_dollar. rewrite orb_true_iff, !bool_decide_eq_true. reflexivity.
Qed.

(** What [validate_symbol] accepts. A value passes exactly when it is a
    string of 1 to 50 characters of [A-Za-z0-9.-], or such a string of 1
    to 49 characters followed by one newline: [$] also matches just before
    a newline that ends the string. *)
Theorem validate_symbol_accepts (symbol : PyVal) :
  validate_symbol symbol = true <->
  exists (s : string) (body : list Ascii.ascii),
    symbol = PyStr s
    /\ Forall (fun c => symbol_char c = true) body
    /\ (1 <= length body)%nat
    /\ ((String.list_ascii_of_string s = body /\ (length body <= 50)%nat)
        \/ (String.list_ascii_of_string s = body ++ [newline]
            /\ (length body <= 49)%nat)).
Proof.
  split.
  - destruct symbol as [| b | z | f | s]; simpl; try discriminate.
    case_bool_decide as Hne; [discriminate|].
    case_bool_decide as Hlen; [discriminate|].
    destruct (SYMBOL_PATTERN_match s) eqn:Hm; [|discriminate]. intros _.
    apply repeat_then_dollar_spec in Hm as (body & rest & E & Hall & [Hlo Hhi] & Hd).
    exists s, body. split; [reflexivity|]. split; [exact Hall|]. split; [exact Hlo|].
    unfold MAX_SYMBOL_LENGTH in Hlen. rewrite <- length_list_ascii, E in Hlen.
    rewrite length_app in Hlen.
    apply at_dollar_cases in Hd as [-> | ->].
    + left. rewrite app_nil_r in E. auto.
    + right. simpl in Hlen. split; [exact E | lia].
  - intros (s & body & -> & Hall & Hlo & Hs). simpl.
    assert (Hlen : (length (String.list_ascii_of_string s) <= 50)%nat).
    { destruct Hs as [[-> H] | [-> H]]; [exact H|]. rewrite length_app. simpl. lia. }
    rewrite bool_decide_eq_false_2.
    2:{ intros ->. simpl in Hs. destruct Hs as [[<- _] | [E _]]; simpl in *; [lia|].
        destruct body; discriminate. }
    rewrite bool_decide_eq_false_2.
    2:{ rewrite <- length_list_ascii. unfold MAX_SYMBOL_LENGTH. lia. }
    replace (SYMBOL_PATTERN_match s) with true; [reflexivity|]. symmetry.
    apply repeat_then_dollar_spec.
    destruct Hs as [[E H] | [E H]].
    + exists body, []. rewrite app_nil_r. repeat split; auto.
    + exists body, [newline]. repeat split; auto.
Qed.

End SymbolProperties.

(* ===================================================================== *)
(** * The scraper and the update job                                      *)
(* ===================================================================== *)

Section ScraperProperties.

Import SecurityConfig AlertSystem DataLogger AlertDispatch PriceScraper.

Lemma _validate_coin_data_true (coin_data : CoinData) :
  _validate_coin_data coin_data = true ->
  exists d p,
    coin_data = CoinObject d
    /\ d !! "usd"%string = Some (JVal p)
    /\ isinstance_int_float p = true
    /\ py_le p (PyInt 0) = Ok false
    /\ (d !! "usd_24h_change"%string = None
        \/ exists c, d !! "usd_24h_change"%string = Some (JVal c)
                     /\ (c = PyNone \/ isinstance_int_float c = true)).
Proof.
  unfold _validate_coin_data, _validate_coin_data_body.
  destruct coin_data as [d|]; [|discriminate].
  case_bool_decide as Hu; [discriminate|].
  destruct (d !! "usd"%string) as [[p|]|] eqn:Ep; simpl; try discriminate.
  destruct (isinstance_int_float p) eqn:Hi; simpl; [|discriminate].
  destruct (py_le p (PyInt 0)) as [[|]|e] eqn:Hle; simpl; try discriminate.
  intros H. exists d, p. repeat split; auto.
  destruct (d !! "usd_24h_change"%string) as [[c|]|] eqn:Ec; simpl in H.
  - right. exists c. split; [reflexivity|].
    destruct (decide (c = PyNone)) as [->|Hc]; [left; reflexivity|]. right.
    rewrite bool_decide_eq_false_2 in H by congruence. simpl in H.
    destruct (isinstance_int_float c); [reflexivity|].
    rewrite bool_decide_eq_false_2 in H; [discriminate|].
    intros [x Hx]. discriminate.
  - discriminate H.
  - left. reflexivity.
Qed.

Lemma dict_set_keys (k : string) (v : PriceData) (d : Prices) :
  NoDup d.*1 -> NoDup (dict_set k v d).*1.
Proof.
  induction d as [|[k' v'] d IH]; simpl; intros Hnd.
  - apply NoDup_singleton.
  - apply NoDup_cons in Hnd as [Hk Hnd].
    case_bool_decide as E; simpl.
    + subst k'. apply NoDup_cons. auto.
    + apply NoDup_cons. split; [|auto].
      intros Hin. apply Hk. clear -Hin E.
      induction d as [|[k2 v2] d IH]; simpl in *.
      * apply list_elem_of_singleton in Hin. congruence.
      * case_bool_decide; simpl in *.
        -- apply elem_of_cons in Hin as [->|Hin]; [congruence | right; exact Hin].
        -- apply elem_of_cons in Hin as [->|Hin]; [left | right; auto].
Qed.

Lemma dict_set_elem (k : string) (v : PriceData) (d : Prices) k' v' :
  NoDup d.*1 ->
  (k', v') ∈ dict_set k v d <-> (k' = k /\ v' = v) \/ (k' <> k /\ (k', v') ∈ d).
Proof.
  induction d as [|[k2 v2] d IH]; simpl; intros Hnd.
  - rewrite list_elem_of_singleton. split.
    + intros [= -> ->]. auto.
    + intros [[-> ->] | [_ H]]; [reflexivity | inversion H].
  - apply NoDup_cons in Hnd as [Hk Hnd].
    case_bool_decide as E.
    + subst k2. rewrite !elem_of_cons. split.
      * intros [[= -> ->] | Hin]; [auto|].
        right. split; [|auto]. intros ->. apply Hk.
        apply list_elem_of_fmap. exists (k, v'). auto.
      * intros [[-> ->] | [Hne [[= -> ->] | Hin]]]; auto. congruence.
    + rewrite !elem_of_cons, (IH Hnd). split.
      * intros [[= -> ->] | [[-> ->] | [Hne Hin]]]; auto.
      * intros [[-> ->] | [Hne [[= -> ->] | Hin]]]; auto.
Qed.

(** The loop of [get_crypto_prices]: the keys stay distinct, and the
    entries at the end are those at the start and, instead of them where
    the symbol is the same, the records of the symbols that the response
    holds with data that [_validate_coin_data] accepts. *)
Lemma fetch_spec (data : gmap string CoinData) (symbols : list string)
    (results : Prices) :
  NoDup results.*1 ->
  NoDup (fetch data symbols results).*1
  /\ forall s pd,
       (s, pd) ∈ fetch data symbols results <->
       (exists d, s ∈ symbols /\ data !! s = Some (CoinObject d)
                  /\ _validate_coin_data (CoinObject d) = true /\ pd = record s d)
       \/ ((s, pd) ∈ results
           /\ ~ exists d, s ∈ symbols /\ data !! s = Some (CoinObject d)
                          /\ _validate_coin_data (CoinObject d) = true).
Proof.
  revert results. induction symbols as [|symbol rest IH]; intros results Hnd.
  - simpl. split; [exact Hnd|]. intros s pd. split.
    + intros H. right. split; [exact H|]. intros (d & Hin & _). inversion Hin.
    + intros [(d & Hin & _) | [H _]]; [inversion Hin | exact H].
  - assert (Hskip :
      (forall d, data !! symbol = Some (CoinObject d) ->
                 _validate_coin_data (CoinObject d) = false) ->
      fetch data (symbol :: rest) results = fetch data rest results).
    { intros Hno. simpl. destruct (data !! symbol) as [[d|]|] eqn:E; try reflexivity.
      - rewrite (Hno d eq_refl). reflexivity. }
    destruct (data !! symbol) as [[d|]|] eqn:E.
    2,3: rewrite Hskip by (intros d' Hd'; discriminate);
      destruct (IH results Hnd) as [H1 H2]; (split; [exact H1|]);
      intros s pd; rewrite H2; split;
      (intros [(d' & Hin & Hd & Hv & ->) | [Hin Hno]];
       [ left; exists d'; repeat split; auto;
         try (right; exact Hin);
         try (apply elem_of_cons in Hin as [-> | Hin]; [congruence | exact Hin])
       | right; split; [exact Hin|]; intros (d' & Hin' & Hd' & Hv');
         apply Hno; exists d'; repeat split; auto;
         try (right; exact Hin');
         try (apply elem_of_cons in Hin' as [-> | Hin']; [congruence | exact Hin']) ]).
    destruct (_validate_coin_data (CoinObject d)) eqn:Hv.
    + simpl. rewrite E, Hv.
      destruct (IH (dict_set symbol (record symbol d) results)
                  (dict_set_keys _ _ _ Hnd)) as [H1 H2].
      split; [exact H1|]. intros s pd. rewrite H2, (dict_set_elem _ _ _ _ _ Hnd).
      split.
      * intros [(d' & Hin & Hd & Hv' & ->) | [[[-> ->] | [Hne Hin]] Hno]].
        -- left. exists d'. repeat split; auto. right. exact Hin.
        -- left. exists d. repeat split; auto. left.
        -- right. split; [exact Hin|]. intros (d' & Hin' & Hd' & Hv').
           apply Hno. exists d'. repeat split; auto.
           apply elem_of_cons in Hin' as [-> | Hin']; [congruence | exact Hin'].
      * intros [(d' & Hin & Hd & Hv' & ->) | [Hin Hno]].
        -- destruct (decide (s ∈ rest)) as [Hr | Hr].
           ++ left. exists d'. repeat split; auto.
           ++ apply elem_of_cons in Hin as [-> | Hin]; [|contradiction].
              rewrite E in Hd. injection Hd as <-.
              right. split; [left; auto|].
              intros (d' & Hin' & _). contradiction.
        -- right. split.
           ++ right. split; [|exact Hin]. intros ->. apply Hno.
              exists d. repeat split; auto. left.
           ++ intros (d' & Hin' & Hd' & Hv'). apply Hno.
              exists d'. repeat split; auto. right. exact Hin'.
    + rewrite Hskip by (intros d' Hd'; congruence).
      destruct (IH results Hnd) as [H1 H2]. split; [exact H1|].
      intros s pd. rewrite H2. split.
      * intros [(d' & Hin & Hd & Hv' & ->) | [Hin Hno]].
        -- left. exists d'. repeat split; auto. right. exact Hin.
        -- right. split; [exact Hin|]. intros (d' & Hin' & Hd' & Hv').
           apply Hno. exists d'. repeat split; auto.
           apply elem_of_cons in Hin' as [-> | Hin']; [congruence | exact Hin'].
      * intros [(d' & Hin & Hd & Hv' & ->) | [Hin Hno]].
        -- left. exists d'. repeat split; auto.
           apply elem_of_cons in Hin as [-> | Hin]; [congruence | exact Hin].
        -- right. split; [exact Hin|]. intros (d' & Hin' & Hd' & Hv').
           apply Hno. exists d'. repeat split; auto. right. exact Hin'.
Qed.

Section Fetched.

Variables strip lower : string -> string.
Variable len : string -> nat.

Lemma get_crypto_prices_elem (response : option (gmap string CoinData))
    (symbols : option (list PyVal)) :
  NoDup (get_crypto_prices strip lower len response symbols).*1
  /\ forall s pd,
       (s, pd) ∈ get_crypto_prices strip lower len response symbols <->
       exists data d,
         response = Some data
         /\ s ∈ _validate_symbols strip lower len (default (PyStr <$> CRYPTO_ASSETS) symbols)
         /\ data !! s = Some (CoinObject d)
         /\ _validate_coin_data (CoinObject d) = true
         /\ pd = record s d.
Proof.
  unfold get_crypto_prices.
  set (syms := _validate_symbols strip lower len (default (PyStr <$> CRYPTO_ASSETS) symbols)).
  destruct syms as [|sym rest] eqn:Es.
  - split; [constructor|]. intros s pd. split; [intros H; inversion H|].
    intros (data & d & _ & Hin & _). inversion Hin.
  - destruct response as [data|].
    + destruct (fetch_spec data (sym :: rest) []) as [H1 H2]; [constructor|].
      split; [exact H1|]. intros s pd. rewrite H2. split.
      * intros [(d & Hin & Hd & Hv & ->) | [Hin _]]; [|inversion Hin].
        exists data, d. auto.
      * intros (data' & d & [= <-] & Hin & Hd & Hv & ->). left. exists d. auto.
    + split; [constructor|]. intros s pd. split; [intros H; inversion H|].
      intros (data & d & H & _). discriminate.
Qed.

Lemma record_fields (s : string) (d : gmap string Json) :
  record s d !! "price"%string = Some (PriceScraper.field d "usd")
  /\ record s d !! "change_24h"%string = Some (PriceScraper.field d "usd_24h_change")
  /\ record s d !! "type"%string = Some (PyStr "crypto")
  /\ record s d !! "symbol"%string = Some (PyStr s).
Proof. repeat split; reflexivity. Qed.

(** [get_crypto_prices] returns a dict of records of validated coins. The
    keys are distinct; the entries are exactly the records of the cleaned
    symbols for which the response holds data that [_validate_coin_data]
    accepts, one for each symbol however often it was asked for, and none
    when the request fails; and in every record the price is a number of
    the response that is not at most 0 and the type is ['crypto']. *)
Theorem get_crypto_prices_records (response : option (gmap string CoinData))
    (symbols : option (list PyVal)) :
  dict_items (get_crypto_prices strip lower len response symbols)
  /\ (forall s pd,
       (s, pd) ∈ get_crypto_prices strip lower len response symbols <->
       exists data d,
         response = Some data
         /\ s ∈ _validate_symbols strip lower len (default (PyStr <$> CRYPTO_ASSETS) symbols)
         /\ data !! s = Some (CoinObject d)
         /\ _validate_coin_data (CoinObject d) = true
         /\ pd = record s d)
  /\ (forall s pd,
       (s, pd) ∈ get_crypto_prices strip lower len response symbols ->
       exists p, pd !! "price"%string = Some p
         /\ isinstance_int_float p = true
         /\ py_le p (PyInt 0) = Ok false
         /\ pd !! "type"%string = Some (PyStr "crypto")
         /\ pd !! "symbol"%string = Some (PyStr s)).
Proof.
  destruct (get_crypto_prices_elem response symbols) as [H1 H2].
  split; [exact H1|]. split; [exact H2|].
  intros s pd Hin. apply H2 in Hin as (data & d & _ & _ & _ & Hv & ->).
  destruct (_validate_coin_data_true _ Hv) as (d' & p & [= <-] & Hp & Hi & Hle & _).
  exists p. destruct (record_fields s d) as (E1 & _ & E3 & E4).
  rewrite E1. unfold PriceScraper.field. rewrite Hp. auto.
Qed.

Lemma accepted_record_from_coin (response : option (gmap string CoinData))
    (symbols : option (list PyVal)) s pd p c ty :
  (s, pd) ∈ get_crypto_prices strip lower len response symbols ->
  validate_price_data s pd = true ->
  pd !! "price"%string = Some p ->
  pd !! "change_24h"%string = Some c ->
  pd !! "type"%string = Some ty ->
  exists data, response = Some data /\ from_coin data s p c ty.
Proof.
  intros Hin Hv Hp Hc Hty.
  apply (proj2 (get_crypto_prices_elem response symbols)) in Hin
    as (data & d & -> & _ & Hd & Hvc & ->).
  exists data. split; [reflexivity|]. exists d.
  destruct (_validate_coin_data_true _ Hvc) as (d' & p' & [= <-] & Hp' & _).
  destruct (record_fields s d) as (E1 & E2 & E3 & _).
  rewrite E1 in Hp. rewrite E2 in Hc. rewrite E3 in Hty.
  injection Hp as <-. injection Hc as <-. injection Hty as <-.
  destruct (validate_price_data_true _ _ Hv)
    as (_ & p0 & c0 & ty0 & F1 & F2 & _ & V1 & V2 & _).
  rewrite E1 in F1. rewrite E2 in F2. injection F1 as <-. injection F2 as <-.
  unfold PriceScraper.field in V1 |- *. rewrite Hp' in V1 |- *. auto 10.
Qed.

Lemma delivery_of (channels : Channels) (out : Outside) (a : Alert) (d : Delivery) :
  d ∈ send_terminal_alert out a ++ send_email_alert channels out a
      ++ send_webhook_alert channels out a ->
  delivered d = a.
Proof.
  intros Hd. unfold send_terminal_alert, send_email_alert, send_webhook_alert in Hd.
  rewrite !elem_of_app in Hd. destruct Hd as [Hd | [Hd | Hd]];
    repeat (match type of Hd with
            | _ ∈ (if ?b then _ else _) => destruct b eqn:?
            end; try (by inversion Hd));
    apply list_elem_of_singleton in Hd; subst d; reflexivity.
Qed.

(** What one update job admits. [_update_crypto_prices] appends to each
    sink the same new rows (none to a sink whose write fails) and touches
    nothing else of the ledger; every new row is stamped with the time
    [log_prices] read and every delivered alert with the time
    [process_alerts] read; and each of them repeats the price and the
    change of a coin of the response that the validators of
    security_config.py accept. A coin whose [usd_24h_change] is null,
    which [get_crypto_prices] returns, gets no row and no alert. *)
Theorem update_crypto_prices_admits
    (response : option (gmap string CoinData)) (faults : Faults)
    (channels : Channels) (out : Outside) (log_time alert_time : Z)
    (data_logger : DataLogger.t) (alert_system : AlertSystem.t) :
  let r := _update_crypto_prices strip lower len response faults channels out
             log_time alert_time data_logger alert_system in
  exists new,
    table r.1.1 = table data_logger ++ (if sqlite_write_fails faults then [] else new)
    /\ csv r.1.1 = csv data_logger ++ (if csv_write_fails faults then [] else new)
    /\ (forall row, row ∈ new ->
          timestamp row = log_time
          /\ exists data, response = Some data
               /\ from_coin data (symbol row) (price row) (change_24h row)
                    (asset_type row))
    /\ (forall dl, dl ∈ r.2 ->
          alert_timestamp (delivered dl) = alert_time
          /\ exists data, response = Some data
               /\ from_coin data (alert_symbol (delivered dl))
                    (alert_price (delivered dl)) (alert_change_24h (delivered dl))
                    (alert_type (delivered dl)))
    /\ (forall data s d,
          response = Some data ->
          data !! s = Some (CoinObject d) ->
          d !! "usd_24h_change"%string = Some (JVal PyNone) ->
          (forall row, row ∈ new -> symbol row <> s)
          /\ (forall dl, dl ∈ r.2 -> alert_symbol (delivered dl) <> s)).
Proof.
  cbv zeta.
  assert (Hmain : exists new,
    table (_update_crypto_prices strip lower len response faults channels out
             log_time alert_time data_logger alert_system).1.1
      = table data_logger ++ (if sqlite_write_fails faults then [] else new)
    /\ csv (_update_crypto_prices strip lower len response faults channels out
             log_time alert_time data_logger alert_system).1.1
      = csv data_logger ++ (if csv_write_fails faults then [] else new)
    /\ (forall row, row ∈ new ->
          timestamp row = log_time
          /\ exists data, response = Some data
               /\ from_coin data (symbol row) (price row) (change_24h row)
                    (asset_type row))
    /\ (forall dl, dl ∈ (_update_crypto_prices strip lower len response faults channels out
             log_time alert_time data_logger alert_system).2 ->
          alert_timestamp (delivered dl) = alert_time
          /\ exists data, response = Some data
               /\ from_coin data (alert_symbol (delivered dl))
                    (alert_price (delivered dl)) (alert_change_24h (delivered dl))
                    (alert_type (delivered dl)))).
  { unfold _update_crypto_prices.
    pose proof (accepted_record_from_coin response None) as Hacc.
    destruct (get_crypto_prices strip lower len response None) as [|item prices] eqn:Eg.
    - exists []. simpl. destruct (sqlite_write_fails faults), (csv_write_fails faults);
        rewrite ?app_nil_r; (split; [reflexivity|]); (split; [reflexivity|]);
        split; intros x Hx; inversion Hx.
    - set (batch := item :: prices) in *.
      exists (omap (candidate faults (table data_logger) log_time) batch).
      assert (Hrows : forall row,
                row ∈ omap (candidate faults (table data_logger) log_time) batch ->
                timestamp row = log_time
                /\ exists data, response = Some data
                     /\ from_coin data (symbol row) (price row) (change_24h row)
                          (asset_type row)).
      { intros row Hrow. apply list_elem_of_omap in Hrow as ([s pd] & Hin & E).
        apply candidate_Some in E as (Ht & Hs & Hv & Hty & Hp & Hc & _).
        split; [exact Ht|]. subst s. eapply Hacc; eauto. }
      destruct (check_price_alerts_effect alert_system alert_time batch)
        as (self' & alerts & H & _ & _ & Hb & _).
      rewrite log_prices_unfold. cbv zeta.
      unfold process_alerts. rewrite H. simpl.
      split; [destruct (sqlite_write_fails faults); by rewrite ?app_nil_r|].
      split; [destruct (csv_write_fails faults); by rewrite ?app_nil_r|].
      split; [exact Hrows|].
      intros dl Hdl. apply elem_of_concat_fmap in Hdl as (a & Ha & Hdl).
      apply delivery_of in Hdl. subst a.
      rewrite Forall_forall in Hb.
      destruct (Hb _ Ha) as (Ht & _ & pd & Hin & Hv & Hc & Hp & Hty & _).
      split; [exact Ht|]. eapply Hacc; eauto. }
  destruct Hmain as (new & H1 & H2 & H3 & H4).
  exists new. split; [exact H1|]. split; [exact H2|]. split; [exact H3|].
  split; [exact H4|].
  intros data s d -> Hd Hnull.
  assert (Hno : forall p c ty, ~ from_coin data s p c ty).
  { intros p c ty (d' & Hd' & _ & Hc & _ & _ & Hv).
    rewrite Hd in Hd'. injection Hd' as <-.
    unfold PriceScraper.field in Hc. rewrite Hnull in Hc. subst c. discriminate. }
  split.
  - intros row Hrow <-. destruct (H3 row Hrow) as (_ & data' & [= <-] & Hf).
    exact (Hno _ _ _ Hf).
  - intros dl Hdl <-. destruct (H4 dl Hdl) as (_ & data' & [= <-] & Hf).
    exact (Hno _ _ _ Hf).
Qed.

End Fetched.

(** The coin of [null_change_response] is fetched, and the job that
    fetched it writes no row and raises no alert. *)
Lemma null_change_fetched_not_logged :
  (get_crypto_prices unchanged unchanged String.length (Some null_change_response) None).*1
  = ["bitcoin"%string]
  /\ _update_crypto_prices unchanged unchanged String.length (Some null_change_response)
       no_faults default_channels all_channels_down 0 0
       DataLogger.empty AlertSystem.init
     = (DataLogger.empty, AlertSystem.init, []).
Proof. split; vm_compute; reflexivity. Qed.

End ScraperProperties.

(* ===================================================================== *)
(** * The chart view                                                      *)
(* ===================================================================== *)

Section ChartProperties.

Import DataLogger DataLoggerReads Dashboard.

Variable str_to_float : string -> option spec_float.
Variable lower : string -> string.
Variable order_asc : list Row -> list Row.
Hypothesis order_asc_perm : forall rows, order_asc rows ≡ₚ rows.
Hypothesis order_asc_sorted : forall rows, StronglySorted older (order_asc rows).

Lemma get_asset_history_hours (self : DataLogger.t) (now : Z) (symbol : string) (h : Z) :
  symbol <> ""%string ->
  1 <= h <= MAX_HISTORY_HOURS ->
  get_asset_history order_asc false self now symbol (PyInt h)
  = history_columns <$>
      order_asc (filter (fun r => DataLogger.symbol r = symbol
                                  /\ now - h * HOUR <= timestamp r <= now)
                   (table self)).
Proof.
  intros Hs Hh. unfold get_asset_history. simpl.
  rewrite bool_decide_eq_false_2 by exact Hs.
  rewrite (bool_decide_eq_false_2 (h <= 0)) by lia.
  rewrite (bool_decide_eq_false_2 (h > MAX_HISTORY_HOURS)) by lia. reflexivity.
Qed.

Lemma chart_hours {A} (hours_arg : option Z) (k : Z -> outcome A) :
  (exists e, validate_numeric_input str_to_float
               (JVal (PyInt (default CHART_HISTORY_HOURS hours_arg)))
               (Some (PyInt 1)) (Some (PyInt 168))
             ≫= (fun hours => match hours with
                              | None => Returns CHART_HISTORY_HOURS
                              | Some hours => py_int hours
                              end ≫= k) = Raises e)
  \/ exists h, 1 <= h <= 168 /\ (hours_arg = None -> h = CHART_HISTORY_HOURS)
       /\ validate_numeric_input str_to_float
            (JVal (PyInt (default CHART_HISTORY_HOURS hours_arg)))
            (Some (PyInt 1)) (Some (PyInt 168))
          ≫= (fun hours => match hours with
                           | None => Returns CHART_HISTORY_HOURS
                           | Some hours => py_int hours
                           end ≫= k) = k h.
Proof.
  destruct hours_arg as [n|]; simpl.
  - destruct (validate_numeric_input str_to_float (JVal (PyInt n)) _ _)
      as [[f|]|e] eqn:Hv; simpl.
    + apply validate_numeric_input_Some
        in Hv as (_ & xl & xh & [= <-] & [= <-] & Hlt & Hgt).
      destruct (py_int f) as [z|e] eqn:Hz; simpl; [|left; eauto].
      right. exists z. split; [|split; [discriminate | reflexivity]].
      exact (py_int_between f 1 168 z eq_refl Hlt Hgt Hz).
    + right. exists CHART_HISTORY_HOURS. unfold CHART_HISTORY_HOURS.
      split; [lia|]. split; reflexivity.
    + left. eauto.
  - right. exists CHART_HISTORY_HOURS. unfold CHART_HISTORY_HOURS.
    split; [lia|]. split; reflexivity.
Qed.

(** [api_chart] charts a trailing window of one week at most. The view
    answers 200, 400, 404 or 500, with points only when it answers 200.
    When it answers 200 the database did not raise and there is an [h]
    from 1 to 168, which is 24 when the query names no hours, such that
    the points are the (timestamp, price) of exactly the rows of the
    table that bear the symbol as it was given and are stamped from
    [now - h] hours to [now]; there is at least one; and the points
    ascend by timestamp. *)
Theorem api_chart_window
    (fails : bool) (now : Z) (data_logger : DataLogger.t) (symbol : string)
    (hours_arg : option Z) :
  let r := api_chart str_to_float lower order_asc fails now data_logger symbol
             hours_arg in
  (r.1 = 200 \/ r.1 = 400 \/ r.1 = 404 \/ r.1 = 500)
  /\ (r.1 <> 200 -> r.2 = [])
  /\ (r.1 = 200 ->
      fails = false /\ r.2 <> []
      /\ exists h, 1 <= h <= 168 /\ (hours_arg = None -> h = 24)
           /\ (forall pt, pt ∈ r.2 <->
                 exists row, row ∈ table data_logger
                   /\ DataLogger.symbol row = symbol
                   /\ now - h * HOUR <= timestamp row <= now
                   /\ pt = (timestamp row, price row))
           /\ StronglySorted (fun p1 p2 => p1.1 <= p2.1) r.2).
Proof.
  cbv zeta. unfold api_chart.
  destruct (validate_symbol lower symbol) eqn:Hsym; simpl.
  2:{ split; [auto|]. split; [reflexivity | discriminate]. }
  assert (Hs : symbol <> ""%string).
  { intros ->. unfold validate_symbol in Hsym.
    rewrite bool_decide_eq_true_2 in Hsym by reflexivity. discriminate. }
  match goal with
  | |- context [_ ≫= (fun hours => _ ≫= ?k)] =>
      destruct (chart_hours hours_arg k) as [(e & ->) | (h & Hh & Hdef & ->)]
  end; simpl.
  { split; [auto 6|]. split; [reflexivity | discriminate]. }
  destruct fails.
  { assert (E : get_asset_history order_asc true data_logger now symbol (PyInt h) = []).
    { unfold get_asset_history. case_bool_decide; reflexivity. }
    rewrite E. simpl. split; [auto|]. split; [reflexivity | discriminate]. }
  rewrite (get_asset_history_hours data_logger now symbol h Hs)
    by (unfold MAX_HISTORY_HOURS; lia).
  set (rows := order_asc (filter (fun r => DataLogger.symbol r = symbol
                                           /\ now - h * HOUR <= timestamp r <= now)
                            (table data_logger))).
  assert (Hrows : forall row, row ∈ rows <->
            row ∈ table data_logger /\ DataLogger.symbol row = symbol
            /\ now - h * HOUR <= timestamp row <= now).
  { intros row. unfold rows. rewrite order_asc_perm, list_elem_of_filter. tauto. }
  assert (Hsorted : StronglySorted older rows) by apply order_asc_sorted.
  destruct rows as [|row0 rows]; simpl.
  { split; [auto|]. split; [reflexivity | discriminate]. }
  split; [auto|]. split; [congruence|]. intros _.
  split; [reflexivity|]. split; [discriminate|].
  exists h. split; [exact Hh|]. split; [exact Hdef|].
  change ((timestamp row0, price row0)
          :: list_fmap _ _ (fun e : Z * PyVal * PyVal => (e.1.1, e.1.2))
               (list_fmap _ _ history_columns rows))
    with ((fun e : Z * PyVal * PyVal => (e.1.1, e.1.2)) <$>
            (history_columns <$> (row0 :: rows))).
  rewrite <- list_fmap_compose.
  split.
  - intros pt. rewrite list_elem_of_fmap. split.
    + intros (row & -> & Hin). apply Hrows in Hin as (H1 & H2 & H3).
      exists row. auto.
    + intros (row & H1 & H2 & H3 & ->). exists row. split; [reflexivity|].
      apply Hrows. auto.
  - apply (StronglySorted_fmap _ older); [|exact Hsorted].
    intros x y Hxy. exact Hxy.
Qed.

End ChartProperties.

Section ChartSamples.

Import DataLogger DataLoggerReads Dashboard.

Lemma api_chart_window_witness :
  let r := api_chart no_strings unchanged merge_order_asc false purge_now
             {| table := [recent_row]; csv := [] |} "bitcoin" (Some 168) in
  (r.1 = 200 \/ r.1 = 400 \/ r.1 = 404 \/ r.1 = 500)
  /\ (r.1 <> 200 -> r.2 = [])
  /\ (r.1 = 200 ->
      false = false /\ r.2 <> []
      /\ exists h, 1 <= h <= 168 /\ (Some 168 = None -> h = 24)
           /\ (forall pt, pt ∈ r.2 <->
                 exists row, row ∈ [recent_row]
                   /\ DataLogger.symbol row = "bitcoin"%string
                   /\ purge_now - h * HOUR <= timestamp row <= purge_now
                   /\ pt = (timestamp row, price row))
           /\ StronglySorted (fun p1 p2 => p1.1 <= p2.1) r.2).
Proof.
  exact (api_chart_window no_strings unchanged merge_order_asc
           merge_order_asc_perm merge_order_asc_sorted
           false purge_now {| table := [recent_row]; csv := [] |} "bitcoin" (Some 168)).
Defined.

End ChartSamples.

(* ===================================================================== *)
(** * The pause between two requests                                      *)
(* ===================================================================== *)

Section RateLimitProperties.

Import PriceScraper.
Local Open Scope Q_scope.

Lemma rate_limit_delay_reads : value (PyFloat rate_limit_delay) = Some min_interval.
Proof. vm_compute. reflexivity. Qed.

(** [min_interval] is 60/50 to within half a unit in the last place. *)
Lemma min_interval_value :
  (6 # 5) - (1 # 9007199254740992) <= min_interval /\ min_interval <= (6 # 5).
Proof. unfold min_interval, dyadic_Q. split; vm_compute; discriminate. Qed.

Lemma reads_num (f : spec_float) (q : Q) :
  reads f q -> exists m e, float_num f = XFin m e /\ dyadic_Q m e == q.
Proof.
  intros (q' & Hv & Hq).
  destruct (value_finite _ _ Hv) as (m & e & Hn & -> & _).
  simpl in Hn. injection Hn as Hn. eauto.
Qed.

(** C9. [_rate_limit] waits for the rest of the interval and returns.
    Let the clock read finite times and not run backwards ([q_last], the
    time stored by the previous call as it returned, then [q1] and [q2] in
    the call), let the two subtractions be exact, as they are on readings
    of a clock that lie within a factor of two of each other, let
    [time.sleep] accept a positive duration of at most the interval, and
    let a sleep of [d] seconds between the two readings take at least [d]
    seconds by the clock. Then the call returns; it stores its second
    reading as [last_request_time], and that reading is at least
    [min_interval] (60/50 as binary64) after the stored time of the
    previous call; and besides that write the call reads the clock twice
    and sleeps between the readings, for a positive duration, exactly when
    less than the interval had passed at the first reading. *)
Theorem rate_limit_waits
    (sleep_raises : spec_float -> bool) (last t1 t2 : spec_float)
    (q_last q1 q2 : Q) :
  reads last q_last -> reads t1 q1 -> reads t2 q2 ->
  q_last <= q1 -> q1 <= q2 ->
  reads (SFsub prec emax t1 last) (q1 - q_last) ->
  (q1 - q_last < min_interval ->
   reads (SFsub prec emax rate_limit_delay (SFsub prec emax t1 last))
     (min_interval - (q1 - q_last))) ->
  (forall d qd, reads d qd -> 0 < qd -> qd <= min_interval ->
     sleep_raises d = false) ->
  (forall r d qd,
     _rate_limit sleep_raises last t1 t2 = Some r -> Sleep d ∈ r.2 ->
     reads d qd -> q1 + qd <= q2) ->
  exists effects,
    _rate_limit sleep_raises last t1 t2 = Some (t2, effects)
    /\ min_interval <= q2 - q_last
    /\ ((min_interval <= q1 - q_last /\ effects = [ReadClock t1; ReadClock t2])
        \/ (q1 - q_last < min_interval
            /\ exists d qd, effects = [ReadClock t1; Sleep d; ReadClock t2]
                 /\ reads d qd /\ 0 < qd)).
Proof.
  intros Hlast H1 H2 Hback Hmono Hsub Hsub2 Hraises Hsleep.
  destruct (reads_num _ _ Hsub) as (m & e & Hn & Hq).
  assert (Hd : float_num rate_limit_delay = XFin 5404319552844595 (-52))
    by (vm_compute; reflexivity).
  assert (Hcmp : num_lt (float_num (SFsub prec emax t1 last))
                   (float_num rate_limit_delay) = true
                 <-> q1 - q_last < min_interval).
  { rewrite Hn, Hd, num_lt_Q. unfold min_interval. rewrite Hq. reflexivity. }
  destruct (num_lt (float_num (SFsub prec emax t1 last)) (float_num rate_limit_delay))
    eqn:Hlt.
  - assert (Hshort : q1 - q_last < min_interval) by (apply Hcmp; reflexivity).
    specialize (Hsub2 Hshort).
    assert (Hpos : 0 < min_interval - (q1 - q_last)) by lra.
    assert (Hle : min_interval - (q1 - q_last) <= min_interval) by lra.
    assert (E : _rate_limit sleep_raises last t1 t2
                = Some (t2, [ReadClock t1;
                             Sleep (SFsub prec emax rate_limit_delay
                                      (SFsub prec emax t1 last));
                             ReadClock t2])).
    { unfold _rate_limit. cbv zeta. rewrite Hlt.
      rewrite (Hraises _ _ Hsub2 Hpos Hle). reflexivity. }
    eexists. split; [exact E|].
    assert (Hwait : q1 + (min_interval - (q1 - q_last)) <= q2).
    { apply (Hsleep _ (SFsub prec emax rate_limit_delay (SFsub prec emax t1 last))
               _ E); [|exact Hsub2]. simpl. right. left. }
    split; [lra|]. right. split; [exact Hshort|]. eauto.
  - assert (Hlong : min_interval <= q1 - q_last).
    { apply Qnot_lt_le. intros H. apply Hcmp in H. discriminate. }
    eexists. split.
    + unfold _rate_limit. cbv zeta. rewrite Hlt. reflexivity.
    + split; [lra|]. left. auto.
Qed.

Lemma reads_literal (f : spec_float) (q' q : Q) :
  value (PyFloat f) = Some q' -> q' == q -> reads f q.
Proof. intros Hv Hq. exists q'. auto. Qed.

Lemma rate_limit_waits_witness :
  exists effects,
    _rate_limit sleep_refuses_negative (float_lit 1000 0) (float_lit 2001 (-1))
      (float_lit 4005 (-2))
    = Some (float_lit 4005 (-2), effects)
    /\ min_interval <= (4005 # 4) - 1000
    /\ ((min_interval <= (2001 # 2) - 1000
         /\ effects = [ReadClock (float_lit 2001 (-1)); ReadClock (float_lit 4005 (-2))])
        \/ ((2001 # 2) - 1000 < min_interval
            /\ exists d qd,
                 effects = [ReadClock (float_lit 2001 (-1)); Sleep d;
                            ReadClock (float_lit 4005 (-2))]
                 /\ reads d qd /\ 0 < qd)).
Proof.
  apply (rate_limit_waits sleep_refuses_negative (float_lit 1000 0)
           (float_lit 2001 (-1)) (float_lit 4005 (-2)) 1000 (2001 # 2) (4005 # 4)).
  - eapply reads_literal; [vm_compute; reflexivity | vm_compute; reflexivity].
  - eapply reads_literal; [vm_compute; reflexivity | vm_compute; reflexivity].
  - eapply reads_literal; [vm_compute; reflexivity | vm_compute; reflexivity].
  - vm_compute. discriminate.
  - vm_compute. discriminate.
  - eapply reads_literal; [vm_compute; reflexivity | vm_compute; reflexivity].
  - intros _. eapply reads_literal; [vm_compute; reflexivity | vm_compute; reflexivity].
  - intros d qd Hd Hpos _. unfold sleep_refuses_negative.
    destruct (reads_num _ _ Hd) as (m & e & -> & Hq).
    destruct (num_lt (XFin m e) (XFin 0 0)) eqn:E; [|reflexivity].
    apply num_lt_Q in E. rewrite Hq, dyadic_Q_int in E.
    change (inject_Z 0) with 0 in E. lra.
  - intros r d qd Hr Hin (q' & Hv & Hq).
    vm_compute in Hr. injection Hr as <-. simpl in Hin.
    apply elem_of_cons in Hin as [Hin | Hin]; [discriminate|].
    apply elem_of_cons in Hin as [Hin | Hin].
    + injection Hin as ->. vm_compute in Hv. injection Hv as <-.
      rewrite <- Hq. vm_compute. discriminate.
    + apply list_elem_of_singleton in Hin. discriminate.
Defined.

End RateLimitProperties.
